(** * Request/response schemas of the department and lecture resources

    A shallow embedding of [models/departments.py] and [models/lectures.py].
    Both modules are declarative: each class lists typed fields, and the
    meaning of a class is what pydantic's [BaseModel] does with that list when
    an input mapping is validated.  The development therefore has three
    layers:

    - Python values as the schemas see them (strings, dates, datetimes,
      UUIDs), with the textual forms used on the wire;
    - the validation machinery the declarations rely on (string patterns,
      per-type validators, field defaults and default factories, collection
      of errors);
    - the eight classes, transcribed field by field, and the properties that
      hold of them. *)

From Stdlib Require Import ZArith NArith List String Ascii Bool Lia.
From Stdlib.Strings Require Import Byte.
From stdpp Require Import gmap strings list fin_maps.

Local Open Scope N_scope.

(** ** Python strings *)

(** A Python [str] is a sequence of code points. *)
Abbreviation codepoint := N.
Abbreviation pystr := (list codepoint).

Definition ord (c : ascii) : codepoint := N_of_ascii c.

(** Code points of an ASCII literal. *)
Definition lit (s : string) : pystr := map ord (list_ascii_of_string s).

(** A [str] may hold lone surrogates (U+D800 to U+DFFF).  Such a string has
    no UTF-8 form: it cannot be handed to the regular expression engine, nor
    written as JSON. *)
Definition is_surrogate (c : codepoint) : bool := (0xD800 <=? c) && (c <=? 0xDFFF).

Definition well_formed (s : pystr) : bool := forallb (λ c, negb (is_surrogate c)) s.

(** *** Bytes

    [bytes] and [bytearray] values are read as UTF-8 where a string is
    expected ([str::from_utf8]): shortest forms only, no surrogates, nothing
    above U+10FFFF. *)
Abbreviation pybytes := (list byte).

(** Bytes of an ASCII literal. *)
Definition blit (s : string) : pybytes := map byte_of_ascii (list_ascii_of_string s).

Definition continuation (b : byte) : option N :=
  let n := Byte.to_N b in
  if (0x80 <=? n) && (n <=? 0xBF) then Some (n - 0x80) else None.

Fixpoint utf8_decode (bs : pybytes) : option pystr :=
  match bs with
  | [] => Some []
  | b0 :: bs1 =>
      let n0 := Byte.to_N b0 in
      if n0 <? 0x80 then
        match utf8_decode bs1 with Some s => Some (n0 :: s) | None => None end
      else if n0 <? 0xC2 then None
      else if n0 <? 0xE0 then
        match bs1 with
        | b1 :: bs2 =>
            match continuation b1, utf8_decode bs2 with
            | Some c1, Some s => Some ((n0 - 0xC0) * 64 + c1 :: s)
            | _, _ => None
            end
        | _ => None
        end
      else if n0 <? 0xF0 then
        match bs1 with
        | b1 :: b2 :: bs3 =>
            match continuation b1, continuation b2, utf8_decode bs3 with
            | Some c1, Some c2, Some s =>
                let c := (n0 - 0xE0) * 4096 + c1 * 64 + c2 in
                if (0x800 <=? c) && negb (is_surrogate c) then Some (c :: s) else None
            | _, _, _ => None
            end
        | _ => None
        end
      else if n0 <? 0xF5 then
        match bs1 with
        | b1 :: b2 :: b3 :: bs4 =>
            match continuation b1, continuation b2, continuation b3, utf8_decode bs4 with
            | Some c1, Some c2, Some c3, Some s =>
                let c := (n0 - 0xF0) * 262144 + c1 * 4096 + c2 * 64 + c3 in
                if (0x10000 <=? c) && (c <=? 0x10FFFF) then Some (c :: s) else None
            | _, _, _, _ => None
            end
        | _ => None
        end
      else None
  end.

(** ** Regular expressions

    [StringConstraints(pattern=...)] hands the pattern to the regular
    expression engine and accepts a string when the pattern is found somewhere
    in it ([is_match]).  The fragment below covers the syntax that the pattern
    of [UNIType] uses: text anchors, bracketed classes with ranges, the Perl
    class [\d], concatenation and counted repetition. *)

(** [\d] is Unicode-aware: it denotes the code points of general category
    Nd, not only [0-9].  That set grows with the version of Unicode that the
    engine is built with, and the schemas do not fix the version.  The
    table below lists Nd as of Unicode 14.0, as inclusive ranges; the digits
    assigned since ([later_digit]) are a parameter of the development, and
    every result holds whatever they are.  Surrogates are not among them:
    their category is fixed. *)
Class Unicode := {
  later_digit : codepoint -> bool;
  later_digit_scalar : forall c, later_digit c = true -> is_surrogate c = false
}.

Definition decimal_digit_ranges : list (N * N) :=
  [ (0x30, 0x39); (0x660, 0x669); (0x6F0, 0x6F9); (0x7C0, 0x7C9);
    (0x966, 0x96F); (0x9E6, 0x9EF); (0xA66, 0xA6F); (0xAE6, 0xAEF);
    (0xB66, 0xB6F); (0xBE6, 0xBEF); (0xC66, 0xC6F); (0xCE6, 0xCEF);
    (0xD66, 0xD6F); (0xDE6, 0xDEF); (0xE50, 0xE59); (0xED0, 0xED9);
    (0xF20, 0xF29); (0x1040, 0x1049); (0x1090, 0x1099); (0x17E0, 0x17E9);
    (0x1810, 0x1819); (0x1946, 0x194F); (0x19D0, 0x19D9); (0x1A80, 0x1A89);
    (0x1A90, 0x1A99); (0x1B50, 0x1B59); (0x1BB0, 0x1BB9); (0x1C40, 0x1C49);
    (0x1C50, 0x1C59); (0xA620, 0xA629); (0xA8D0, 0xA8D9); (0xA900, 0xA909);
    (0xA9D0, 0xA9D9); (0xA9F0, 0xA9F9); (0xAA50, 0xAA59); (0xABF0, 0xABF9);
    (0xFF10, 0xFF19); (0x104A0, 0x104A9); (0x10D30, 0x10D39);
    (0x11066, 0x1106F); (0x110F0, 0x110F9); (0x11136, 0x1113F);
    (0x111D0, 0x111D9); (0x112F0, 0x112F9); (0x11450, 0x11459);
    (0x114D0, 0x114D9); (0x11650, 0x11659); (0x116C0, 0x116C9);
    (0x11730, 0x11739); (0x118E0, 0x118E9); (0x11950, 0x11959);
    (0x11C50, 0x11C59); (0x11D50, 0x11D59); (0x11DA0, 0x11DA9);
    (0x16A60, 0x16A69); (0x16AC0, 0x16AC9); (0x16B50, 0x16B59);
    (0x1D7CE, 0x1D7FF); (0x1E140, 0x1E149); (0x1E2F0, 0x1E2F9);
    (0x1E950, 0x1E959); (0x1FBF0, 0x1FBF9) ].

Definition in_range (c : codepoint) (r : N * N) : bool :=
  (fst r <=? c) && (c <=? snd r).

Definition is_decimal_digit {uni : Unicode} (c : codepoint) : bool :=
  existsb (in_range c) decimal_digit_ranges || later_digit c.

Definition is_ascii_digit (c : codepoint) : bool := in_range c (ord "0", ord "9").
Definition is_ascii_lower (c : codepoint) : bool := in_range c (ord "a", ord "z").

Inductive class_item :=
  | ClassRange (lo hi : codepoint)   (* [lo-hi] *)
  | PerlDigit.                       (* \d *)

Definition class_item_matches {uni : Unicode} (c : codepoint) (i : class_item) : bool :=
  match i with
  | ClassRange lo hi => in_range c (lo, hi)
  | PerlDigit => is_decimal_digit c
  end.

Inductive regex :=
  | StartText                          (* ^ *)
  | EndText                            (* $ *)
  | CharClass (items : list class_item)
  | Concat (r1 r2 : regex)
  | Repeat (r : regex) (lo hi : nat).  (* r{lo,hi} *)

(** A continuation receives whether the position is still the beginning of
    the text, and the rest of the text. *)
Definition cont := bool -> pystr -> bool.

Fixpoint at_least (step : cont -> cont) (n : nat) (k : cont) : cont :=
  match n with
  | O => k
  | S n' => step (at_least step n' k)
  end.

Fixpoint at_most (step : cont -> cont) (n : nat) (k : cont) : cont :=
  fun bot s =>
    match n with
    | O => k bot s
    | S n' => step (at_most step n' k) bot s || k bot s
    end.

Fixpoint match_here {uni : Unicode} (r : regex) (k : cont) (bot : bool) (s : pystr)
    {struct r} : bool :=
  match r with
  | StartText => bot && k bot s
  | EndText => match s with [] => k bot s | _ :: _ => false end
  | CharClass items =>
      match s with
      | c :: s' => existsb (class_item_matches c) items && k false s'
      | [] => false
      end
  | Concat r1 r2 => match_here r1 (match_here r2 k) bot s
  | Repeat r1 lo hi =>
      at_least (match_here r1) lo (at_most (match_here r1) (hi - lo) k) bot s
  end.

Definition accept : cont := fun _ _ => true.

Fixpoint search_from {uni : Unicode} (r : regex) (bot : bool) (s : pystr) : bool :=
  match_here r accept bot s ||
  match s with
  | [] => false
  | _ :: s' => search_from r false s'
  end.

(** [Regex::is_match]: the pattern occurs at some position of the text. *)
Definition is_match {uni : Unicode} (r : regex) (s : pystr) : bool :=
  search_from r true s.

(** *** Pattern syntax

    Patterns are written in the source as text.  [compile] reads the fragment
    of the syntax described above; anything else is not a pattern of this
    development and yields [None]. *)

Definition ascii_digit_value (a : ascii) : option nat :=
  let n := N_of_ascii a in
  if (48 <=? n) && (n <=? 57) then Some (N.to_nat (n - 48)) else None.

Fixpoint parse_count (s : list ascii) (acc : nat) : nat * list ascii :=
  match s with
  | a :: s' =>
      match ascii_digit_value a with
      | Some d => parse_count s' (10 * acc + d)%nat
      | None => (acc, s)
      end
  | [] => (acc, s)
  end.

Fixpoint parse_class (s : list ascii) : option (list class_item * list ascii) :=
  match s with
  | a :: s1 =>
      if Ascii.eqb a "]" then Some ([], s1)
      else match s1 with
           | dash :: hi :: s3 =>
               if Ascii.eqb dash "-" then
                 '(items, rest) ← parse_class s3;
                 Some (ClassRange (ord a) (ord hi) :: items, rest)
               else None
           | _ => None
           end
  | [] => None
  end.

Definition parse_atom (s : list ascii) : option (regex * list ascii) :=
  match s with
  | a :: s1 =>
      if Ascii.eqb a "^" then Some (StartText, s1)
      else if Ascii.eqb a "$" then Some (EndText, s1)
      else if Ascii.eqb a "[" then
        '(items, rest) ← parse_class s1; Some (CharClass items, rest)
      else if Ascii.eqb a "\" then
        match s1 with
        | b :: s2 => if Ascii.eqb b "d" then Some (CharClass [PerlDigit], s2) else None
        | [] => None
        end
      else None
  | [] => None
  end.

Definition parse_quantifier (r : regex) (s : list ascii) : option (regex * list ascii) :=
  match s with
  | a :: s1 =>
      if Ascii.eqb a "{" then
        let '(lo, s2) := parse_count s1 0%nat in
        match s2 with
        | comma :: s3 =>
            let '(hi, s4) := parse_count s3 0%nat in
            match s4 with
            | close :: s5 =>
                if Ascii.eqb comma "," && Ascii.eqb close "}" && (lo <=? hi)%nat
                then Some (Repeat r lo hi, s5) else None
            | [] => None
            end
        | [] => None
        end
      else Some (r, s)
  | [] => Some (r, s)
  end.

Fixpoint parse_sequence (fuel : nat) (s : list ascii) : option (list regex) :=
  match s, fuel with
  | [], _ => Some []
  | _, O => None
  | _, S fuel' =>
      '(atom, s1) ← parse_atom s;
      '(r, s2) ← parse_quantifier atom s1;
      rs ← parse_sequence fuel' s2;
      Some (r :: rs)
  end.

Fixpoint concat_all (rs : list regex) : option regex :=
  match rs with
  | [] => None
  | [r] => Some r
  | r :: rs' => Concat r <$> concat_all rs'
  end.

Definition compile (pattern : string) : option regex :=
  let s := list_ascii_of_string pattern in
  parse_sequence (length s) s ≫= concat_all.

(** ** Dates, datetimes and UUIDs

    Instances of [datetime.date], [datetime.datetime] and [uuid.UUID] are
    valid by construction in Python (the constructors raise otherwise); the
    records carry that class invariant. *)

Definition is_leap (y : N) : bool :=
  (y mod 4 =? 0) && (negb (y mod 100 =? 0) || (y mod 400 =? 0)).

Definition days_in_month (y m : N) : N :=
  match m with
  | 2 => if is_leap y then 29 else 28
  | 4 | 6 | 9 | 11 => 30
  | _ => 31
  end.

Definition valid_date (y m d : N) : bool :=
  (1 <=? y) && (y <=? 9999) && (1 <=? m) && (m <=? 12) &&
  (1 <=? d) && (d <=? days_in_month y m).

Record date := Date {
  year : N;
  month : N;
  day : N;
  date_valid : Is_true (valid_date year month day)
}.

(** [tzinfo] is [None] for a naive datetime and the UTC offset for an aware
    one.  The offset is a [timedelta] strictly between -24 and 24 hours, here
    in microseconds: it need not be a whole number of minutes. *)
Definition day_us : Z := 86400000000.
Definition minute_us : Z := 60000000.

Definition valid_time (h mi s us : N) (tz : option Z) : bool :=
  (h <? 24) && (mi <? 60) && (s <? 60) && (us <? 1000000) &&
  match tz with
  | None => true
  | Some off => ((- day_us <? off) && (off <? day_us))%Z
  end.

Record datetime := Datetime {
  dt_date : date;
  hour : N;
  minute : N;
  second : N;
  microsecond : N;
  tzinfo : option Z;
  datetime_valid : Is_true (valid_time hour minute second microsecond tzinfo)
}.

Record UUID := MkUUID {
  int : N;
  UUID_valid : Is_true (int <? 2 ^ 128)
}.

Definition make_date (y m d : N) : option date :=
  match decide (Is_true (valid_date y m d)) with
  | left H => Some (Date y m d H)
  | right _ => None
  end.

Definition make_datetime (d : date) (h mi s us : N) (tz : option Z) : option datetime :=
  match decide (Is_true (valid_time h mi s us tz)) with
  | left H => Some (Datetime d h mi s us tz H)
  | right _ => None
  end.

Definition make_UUID (n : N) : option UUID :=
  match decide (Is_true (n <? 2 ^ 128)) with
  | left H => Some (MkUUID n H)
  | right _ => None
  end.

(** *** Textual forms *)

Definition digit_char (v : N) : codepoint := if v <? 10 then 48 + v else 87 + v.

Definition char_digit (base : N) (c : codepoint) : option N :=
  let v := if (48 <=? c) && (c <=? 57) then Some (c - 48)
           else if (97 <=? c) && (c <=? 102) then Some (c - 87)
           else None in
  v ≫= λ v, if v <? base then Some v else None.

(** [width] digits in the given base, most significant first, zero padded
    (["%04d"], ["%02d"], ["%032x"]). *)
Fixpoint format_fixed (base : N) (width : nat) (n : N) : pystr :=
  match width with
  | O => []
  | S w => digit_char (n / base ^ N.of_nat w) :: format_fixed base w (n mod base ^ N.of_nat w)
  end.

Fixpoint parse_fixed (base : N) (width : nat) (s : pystr) : option (N * pystr) :=
  match width with
  | O => Some (0, s)
  | S w =>
      match s with
      | c :: s' =>
          d ← char_digit base c;
          '(n, rest) ← parse_fixed base w s';
          Some (d * base ^ N.of_nat w + n, rest)
      | [] => None
      end
  end.

Definition expect (c : ascii) (s : pystr) : option pystr :=
  match s with
  | c' :: rest => if c' =? ord c then Some rest else None
  | [] => None
  end.

(** [date.isoformat]: YYYY-MM-DD. *)
Definition date_isoformat (d : date) : pystr :=
  format_fixed 10 4 (year d) ++ lit "-" ++ format_fixed 10 2 (month d) ++
  lit "-" ++ format_fixed 10 2 (day d).

Definition parse_date_prefix (s : pystr) : option (date * pystr) :=
  '(y, s) ← parse_fixed 10 4 s;
  s ← expect "-" s;
  '(m, s) ← parse_fixed 10 2 s;
  s ← expect "-" s;
  '(d, s) ← parse_fixed 10 2 s;
  r ← make_date y m d;
  Some (r, s).

Definition date_fromisoformat (s : pystr) : option date :=
  '(d, rest) ← parse_date_prefix s;
  match rest with [] => Some d | _ :: _ => None end.

(** The offset as the serializer takes it: in seconds, rounded to the
    nearest, halves away from zero. *)
Definition offset_seconds (off : Z) : Z :=
  (Z.sgn off * ((Z.abs off + 500000) / 1000000))%Z.

(** The offset as it is written: [Z] when it is zero seconds, otherwise the
    sign and the hours and minutes of its magnitude.  Seconds are dropped, so
    an offset below one minute is written [+00:00] or [-00:00]. *)
Definition format_tz (tz : option Z) : pystr :=
  match tz with
  | None => []
  | Some off =>
      let secs := offset_seconds off in
      if (secs =? 0)%Z then lit "Z"
      else
        let mins := Z.to_N (Z.abs secs) / 60 in
        lit (if (secs <? 0)%Z then "-" else "+") ++
        format_fixed 10 2 (mins / 60) ++ lit ":" ++ format_fixed 10 2 (mins mod 60)
  end.

(** Offsets as they are read: [Z], or a sign and HH:MM with the minutes below
    60; [+00:00] is UTC.  (A negative zero is left to the lax conversions.) *)
Definition parse_tz (s : pystr) : option (option Z) :=
  match s with
  | [] => Some None
  | c :: rest =>
      if c =? ord "Z" then match rest with [] => Some (Some 0%Z) | _ :: _ => None end
      else
        sign ← (if c =? ord "+" then Some 1%Z
                else if c =? ord "-" then Some (-1)%Z else None);
        '(h, s) ← parse_fixed 10 2 rest;
        s ← expect ":" s;
        '(m, s) ← parse_fixed 10 2 s;
        match s with
        | [] => if (m <? 60) && ((0 <? sign)%Z || negb (60 * h + m =? 0))
                then Some (Some (sign * Z.of_N (60 * h + m) * minute_us)%Z) else None
        | _ :: _ => None
        end
  end.

Definition format_fraction (us : N) : pystr :=
  if us =? 0 then [] else lit "." ++ format_fixed 10 6 us.

Definition parse_fraction (s : pystr) : option (N * pystr) :=
  match s with
  | c :: rest => if c =? ord "." then parse_fixed 10 6 rest else Some (0, s)
  | [] => Some (0, s)
  end.

(** ISO 8601 as the serializer writes it: YYYY-MM-DDTHH:MM:SS, then the
    microseconds when they are not zero, then [Z] or the offset of an aware
    value. *)
Definition datetime_isoformat (t : datetime) : pystr :=
  date_isoformat (dt_date t) ++ lit "T" ++
  format_fixed 10 2 (hour t) ++ lit ":" ++ format_fixed 10 2 (minute t) ++
  lit ":" ++ format_fixed 10 2 (second t) ++
  format_fraction (microsecond t) ++ format_tz (tzinfo t).

Definition datetime_fromisoformat (s : pystr) : option datetime :=
  '(d, s) ← parse_date_prefix s;
  s ← expect "T" s;
  '(h, s) ← parse_fixed 10 2 s;
  s ← expect ":" s;
  '(mi, s) ← parse_fixed 10 2 s;
  s ← expect ":" s;
  '(sec, s) ← parse_fixed 10 2 s;
  '(us, s) ← parse_fraction s;
  tz ← parse_tz s;
  make_datetime d h mi sec us tz.

(** [str(uuid)]: the 32 hexadecimal digits of the integer in groups of
    8-4-4-4-12. *)
Definition UUID_str (u : UUID) : pystr :=
  let n := int u in
  format_fixed 16 8 (n / 16 ^ 24) ++ lit "-" ++
  format_fixed 16 4 ((n / 16 ^ 20) mod 16 ^ 4) ++ lit "-" ++
  format_fixed 16 4 ((n / 16 ^ 16) mod 16 ^ 4) ++ lit "-" ++
  format_fixed 16 4 ((n / 16 ^ 12) mod 16 ^ 4) ++ lit "-" ++
  format_fixed 16 12 (n mod 16 ^ 12).

Definition UUID_parse (s : pystr) : option UUID :=
  '(a, s) ← parse_fixed 16 8 s;
  s ← expect "-" s;
  '(b, s) ← parse_fixed 16 4 s;
  s ← expect "-" s;
  '(c, s) ← parse_fixed 16 4 s;
  s ← expect "-" s;
  '(d, s) ← parse_fixed 16 4 s;
  s ← expect "-" s;
  '(e, s) ← parse_fixed 16 12 s;
  match s with
  | [] => make_UUID (a * 16 ^ 24 + b * 16 ^ 20 + c * 16 ^ 16 + d * 16 ^ 12 + e)
  | _ :: _ => None
  end.

(** ** Python values

    The objects that can occur as the value of an input key: the JSON scalars
    and containers (numbers restricted to integers), byte strings ([bytes],
    [bytearray]), and instances of the three classes the schemas declare. *)

#[warnings="-register-all"]
Inductive value :=
  | VNone
  | VBool (b : bool)
  | VInt (n : Z)
  | VStr (s : pystr)
  | VBytes (b : pybytes)
  | VDate (d : date)
  | VDatetime (t : datetime)
  | VUUID (u : UUID)
  | VList (items : list value)
  | VDict (items : list (pystr * value)).

(** An input object: the keyword arguments of a constructor call, or a parsed
    JSON object. *)
Abbreviation input := (gmap string value).

(** ** Validation errors *)

Inductive result (E A : Type) :=
  | Ok (a : A)
  | Err (e : E).
Arguments Ok {E A} a.
Arguments Err {E A} e.

Definition is_ok {E A} (r : result E A) : bool :=
  match r with Ok _ => true | Err _ => false end.

Definition result_map {E A B} (f : A -> B) (r : result E A) : result E B :=
  match r with Ok a => Ok (f a) | Err e => Err e end.

(** The [type] of an error entry. *)
Inductive error_type :=
  | missing
  | string_type
  | string_unicode
  | string_pattern_mismatch
  | date_type
  | date_parsing
  | date_from_datetime_parsing
  | date_from_datetime_inexact
  | datetime_type
  | datetime_parsing
  | datetime_from_date_parsing
  | uuid_type
  | uuid_parsing.

(** One entry of [ValidationError.errors()]: the field at fault and the
    constraint it violates. *)
Record ErrorDetails := { loc : string; type : error_type }.

Definition ValidationError := list ErrorDetails.

(** ** The environment of a validation

    [Host] is the state of the process that default factories read: the
    random source behind [uuid4] and the clock behind [datetime.utcnow].

    [Coercions] stands for the conversions that lax mode applies to inputs
    which are neither an instance of the target class nor a string in the
    form the serializer writes (Unix timestamps, datetimes given for dates,
    alternative spellings).  They are left open: every result below holds
    whatever they accept. *)

Class Host := {
  World : Type;
  random_uuid : World -> UUID * World;
  clock_utcnow : World -> datetime * World
}.

Class Coercions := {
  lax_date : value -> result error_type date;
  lax_datetime : value -> result error_type datetime;
  lax_uuid : value -> result error_type UUID
}.

Definition M {host : Host} (A : Type) : Type := World -> A * World.

Definition ret {host : Host} {A} (a : A) : M A := fun w => (a, w).

Definition bind {host : Host} {A B} (c : M A) (f : A -> M B) : M B :=
  fun w => f (c w).1 (c w).2.

Notation "x <- c1 ;; c2" := (bind c1 (fun x => c2))
  (at level 100, c1 at next level, right associativity).

(** ** Field declarations *)

Record StringConstraints := { pattern : option regex }.

Inductive annotation :=
  | str_t
  | date_t
  | datetime_t
  | UUID_t
  | Optional (a : annotation)
  | Annotated (a : annotation) (c : StringConstraints).

(** The callables that the source passes as [default_factory]. *)
Inductive factory := uuid4 | datetime_utcnow.

Inductive default_spec :=
  | Required                          (* Field(...) *)
  | Default (v : value)               (* Field(v) *)
  | DefaultFactory (f : factory).     (* Field(default_factory=f) *)

Record FieldInfo := Field {
  field_annotation : annotation;
  field_default : default_spec;
  description : option string;
  example : option string             (* json_schema_extra={"example": ...} *)
}.

(** A model class: its name, docstring, fields in declaration order, and the
    examples of [model_config].  No class of the source sets another
    configuration key, so the defaults of [BaseModel] apply: lax mode, and
    keys that name no field are ignored. *)
Record ModelClass := {
  cls_name : string;
  cls_doc : option string;
  cls_fields : list (string * FieldInfo);
  cls_examples : list (list (string * string))
}.

Definition BaseModel (name : string) (doc : option string)
    (fields : list (string * FieldInfo)) (examples : list (list (string * string)))
    : ModelClass :=
  {| cls_name := name; cls_doc := doc; cls_fields := fields; cls_examples := examples |}.

(** Fields of a subclass: a redeclared field replaces the inherited one in
    place, a new one is appended. *)
Fixpoint declare (fields : list (string * FieldInfo)) (f : string * FieldInfo)
    : list (string * FieldInfo) :=
  match fields with
  | [] => [f]
  | g :: rest => if String.eqb g.1 f.1 then f :: rest else g :: declare rest f
  end.

Definition subclass (base : ModelClass) (name : string) (doc : option string)
    (fields : list (string * FieldInfo)) (examples : list (list (string * string)))
    : ModelClass :=
  {| cls_name := name; cls_doc := doc;
     cls_fields := foldl declare (cls_fields base) fields;
     cls_examples := examples |}.

(** An instance of a model class: its class and its [__dict__]. *)
Record object := Object {
  obj_class : string;
  obj_dict : list (string * value)
}.

(** ** Validators *)

(** [StringConstraints]: the pattern, when there is one, must be found in
    the string.  The engine works on UTF-8 text, so a string with a lone
    surrogate is refused before the pattern is tried. *)
Definition check_constraints {uni : Unicode} (c : StringConstraints) (s : pystr)
    : result error_type pystr :=
  match pattern c with
  | None => Ok s
  | Some r =>
      if well_formed s then
        if is_match r s then Ok s else Err string_pattern_mismatch
      else Err string_unicode
  end.

(** What lax mode reads where a string is expected: a [str] as it is, a byte
    string as the text it encodes; nothing else is a string. *)
Definition validate_str (v : value) : result error_type pystr :=
  match v with
  | VStr s => Ok s
  | VBytes b =>
      match utf8_decode b with
      | Some s => Ok s
      | None => Err string_unicode
      end
  | _ => Err string_type
  end.

Section validation.
Context {host : Host} {uni : Unicode} {lax : Coercions}.

(** Dates, datetimes and UUIDs in lax mode: an instance of the class is
    taken as it is, a string in the form the serializer writes is read back,
    and every other input is a matter of [Coercions]. *)
Definition validate_date (v : value) : result error_type date :=
  match v with
  | VDate d => Ok d
  | VStr s =>
      match date_fromisoformat s with
      | Some d => Ok d
      | None => lax_date v
      end
  | _ => lax_date v
  end.

Definition validate_datetime (v : value) : result error_type datetime :=
  match v with
  | VDatetime t => Ok t
  | VStr s =>
      match datetime_fromisoformat s with
      | Some t => Ok t
      | None => lax_datetime v
      end
  | _ => lax_datetime v
  end.

Definition validate_uuid (v : value) : result error_type UUID :=
  match v with
  | VUUID u => Ok u
  | VStr s =>
      match UUID_parse s with
      | Some u => Ok u
      | None => lax_uuid v
      end
  | _ => lax_uuid v
  end.

(** The validator of an annotation.  [str] takes strings and byte strings;
    [Optional] lets [None] through; [Annotated] applies its constraints to
    the string that the annotated type yields. *)
Fixpoint validate (a : annotation) (v : value) : result error_type value :=
  match a with
  | str_t => result_map VStr (validate_str v)
  | date_t => result_map VDate (validate_date v)
  | datetime_t => result_map VDatetime (validate_datetime v)
  | UUID_t => result_map VUUID (validate_uuid v)
  | Optional a' => match v with VNone => Ok VNone | _ => validate a' v end
  | Annotated a' c =>
      match validate a' v with
      | Ok (VStr s) => result_map VStr (check_constraints c s)
      | r => r
      end
  end.

(** Calling a default factory draws from the host. *)
Definition call (f : factory) : M value :=
  match f with
  | uuid4 => fun w => (VUUID (random_uuid w).1, (random_uuid w).2)
  | datetime_utcnow => fun w => (VDatetime (clock_utcnow w).1, (clock_utcnow w).2)
  end.

(** One field: the input value when the key is present, the default
    otherwise; a default is taken as it is. *)
Definition validate_field (name : string) (f : FieldInfo) (d : input)
    : M (result ErrorDetails value) :=
  match d !! name with
  | Some v =>
      ret (match validate (field_annotation f) v with
           | Ok v' => Ok v'
           | Err e => Err {| loc := name; type := e |}
           end)
  | None =>
      match field_default f with
      | Required => ret (Err {| loc := name; type := missing |})
      | Default v => ret (Ok v)
      | DefaultFactory g => v <- call g ;; ret (Ok v)
      end
  end.

(** The result of a field joins those of the fields after it: its value
    among the attributes, or its error among the errors. *)
Definition collect (name : string) (r : result ErrorDetails value)
    (acc : ValidationError * list (string * value))
    : ValidationError * list (string * value) :=
  match r with
  | Ok v => (acc.1, (name, v) :: acc.2)
  | Err e => (e :: acc.1, acc.2)
  end.

(** All fields, in declaration order; errors are collected, not raised at
    the first one. *)
Fixpoint validate_fields (fields : list (string * FieldInfo)) (d : input)
    : M (ValidationError * list (string * value)) :=
  match fields with
  | [] => ret ([], [])
  | (name, f) :: rest =>
      r <- validate_field name f d ;;
      acc <- validate_fields rest d ;;
      ret (collect name r acc)
  end.

(** Calling the class on keyword arguments, or [cls.model_validate(d)]:
    the instance, or the errors of all offending fields. *)
Definition model_validate (cls : ModelClass) (d : input) : M (result ValidationError object) :=
  acc <- validate_fields (cls_fields cls) d ;;
  ret (match acc.1 with
       | [] => Ok (Object (cls_name cls) acc.2)
       | _ :: _ => Err acc.1
       end).

End validation.

(** ** Serialization *)

(** The JSON form of a field value: strings for dates, datetimes and UUIDs,
    the text of a byte string. *)
Definition to_jsonable (v : value) : value :=
  match v with
  | VDate d => VStr (date_isoformat d)
  | VDatetime t => VStr (datetime_isoformat t)
  | VUUID u => VStr (UUID_str u)
  | VBytes b => match utf8_decode b with Some s => VStr s | None => v end
  | _ => v
  end.

(** Whether a field value has a JSON form: JSON text is UTF-8, so a string
    with a lone surrogate has none, nor has a byte string that is not
    UTF-8. *)
Definition serializable (v : value) : bool :=
  match v with
  | VStr s => well_formed s
  | VBytes b => match utf8_decode b with Some _ => true | None => false end
  | _ => true
  end.

(** [model_dump_json], as the JSON object it writes: the members in field
    order, each value in its JSON form; [None] when the serializer raises
    because an attribute has no JSON form.  (Documents are handled as the
    objects they denote; the concrete syntax of JSON is not part of the
    schemas.) *)
Definition model_dump_json (o : object) : option (list (string * value)) :=
  if forallb (λ kv, serializable kv.2) (obj_dict o)
  then Some (map (λ kv, (kv.1, to_jsonable kv.2)) (obj_dict o))
  else None.

(** [cls.model_validate_json]: validation of the object a document denotes;
    of two members with the same name the later one counts. *)
Definition model_validate_json {host : Host} {uni : Unicode} {lax : Coercions}
    (cls : ModelClass)
    (doc : list (string * value)) : M (result ValidationError object) :=
  model_validate cls (list_to_map (reverse doc)).

(** ** [models/departments.py] *)

Module departments.

(** Columbia UNI: 2-3 lowercase letters + 1-4 digits (e.g., abc1234) *)
Definition UNI_pattern : string := "^[a-z]{2,3}\d{1,4}$".

Definition UNI_regex : regex :=
  Eval vm_compute in from_option id EndText (compile UNI_pattern).

Definition UNIType : annotation := Annotated str_t {| pattern := Some UNI_regex |}.

Definition model_config : list (list (string * string)) :=
  [ [ ("code", "abc1234"); ("staff", "Ada"); ("founding_date", "Lovelace") ] ].

Definition DepartmentBase : ModelClass :=
  BaseModel "DepartmentBase" None
    [ ("code", Field UNIType Required
                 (Some "Code of the department.") (Some "abc1234"));
      ("staff", Field str_t Required
                  (Some "Given name.") (Some "Ada"));
      ("founding_date", Field (Optional date_t) (Default VNone)
                          (Some "start date (YYYY-MM-DD).") (Some "1815-12-10")) ]
    model_config.

Definition DepartmentCreate : ModelClass :=
  subclass DepartmentBase "DepartmentCreate"
    (Some "Creation payload for a department.") [] model_config.

Definition DepartmentUpdate : ModelClass :=
  BaseModel "DepartmentUpdate"
    (Some "Partial update for a department; supply only fields to change.")
    [ ("code", Field (Optional UNIType) (Default VNone)
                 (Some "Columbia UNI.") (Some "ab1234"));
      ("staff", Field (Optional str_t) (Default VNone) None (Some "Augusta"));
      ("founding_date", Field (Optional date_t) (Default VNone) None (Some "1815-12-10")) ]
    [].

Definition DepartmentRead : ModelClass :=
  subclass DepartmentBase "DepartmentRead"
    (Some "Server representation returned to clients.")
    [ ("id", Field UUID_t (DefaultFactory uuid4)
               (Some "Server-generated Lecture ID.")
               (Some "99999999-9999-4999-8999-999999999999"));
      ("created_at", Field datetime_t (DefaultFactory datetime_utcnow)
                       (Some "Creation timestamp (UTC).") (Some "2025-01-15T10:20:30Z"));
      ("updated_at", Field datetime_t (DefaultFactory datetime_utcnow)
                       (Some "Last update timestamp (UTC).") (Some "2025-01-16T12:00:00Z")) ]
    model_config.

End departments.

(** ** [models/lectures.py] *)

Module lectures.

(** Columbia UNI: 2-3 lowercase letters + 1-4 digits (e.g., abc1234) *)
Definition UNI_pattern : string := "^[a-z]{2,3}\d{1,4}$".

Definition UNI_regex : regex :=
  Eval vm_compute in from_option id EndText (compile UNI_pattern).

Definition UNIType : annotation := Annotated str_t {| pattern := Some UNI_regex |}.

Definition model_config : list (list (string * string)) :=
  [ [ ("code", "abc1234"); ("professor", "Ada"); ("start_date", "Lovelace") ] ].

Definition LectureBase : ModelClass :=
  BaseModel "LectureBase" None
    [ ("code", Field UNIType Required
                 (Some "Code of the lecture.") (Some "abc1234"));
      ("professor", Field str_t Required
                      (Some "Given name.") (Some "Ada"));
      ("start_date", Field (Optional date_t) (Default VNone)
                       (Some "start date (YYYY-MM-DD).") (Some "1815-12-10")) ]
    model_config.

Definition LectureCreate : ModelClass :=
  subclass LectureBase "LectureCreate"
    (Some "Creation payload for a Person.") [] model_config.

Definition LectureUpdate : ModelClass :=
  BaseModel "LectureUpdate"
    (Some "Partial update for a Person; supply only fields to change.")
    [ ("code", Field (Optional UNIType) (Default VNone)
                 (Some "Columbia UNI.") (Some "ab1234"));
      ("professor", Field (Optional str_t) (Default VNone) None (Some "Augusta"));
      ("start_date", Field (Optional date_t) (Default VNone) None (Some "1815-12-10")) ]
    [].

Definition LectureRead : ModelClass :=
  subclass LectureBase "LectureRead"
    (Some "Server representation returned to clients.")
    [ ("id", Field UUID_t (DefaultFactory uuid4)
               (Some "Server-generated Lecture ID.")
               (Some "99999999-9999-4999-8999-999999999999"));
      ("created_at", Field datetime_t (DefaultFactory datetime_utcnow)
                       (Some "Creation timestamp (UTC).") (Some "2025-01-15T10:20:30Z"));
      ("updated_at", Field datetime_t (DefaultFactory datetime_utcnow)
                       (Some "Last update timestamp (UTC).") (Some "2025-01-16T12:00:00Z")) ]
    [ [ ("id", "99999999-9999-4999-8999-999999999999");
        ("code", "abc1234");
        ("professor", "Ada");
        ("start_date", "1815-12-10");
        ("created_at", "2025-01-15T10:20:30Z");
        ("updated_at", "2025-01-16T12:00:00Z") ] ].

End lectures.

(** ** A concrete environment

    Used to run the definitions on examples: the world is a counter that
    seeds both the identifier and the microseconds of the clock, the digits
    are those of Unicode 15.0 (which added the Kawi and Nag Mundari digits to
    the table above), and lax mode accepts nothing beyond the forms modelled
    above. *)

Definition unicode_15 : Unicode.
Proof.
  refine {| later_digit :=
              λ c, in_range c (0x11F50, 0x11F59) || in_range c (0x1E4F0, 0x1E4F9) |}.
  intros c. unfold in_range, is_surrogate. cbn [fst snd].
  rewrite orb_true_iff, !andb_true_iff, andb_false_iff, !N.leb_le, !N.leb_gt. lia.
Defined.

Definition nil_UUID : UUID := MkUUID 0 I.
Definition new_year_2025 : date := Date 2025 1 1 I.
Definition midnight_2025 : datetime := Datetime new_year_2025 0 0 0 0 None I.

Definition counter_host : Host :=
  {| World := N;
     random_uuid := λ w, (from_option id nil_UUID (make_UUID (w mod 2 ^ 128)), w + 1);
     clock_utcnow := λ w,
       (from_option id midnight_2025
          (make_datetime new_year_2025 10 20 30 (w mod 1000000) None), w + 1) |}.

Definition is_text (v : value) : bool :=
  match v with VStr _ => true | _ => false end.

Definition canonical_only : Coercions :=
  {| lax_date := λ v, Err (if is_text v then date_from_datetime_parsing else date_type);
     lax_datetime := λ v, Err (if is_text v then datetime_parsing else datetime_type);
     lax_uuid := λ v, Err (if is_text v then uuid_parsing else uuid_type) |}.

Definition sample_UUID : UUID := MkUUID 0x99999999999949998999999999999999 I.

(** Validation in the concrete environment, on an input given by its
    items. *)
Definition demo_validate (cls : ModelClass) (items : list (string * value)) (w : N)
    : result ValidationError object * N :=
  model_validate (host := counter_host) (uni := unicode_15) (lax := canonical_only)
    cls (list_to_map items) w.

(** ** Vocabulary of the statements *)

(** *** Instances and outcomes *)

Fixpoint assoc (name : string) (l : list (string * value)) : option value :=
  match l with
  | [] => None
  | (k, v) :: rest => if decide (k = name) then Some v else assoc name rest
  end.

(** Attribute access on an instance. *)
Definition getattr (o : object) (name : string) : option value :=
  assoc name (obj_dict o).

(** The outcome of a validation without the class of the instance: the
    field values, or the errors. *)
Definition outcome (r : result ValidationError object)
    : result ValidationError (list (string * value)) :=
  result_map obj_dict r.

(** Values that JSON can carry as they are. *)
Definition is_json (v : value) : bool :=
  match v with
  | VBytes _ | VDate _ | VDatetime _ | VUUID _ => false
  | _ => true
  end.

(** *** Classes *)

Definition field_names (cls : ModelClass) : list string := (cls_fields cls).*1.

(** What validation reads of a field declaration: its name, annotation and
    default (not its description or example). *)
Definition signature (fields : list (string * FieldInfo))
    : list (string * annotation * default_spec) :=
  map (λ nf, (nf.1, field_annotation nf.2, field_default nf.2)) fields.

(** Declarations with a given signature and nothing else. *)
Definition plain_fields (sig : list (string * annotation * default_spec))
    : list (string * FieldInfo) :=
  map (λ e, (e.1.1, Field e.1.2 e.2 None None)) sig.

(** The signature of a base or creation class, and of an update class, for
    given names of the owner and date fields. *)
Definition base_signature (owner date_key : string)
    : list (string * annotation * default_spec) :=
  [ ("code", departments.UNIType, Required);
    (owner, str_t, Required);
    (date_key, Optional date_t, Default VNone) ].

Definition update_signature (owner date_key : string)
    : list (string * annotation * default_spec) :=
  [ ("code", Optional departments.UNIType, Default VNone);
    (owner, Optional str_t, Default VNone);
    (date_key, Optional date_t, Default VNone) ].

(** Fields without default factories. *)
Definition factory_free (fields : list (string * FieldInfo)) : bool :=
  forallb (λ nf, match field_default nf.2 with
                 | DefaultFactory _ => false
                 | _ => true
                 end) fields.

(** *** What JSON carries without loss *)

(** An offset of whole minutes (none, for a naive value): the offsets that
    the written form [+HH:MM] can express. *)
Definition whole_minutes_tz (tz : option Z) : bool :=
  match tz with
  | None => true
  | Some off => (off mod minute_us =? 0)%Z
  end.

Definition whole_minutes (t : datetime) : bool := whole_minutes_tz (tzinfo t).

(** A field value that is read back from its JSON form as it was. *)
Definition json_exact (v : value) : bool :=
  match v with
  | VDatetime t => whole_minutes t
  | _ => true
  end.

(** A default that validates to itself once written as JSON; for a factory,
    whenever what it returns is carried without loss. *)
Definition default_stable {host : Host} {uni : Unicode} {lax : Coercions}
    (f : FieldInfo) : Prop :=
  match field_default f with
  | Required => True
  | Default v => validate (field_annotation f) (to_jsonable v) = Ok v
  | DefaultFactory g =>
      ∀ w, json_exact (call g w).1 = true →
           validate (field_annotation f) (to_jsonable (call g w).1) = Ok (call g w).1
  end.

Definition all_schemas : list ModelClass :=
  [ departments.DepartmentBase; departments.DepartmentCreate;
    departments.DepartmentUpdate; departments.DepartmentRead;
    lectures.LectureBase; lectures.LectureCreate;
    lectures.LectureUpdate; lectures.LectureRead ].

(** The schemas that validate client payloads. *)
Definition payload_schemas : list ModelClass :=
  [ departments.DepartmentCreate; departments.DepartmentUpdate;
    lectures.LectureCreate; lectures.LectureUpdate ].

(** The creation, update and read schemas, each with the names of its owner
    and date fields. *)
Definition create_schemas : list (ModelClass * string * string) :=
  [ (departments.DepartmentCreate, "staff", "founding_date");
    (lectures.LectureCreate, "professor", "start_date") ].

Definition update_schemas : list (ModelClass * string * string) :=
  [ (departments.DepartmentUpdate, "staff", "founding_date");
    (lectures.LectureUpdate, "professor", "start_date") ].

Definition read_schemas : list (ModelClass * string * string) :=
  [ (departments.DepartmentRead, "staff", "founding_date");
    (lectures.LectureRead, "professor", "start_date") ].

(** Each update schema with the creation schema of its group. *)
Definition update_create : list (ModelClass * ModelClass * string * string) :=
  [ (departments.DepartmentUpdate, departments.DepartmentCreate, "staff", "founding_date");
    (lectures.LectureUpdate, lectures.LectureCreate, "professor", "start_date") ].

(** The variants of the two groups, paired. *)
Definition variants : list (ModelClass * ModelClass) :=
  [ (departments.DepartmentBase, lectures.LectureBase);
    (departments.DepartmentCreate, lectures.LectureCreate);
    (departments.DepartmentUpdate, lectures.LectureUpdate);
    (departments.DepartmentRead, lectures.LectureRead) ].

(** *** The correspondence between the two groups *)

(** The keys of one group as keys of the other: [staff] and [professor],
    [founding_date] and [start_date] are exchanged, so that distinct keys
    stay distinct. *)
Definition renaming (k : string) : string :=
  if decide (k = "staff") then "professor"
  else if decide (k = "professor") then "staff"
  else if decide (k = "founding_date") then "start_date"
  else if decide (k = "start_date") then "founding_date"
  else k.

(** The input object with its keys renamed. *)
Definition rename_input (ρ : string → string) (d : input) : input :=
  kmap (M2 := gmap string) ρ d.

Definition rename_fields (ρ : string → string) (fields : list (string * FieldInfo))
    : list (string * FieldInfo) :=
  map (prod_map ρ id) fields.

Definition rename_error (ρ : string → string) (e : ErrorDetails) : ErrorDetails :=
  {| loc := ρ (loc e); type := type e |}.

Definition rename_outcome (ρ : string → string)
    (r : result ValidationError (list (string * value)))
    : result ValidationError (list (string * value)) :=
  match r with
  | Ok vals => Ok (map (prod_map ρ id) vals)
  | Err errs => Err (map (rename_error ρ) errs)
  end.

(** *** Patterns *)

Definition class_accepts {uni : Unicode} (items : list class_item) (c : codepoint)
    : Prop :=
  existsb (class_item_matches c) items = true.

(** A continuation that does not look at whether it runs at the start of
    the text. *)
Definition bot_insensitive (k : cont) : Prop := ∀ b s, k b s = k false s.

(** Strings made of 2-3 letters [a-z] followed by 1-4 digits, for a given
    notion of digit. *)
Definition uni_shape (digit : codepoint → bool) (s : pystr) : Prop :=
  ∃ letters digits,
    s = letters ++ digits ∧
    (2 ≤ length letters ≤ 3)%nat ∧ Forall (λ c, is_ascii_lower c = true) letters ∧
    (1 ≤ length digits ≤ 4)%nat ∧ Forall (λ c, digit c = true) digits.

(** The pattern as the specification writes it, with [[0-9]] for the
    digits. *)
Definition spec_UNI_pattern : string := "^[a-z]{2,3}[0-9]{1,4}$".

Definition spec_UNI_regex : regex :=
  Eval vm_compute in from_option id EndText (compile spec_UNI_pattern).

(** U+0663 ARABIC-INDIC DIGIT THREE after two letters. *)
Definition arabic_code : pystr := lit "ab" ++ [0x663].

(** *** Further vocabulary *)

(** A value of the type an annotation declares: what an attribute of an
    instance can hold. *)
Fixpoint conforms {uni : Unicode} (a : annotation) (v : value) : bool :=
  match a with
  | str_t => match v with VStr _ => true | _ => false end
  | date_t => match v with VDate _ => true | _ => false end
  | datetime_t => match v with VDatetime _ => true | _ => false end
  | UUID_t => match v with VUUID _ => true | _ => false end
  | Optional a' => match v with VNone => true | _ => conforms a' v end
  | Annotated a' c =>
      conforms a' v &&
      match v with VStr s => is_ok (check_constraints c s) | _ => true end
  end.

(** Attributes that are those of a list of fields: the names of the fields,
    in their order, each with a value of the type its field declares. *)
Fixpoint fields_conform {uni : Unicode} (fields : list (string * FieldInfo))
    (vals : list (string * value)) : bool :=
  match fields, vals with
  | [], [] => true
  | (name, f) :: fields', (k, v) :: vals' =>
      bool_decide (k = name) && conforms (field_annotation f) v &&
      fields_conform fields' vals'
  | _, _ => false
  end.

(** An instance of a class, however it was made (by validation, by
    [model_construct], by assignment to its attributes): an object of the
    class whose attributes are those of its fields. *)
Definition instance_of {uni : Unicode} (cls : ModelClass) (o : object) : bool :=
  bool_decide (obj_class o = cls_name cls) &&
  fields_conform (cls_fields cls) (obj_dict o).

(** Annotations of string fields: [str], constrained or optional. *)
Fixpoint string_annotation (a : annotation) : bool :=
  match a with
  | str_t => true
  | Optional a' | Annotated a' _ => string_annotation a'
  | _ => false
  end.

(** An optional field whose default is [None]. *)
Definition nullable (f : FieldInfo) : bool :=
  match field_annotation f, field_default f with
  | Optional _, Default VNone => true
  | _, _ => false
  end.

(** Each schema with the name of its date field. *)
Definition dated_schemas : list (ModelClass * string) :=
  [ (departments.DepartmentBase, "founding_date");
    (departments.DepartmentCreate, "founding_date");
    (departments.DepartmentUpdate, "founding_date");
    (departments.DepartmentRead, "founding_date");
    (lectures.LectureBase, "start_date");
    (lectures.LectureCreate, "start_date");
    (lectures.LectureUpdate, "start_date");
    (lectures.LectureRead, "start_date") ].

(** Each read schema with the base class it extends, and each creation
    schema with the read schema of its group. *)
Definition base_read : list (ModelClass * ModelClass) :=
  [ (departments.DepartmentBase, departments.DepartmentRead);
    (lectures.LectureBase, lectures.LectureRead) ].

Definition create_read : list (ModelClass * ModelClass) :=
  [ (departments.DepartmentCreate, departments.DepartmentRead);
    (lectures.LectureCreate, lectures.LectureRead) ].

Definition read_classes : list ModelClass :=
  [ departments.DepartmentRead; lectures.LectureRead ].

(** The state of the host after the default factories of a read class have
    run for the keys that the input leaves out: [uuid4] for [id], then the
    clock for [created_at], then the clock again for [updated_at]. *)
Definition after_defaults {host : Host} (d : input) (w : World) : World :=
  let w1 := match d !! "id" with Some _ => w | None => (random_uuid w).2 end in
  let w2 := match d !! "created_at" with Some _ => w1 | None => (clock_utcnow w1).2 end in
  match d !! "updated_at" with Some _ => w2 | None => (clock_utcnow w2).2 end.

(** The errors of an outcome; none when it is an instance. *)
Definition errors (r : result ValidationError object) : ValidationError :=
  match r with
  | Ok _ => []
  | Err errs => errs
  end.

(** [model_dump] in Python mode: the attributes as they are, as keyword
    arguments for another class. *)
Definition model_dump (o : object) : input := list_to_map (obj_dict o).

(** A default of the type its field declares; for a factory, by what the
    factory returns. *)
Definition default_conforms {uni : Unicode} (f : FieldInfo) : bool :=
  match field_default f with
  | Required => true
  | Default v => conforms (field_annotation f) v
  | DefaultFactory uuid4 =>
      match field_annotation f with UUID_t => true | _ => false end
  | DefaultFactory datetime_utcnow =>
      match field_annotation f with datetime_t => true | _ => false end
  end.

(** An example of [model_config] as the JSON object it is. *)
Definition example_doc (ex : list (string * string)) : list (string * value) :=
  map (λ kv, (kv.1, VStr (lit kv.2))) ex.

(** A field in order on an input: its value is accepted, or the key is
    absent and the field has a default. *)
Definition field_accepts {uni : Unicode} {lax : Coercions} (d : input) (name : string)
    (f : FieldInfo) : bool :=
  match d !! name with
  | Some v => is_ok (validate (field_annotation f) v)
  | None => match field_default f with Required => false | _ => true end
  end.

(** The keys of the fields that a read schema adds to its base. *)
Definition metadata_keys : list string := ["id"; "created_at"; "updated_at"].

(** Annotations without a datetime: the values of such a field are read
    back from JSON as they were. *)
Fixpoint datetime_free (a : annotation) : bool :=
  match a with
  | datetime_t => false
  | Optional a' | Annotated a' _ => datetime_free a'
  | _ => true
  end.

(** The fields at fault on an input, in declaration order. *)
Definition failing_fields {uni : Unicode} {lax : Coercions} (d : input)
    (fields : list (string * FieldInfo)) : list string :=
  (List.filter (λ nf, negb (field_accepts d nf.1 nf.2)) fields).*1.

(** * Properties *)

(** Case analysis on membership in one of the lists of schemas. *)
Ltac schema_cases H :=
  repeat (apply elem_of_cons in H as [H|H]);
  [simplify_eq..|by apply elem_of_nil in H].

(** ** The regular expression engine *)

Section regex.
Context {uni : Unicode}.

Lemma at_most_class items n k bot s :
  bot_insensitive k →
  at_most (match_here (CharClass items)) n k bot s = true ↔
  ∃ p rest, s = p ++ rest ∧ (length p ≤ n)%nat ∧
            Forall (class_accepts items) p ∧ k false rest = true.
Proof.
  intros Hk. revert bot s. induction n as [|n IH]; intros bot s; simpl.
  - rewrite Hk. split.
    + intros Hs. exists [], s. repeat split; [simpl; lia | constructor | done].
    + intros (p & rest & -> & Hlen & _ & Hrest).
      destruct p; [done | simpl in Hlen; lia].
  - rewrite orb_true_iff, Hk. split.
    + intros [Hstep | Hs].
      * destruct s as [|c s']; [done|].
        apply andb_true_iff in Hstep as [Hc Hrec].
        apply IH in Hrec as (p & rest & -> & Hlen & Hall & Hrest).
        exists (c :: p), rest. repeat split; [simpl; lia | by constructor | done].
      * exists [], s. repeat split; [simpl; lia | constructor | done].
    + intros (p & rest & -> & Hlen & Hall & Hrest).
      destruct p as [|c p]; [by right|]. left. simpl.
      inversion Hall as [|? ? Hc Hall']; subst.
      apply andb_true_iff. split; [done|].
      apply IH. exists p, rest. repeat split; [simpl in Hlen; lia | done | done].
Qed.

Lemma at_least_class items n k bot s :
  bot_insensitive k →
  at_least (match_here (CharClass items)) n k bot s = true ↔
  ∃ p rest, s = p ++ rest ∧ length p = n ∧
            Forall (class_accepts items) p ∧ k false rest = true.
Proof.
  intros Hk. revert bot s. induction n as [|n IH]; intros bot s; simpl.
  - rewrite Hk. split.
    + intros Hs. exists [], s. repeat split; [constructor | done].
    + intros (p & rest & -> & Hlen & _ & Hrest). by destruct p.
  - split.
    + intros Hstep. destruct s as [|c s']; [done|].
      apply andb_true_iff in Hstep as [Hc Hrec].
      apply IH in Hrec as (p & rest & -> & Hlen & Hall & Hrest).
      exists (c :: p), rest. repeat split; [simpl; lia | by constructor | done].
    + intros (p & rest & -> & Hlen & Hall & Hrest).
      destruct p as [|c p]; [done|]. simpl.
      inversion Hall as [|? ? Hc Hall']; subst.
      apply andb_true_iff. split; [done|].
      apply IH. exists p, rest. repeat split; [simpl in Hlen; lia | done | done].
Qed.

Lemma at_most_insensitive items n k :
  bot_insensitive k → bot_insensitive (at_most (match_here (CharClass items)) n k).
Proof.
  intros Hk b s. apply eq_true_iff_eq. by rewrite !at_most_class.
Qed.

(** A counted repetition of a class consumes between [lo] and [hi] code
    points of the class. *)
Lemma repeat_class items lo hi k bot s :
  (lo ≤ hi)%nat → bot_insensitive k →
  match_here (Repeat (CharClass items) lo hi) k bot s = true ↔
  ∃ p rest, s = p ++ rest ∧ (lo ≤ length p ≤ hi)%nat ∧
            Forall (class_accepts items) p ∧ k false rest = true.
Proof.
  intros Hle Hk.
  change (match_here (Repeat ?r lo hi) k) with
    (at_least (match_here r) lo (at_most (match_here r) (hi - lo) k)).
  rewrite at_least_class by by apply at_most_insensitive.
  split.
  - intros (p & rest & -> & Hlen & Hall & Hmost).
    apply at_most_class in Hmost as (q & rest' & -> & Hlen' & Hall' & Hrest); [|done].
    exists (p ++ q), rest'. rewrite length_app, <-app_assoc.
    repeat split; [lia | lia | by apply Forall_app | done].
  - intros (p & rest & -> & Hlen & Hall & Hrest).
    exists (take lo p), (drop lo p ++ rest).
    rewrite app_assoc, take_drop. repeat split.
    + rewrite length_take. lia.
    + by apply Forall_take.
    + apply at_most_class; [done|].
      exists (drop lo p), rest. rewrite length_drop.
      repeat split; [lia | by apply Forall_drop | done].
Qed.

Lemma repeat_class_insensitive items lo hi k :
  (lo ≤ hi)%nat → bot_insensitive k →
  bot_insensitive (match_here (Repeat (CharClass items) lo hi) k).
Proof.
  intros Hle Hk b s. apply eq_true_iff_eq. by rewrite !repeat_class.
Qed.

(** A pattern that starts with [^] can only be found at the start. *)
Lemma search_anchored r s : search_from (Concat StartText r) false s = false.
Proof. induction s as [|c s IH]; simpl; [done | by rewrite IH]. Qed.

Lemma is_match_anchored r s :
  is_match (Concat StartText r) s = match_here r accept true s.
Proof.
  unfold is_match. destruct s as [|c s]; simpl.
  - by rewrite orb_false_r.
  - by rewrite search_anchored, orb_false_r.
Qed.

(** The shape of the strings matched by [^A{a1,a2}B{b1,b2}$]. *)
Lemma two_runs_match A B a1 a2 b1 b2 s :
  (a1 ≤ a2)%nat → (b1 ≤ b2)%nat →
  is_match (Concat StartText
              (Concat (Repeat (CharClass A) a1 a2)
                 (Concat (Repeat (CharClass B) b1 b2) EndText))) s = true ↔
  ∃ p q, s = p ++ q ∧ (a1 ≤ length p ≤ a2)%nat ∧ Forall (class_accepts A) p ∧
         (b1 ≤ length q ≤ b2)%nat ∧ Forall (class_accepts B) q.
Proof.
  intros Ha Hb. rewrite is_match_anchored.
  assert (Hend : bot_insensitive (match_here EndText accept)) by (by intros b [|??]).
  change (match_here (Concat ?r1 ?r2) ?k) with (match_here r1 (match_here r2 k)).
  change (match_here (Concat ?r1 ?r2) ?k) with (match_here r1 (match_here r2 k)).
  rewrite repeat_class; [|done|by apply repeat_class_insensitive].
  split.
  - intros (p & rest & -> & Hlen & Hall & Hrest).
    apply repeat_class in Hrest as (q & rest' & -> & Hlen' & Hall' & Hnil); [|done..].
    destruct rest'; [|done]. exists p, q. by rewrite app_nil_r.
  - intros (p & q & -> & Hlen & Hall & Hlen' & Hall').
    exists p, q. repeat split; [lia | lia | done |].
    apply repeat_class; [done..|]. exists q, []. by rewrite app_nil_r.
Qed.

End regex.

(** ** Textual forms read back as the value written *)

Lemma char_digit_digit_char base v :
  v < base → base ≤ 16 → char_digit base (digit_char v) = Some v.
Proof.
  intros Hv Hb. unfold char_digit, digit_char.
  destruct (N.ltb_spec v 10) as [Hlt|Hge].
  - replace ((48 <=? 48 + v) && (48 + v <=? 57)) with true
      by (symmetry; apply andb_true_iff; split; apply N.leb_le; lia).
    simpl. replace (48 + v - 48) with v by lia.
    by apply N.ltb_lt in Hv as ->.
  - replace ((48 <=? 87 + v) && (87 + v <=? 57)) with false
      by (symmetry; apply andb_false_iff; right; apply N.leb_gt; lia).
    replace ((97 <=? 87 + v) && (87 + v <=? 102)) with true
      by (symmetry; apply andb_true_iff; split; apply N.leb_le; lia).
    simpl. replace (87 + v - 87) with v by lia.
    by apply N.ltb_lt in Hv as ->.
Qed.

Lemma parse_fixed_format base width n rest :
  base ≤ 16 → n < base ^ N.of_nat width →
  parse_fixed base width (format_fixed base width n ++ rest) = Some (n, rest).
Proof.
  intros Hb. revert n. induction width as [|w IH]; intros n Hn.
  - simpl in *. by replace n with 0 by lia.
  - rewrite Nat2N.inj_succ, N.pow_succ_r' in Hn.
    assert (Hpos : base ^ N.of_nat w ≠ 0) by (intros Hz; rewrite Hz in Hn; lia).
    cbn [format_fixed parse_fixed app].
    rewrite char_digit_digit_char; [|apply N.Div0.div_lt_upper_bound; lia|done].
    cbn [mbind option_bind].
    rewrite IH by by apply N.mod_lt.
    cbn [mbind option_bind]. do 2 f_equal.
    rewrite (N.div_mod n (base ^ N.of_nat w)) at 3 by done. lia.
Qed.

Lemma days_in_month_le y m : days_in_month y m ≤ 31.
Proof. unfold days_in_month. repeat case_match; lia. Qed.

Lemma valid_date_bounds y m d :
  Is_true (valid_date y m d) → y < 10 ^ 4 ∧ m < 10 ^ 2 ∧ d < 10 ^ 2.
Proof.
  unfold valid_date. rewrite !andb_True, !Is_true_true, !N.leb_le.
  pose proof (days_in_month_le y m). intros. simpl. lia.
Qed.

Lemma valid_time_bounds h mi s us tz :
  Is_true (valid_time h mi s us tz) →
  h < 10 ^ 2 ∧ mi < 10 ^ 2 ∧ s < 10 ^ 2 ∧ us < 10 ^ 6 ∧
  match tz with Some off => (- day_us < off < day_us)%Z | None => True end.
Proof.
  intros Hv%Is_true_true. unfold valid_time in Hv.
  rewrite !andb_true_iff, !N.ltb_lt in Hv.
  destruct Hv as ((((Hh & Hmi) & Hs) & Hus) & Htz).
  simpl. repeat split; try lia; destruct tz as [off|]; try done;
    apply andb_true_iff in Htz as [?%Z.ltb_lt ?%Z.ltb_lt]; lia.
Qed.

Lemma make_date_valid d : make_date (year d) (month d) (day d) = Some d.
Proof.
  destruct d as [y m dd H]. unfold make_date; simpl.
  destruct (decide _) as [H'|Hn]; [|done].
  do 2 f_equal. apply proof_irrel.
Qed.

Lemma make_datetime_valid t :
  make_datetime (dt_date t) (hour t) (minute t) (second t) (microsecond t) (tzinfo t)
  = Some t.
Proof.
  destruct t as [d h mi s us tz H]. unfold make_datetime; simpl.
  destruct (decide _) as [H'|Hn]; [|done].
  do 2 f_equal. apply proof_irrel.
Qed.

Lemma make_UUID_valid u : make_UUID (int u) = Some u.
Proof.
  destruct u as [n H]. unfold make_UUID; simpl.
  destruct (decide _) as [H'|Hn]; [|done].
  do 2 f_equal. apply proof_irrel.
Qed.

Lemma expect_lit c rest : expect c (lit (String c EmptyString) ++ rest) = Some rest.
Proof. unfold expect, lit. simpl. by rewrite N.eqb_refl. Qed.

Lemma parse_date_prefix_isoformat d rest :
  parse_date_prefix (date_isoformat d ++ rest) = Some (d, rest).
Proof.
  pose proof (valid_date_bounds _ _ _ (date_valid d)) as (Hy & Hm & Hd).
  unfold parse_date_prefix, date_isoformat. rewrite <-!app_assoc.
  rewrite (parse_fixed_format 10 4) by done. cbn [mbind option_bind].
  rewrite expect_lit. cbn [mbind option_bind].
  rewrite (parse_fixed_format 10 2) by done. cbn [mbind option_bind].
  rewrite expect_lit. cbn [mbind option_bind].
  rewrite (parse_fixed_format 10 2) by done. cbn [mbind option_bind].
  by rewrite make_date_valid.
Qed.

Lemma date_roundtrip d : date_fromisoformat (date_isoformat d) = Some d.
Proof.
  unfold date_fromisoformat.
  rewrite <-(app_nil_r (date_isoformat d)), parse_date_prefix_isoformat. done.
Qed.

Lemma parse_fraction_format us rest :
  us < 10 ^ 6 →
  (∀ c rest', rest = c :: rest' → c ≠ ord ".") →
  parse_fraction (format_fraction us ++ rest) = Some (us, rest).
Proof.
  intros Hus Hrest. unfold format_fraction.
  destruct (N.eqb_spec us 0) as [->|Hne].
  - unfold parse_fraction. cbn [app]. destruct rest as [|c rest']; [done|].
    specialize (Hrest c rest' eq_refl).
    by destruct (N.eqb_spec c (ord ".")).
  - rewrite <-app_assoc. unfold parse_fraction.
    change (lit "." ++ ?l) with (ord "." :: l). cbv iota beta.
    rewrite N.eqb_refl. by apply (parse_fixed_format 10 6).
Qed.

Lemma format_tz_head tz c rest :
  format_tz tz = c :: rest → c ≠ ord ".".
Proof.
  destruct tz as [off|]; [|done]. unfold format_tz. cbv zeta.
  destruct (_ =? 0)%Z; [by intros [= <- _]|].
  destruct (_ <? 0)%Z; by intros [= <- _].
Qed.

Lemma parse_tz_offset (negative : bool) h m :
  h < 10 ^ 2 → m < 60 → (negative = true → 60 * h + m ≠ 0) →
  parse_tz (lit (if negative then "-" else "+") ++
            format_fixed 10 2 h ++ lit ":" ++ format_fixed 10 2 m)
  = Some (Some ((if negative then -1 else 1) * Z.of_N (60 * h + m) * minute_us)%Z).
Proof.
  intros Hh Hm Hnz. unfold parse_tz.
  assert (m < 10 ^ 2) as Hm' by (simpl; lia).
  apply N.ltb_lt in Hm.
  destruct negative.
  - specialize (Hnz eq_refl). apply N.eqb_neq in Hnz.
    change (lit "-" ++ ?l) with (ord "-" :: l). cbv iota beta.
    change (ord "-" =? ord "Z") with false.
    change (ord "-" =? ord "+") with false.
    change (ord "-" =? ord "-") with true. cbv iota. cbn [mbind option_bind].
    rewrite (parse_fixed_format 10 2) by done. cbn [mbind option_bind].
    rewrite expect_lit. cbn [mbind option_bind].
    rewrite <-(app_nil_r (format_fixed _ _ m)).
    rewrite (parse_fixed_format 10 2) by done. cbn [mbind option_bind].
    by rewrite Hm, Hnz.
  - change (lit "+" ++ ?l) with (ord "+" :: l). cbv iota beta.
    change (ord "+" =? ord "Z") with false.
    change (ord "+" =? ord "+") with true. cbv iota. cbn [mbind option_bind].
    rewrite (parse_fixed_format 10 2) by done. cbn [mbind option_bind].
    rewrite expect_lit. cbn [mbind option_bind].
    rewrite <-(app_nil_r (format_fixed _ _ m)).
    rewrite (parse_fixed_format 10 2) by done. cbn [mbind option_bind].
    by rewrite Hm.
Qed.

(** An offset of whole minutes is taken to the second without rounding. *)
Lemma offset_seconds_minutes k : offset_seconds (k * minute_us) = (60 * k)%Z.
Proof.
  unfold offset_seconds, minute_us.
  rewrite Z.sgn_mul, Z.abs_mul. change (Z.sgn 60000000) with 1%Z.
  change (Z.abs 60000000) with 60000000%Z.
  replace (Z.abs k * 60000000 + 500000)%Z with (60 * Z.abs k * 1000000 + 500000)%Z by lia.
  rewrite Z.div_add_l by done. change (500000 / 1000000)%Z with 0%Z.
  pose proof (Z.abs_sgn k). lia.
Qed.

(** The written form of an offset of whole minutes reads back as the
    offset. *)
Lemma parse_tz_format tz :
  match tz with Some off => (- day_us < off < day_us)%Z | None => True end →
  whole_minutes_tz tz = true →
  parse_tz (format_tz tz) = Some tz.
Proof.
  destruct tz as [off|]; [|done]. intros Hoff Hwhole. cbn in Hwhole.
  apply Z.eqb_eq in Hwhole.
  pose proof (Z.div_mod off minute_us ltac:(done)) as Hk. rewrite Hwhole in Hk.
  assert (∃ k, off = k * minute_us)%Z as [k ->] by (exists (off / minute_us)%Z; lia).
  clear Hk Hwhole. unfold day_us, minute_us in Hoff.
  unfold format_tz. cbv zeta. rewrite offset_seconds_minutes.
  destruct (Z.eqb_spec (60 * k) 0) as [Hz|Hz].
  { assert (k = 0%Z) as -> by lia. done. }
  set (a := Z.to_N (Z.abs (60 * k)) / 60).
  assert (a = Z.to_N (Z.abs k)) as Ha.
  { unfold a. replace (Z.abs (60 * k)) with (Z.abs k * 60)%Z by lia.
    rewrite Z2N.inj_mul by lia. change (Z.to_N 60) with 60.
    by rewrite N.div_mul. }
  pose proof (N.div_mod a 60 ltac:(done)) as Hdiv.
  pose proof (N.mod_lt a 60 ltac:(done)) as Hmod.
  destruct (Z.ltb_spec (60 * k) 0) as [Hneg|Hpos].
  - rewrite (parse_tz_offset true); [|apply N.Div0.div_lt_upper_bound; simpl; lia|lia..].
    do 2 f_equal. lia.
  - rewrite (parse_tz_offset false); [|apply N.Div0.div_lt_upper_bound; simpl; lia|lia|done].
    do 2 f_equal. lia.
Qed.

Lemma datetime_roundtrip t :
  whole_minutes t = true → datetime_fromisoformat (datetime_isoformat t) = Some t.
Proof.
  intros Hwhole.
  pose proof (valid_time_bounds _ _ _ _ _ (datetime_valid t)) as (Hh & Hmi & Hs & Hus & Htz).
  unfold datetime_fromisoformat, datetime_isoformat.
  rewrite parse_date_prefix_isoformat. cbn [mbind option_bind].
  rewrite expect_lit. cbn [mbind option_bind].
  rewrite (parse_fixed_format 10 2) by done. cbn [mbind option_bind].
  rewrite expect_lit. cbn [mbind option_bind].
  rewrite (parse_fixed_format 10 2) by done. cbn [mbind option_bind].
  rewrite expect_lit. cbn [mbind option_bind].
  rewrite (parse_fixed_format 10 2) by done. cbn [mbind option_bind].
  rewrite parse_fraction_format; [|done|by intros c rest' ?%format_tz_head].
  cbn [mbind option_bind].
  rewrite parse_tz_format by done. cbn [mbind option_bind].
  apply make_datetime_valid.
Qed.

Lemma hex_groups n :
  n / 16 ^ 24 * 16 ^ 24 + (n / 16 ^ 20) mod 16 ^ 4 * 16 ^ 20 +
  (n / 16 ^ 16) mod 16 ^ 4 * 16 ^ 16 + (n / 16 ^ 12) mod 16 ^ 4 * 16 ^ 12 +
  n mod 16 ^ 12 = n.
Proof.
  pose proof (N.div_mod n (16 ^ 12) ltac:(done)) as H1.
  pose proof (N.div_mod (n / 16 ^ 12) (16 ^ 4) ltac:(done)) as H2.
  pose proof (N.div_mod (n / 16 ^ 16) (16 ^ 4) ltac:(done)) as H3.
  pose proof (N.div_mod (n / 16 ^ 20) (16 ^ 4) ltac:(done)) as H4.
  rewrite N.Div0.div_div in H2, H3, H4.
  change (16 ^ 12 * 16 ^ 4) with (16 ^ 16) in H2.
  change (16 ^ 16 * 16 ^ 4) with (16 ^ 20) in H3.
  change (16 ^ 20 * 16 ^ 4) with (16 ^ 24) in H4.
  lia.
Qed.

Lemma UUID_roundtrip u : UUID_parse (UUID_str u) = Some u.
Proof.
  destruct u as [n Hn]. pose proof Hn as Hlt%Is_true_true%N.ltb_lt.
  unfold UUID_parse, UUID_str. cbn [int].
  rewrite (parse_fixed_format 16 8);
    [|done|apply N.Div0.div_lt_upper_bound; simpl in *; lia].
  cbn [mbind option_bind]. rewrite expect_lit. cbn [mbind option_bind].
  rewrite (parse_fixed_format 16 4); [|done|by apply N.mod_lt].
  cbn [mbind option_bind]. rewrite expect_lit. cbn [mbind option_bind].
  rewrite (parse_fixed_format 16 4); [|done|by apply N.mod_lt].
  cbn [mbind option_bind]. rewrite expect_lit. cbn [mbind option_bind].
  rewrite (parse_fixed_format 16 4); [|done|by apply N.mod_lt].
  cbn [mbind option_bind]. rewrite expect_lit. cbn [mbind option_bind].
  rewrite <-(app_nil_r (format_fixed _ _ (n mod _))).
  rewrite (parse_fixed_format 16 12); [|done|by apply N.mod_lt].
  cbn [mbind option_bind].
  rewrite hex_groups. apply (make_UUID_valid (MkUUID n Hn)).
Qed.

(** ** The validation engine *)

Section engine.
Context {host : Host} {uni : Unicode} {lax : Coercions}.

Lemma validate_fields_cons name f rest d w :
  validate_fields ((name, f) :: rest) d w =
  let r := validate_field name f d w in
  let acc := validate_fields rest d r.2 in
  (collect name r.1 acc.1, acc.2).
Proof. done. Qed.

Lemma validate_fields_step name f rest d w r w1 acc w2 :
  validate_field name f d w = (r, w1) →
  validate_fields rest d w1 = (acc, w2) →
  validate_fields ((name, f) :: rest) d w = (collect name r acc, w2).
Proof. intros Hr Hacc. by rewrite validate_fields_cons, Hr; cbn; rewrite Hacc. Qed.

Lemma model_validate_step cls d w acc w' :
  validate_fields (cls_fields cls) d w = (acc, w') →
  model_validate cls d w =
  (match acc.1 with
   | [] => Ok (Object (cls_name cls) acc.2)
   | _ :: _ => Err acc.1
   end, w').
Proof. intros Hacc. unfold model_validate, bind, ret. by rewrite Hacc. Qed.

Lemma model_validate_unfold cls d w :
  model_validate cls d w =
  let acc := validate_fields (cls_fields cls) d w in
  (match acc.1.1 with
   | [] => Ok (Object (cls_name cls) acc.1.2)
   | _ :: _ => Err acc.1.1
   end, acc.2).
Proof. done. Qed.

Lemma validate_field_present name f d v w :
  d !! name = Some v →
  validate_field name f d w =
  (match validate (field_annotation f) v with
   | Ok v' => Ok v'
   | Err e => Err {| loc := name; type := e |}
   end, w).
Proof. intros Hd. unfold validate_field. by rewrite Hd. Qed.

Lemma validate_field_absent name f d w :
  d !! name = None →
  validate_field name f d w =
  match field_default f with
  | Required => (Err {| loc := name; type := missing |}, w)
  | Default v => (Ok v, w)
  | DefaultFactory g => (Ok (call g w).1, (call g w).2)
  end.
Proof. intros Hd. unfold validate_field. rewrite Hd. by destruct (field_default f). Qed.

Lemma validate_field_default name f d v w :
  d !! name = None → field_default f = Default v →
  validate_field name f d w = (Ok v, w).
Proof. intros Hd Hf. by rewrite validate_field_absent, Hf. Qed.

(** Validation reads the input only at the declared keys. *)
Lemma validate_fields_agree fields d1 d2 w :
  (∀ k, k ∈ fields.*1 → d1 !! k = d2 !! k) →
  validate_fields fields d1 w = validate_fields fields d2 w.
Proof.
  revert w. induction fields as [|[name f] rest IH]; intros w Hd; [done|].
  rewrite !validate_fields_cons.
  assert (validate_field name f d1 w = validate_field name f d2 w) as ->.
  { unfold validate_field. rewrite (Hd name); [done|]. simpl. left. }
  cbv zeta. rewrite IH; [done|]. intros k Hk. apply Hd. simpl. by right.
Qed.

(** Validation reads of a declaration only its signature. *)
Lemma validate_fields_signature fields1 fields2 d w :
  signature fields1 = signature fields2 →
  validate_fields fields1 d w = validate_fields fields2 d w.
Proof.
  revert fields2 w. induction fields1 as [|[n1 f1] rest1 IH];
    intros [|[n2 f2] rest2] w Hsig; try done.
  injection Hsig as -> Ha Hd Hrest.
  rewrite !validate_fields_cons.
  assert (validate_field n2 f1 d w = validate_field n2 f2 d w) as ->.
  { unfold validate_field. simpl in *. by rewrite Ha, Hd. }
  cbv zeta. by rewrite (IH rest2).
Qed.

(** On success the instance has exactly the declared attributes, in
    declaration order. *)
Lemma validate_fields_names fields d w :
  (validate_fields fields d w).1.1 = [] →
  (validate_fields fields d w).1.2.*1 = fields.*1.
Proof.
  revert w. induction fields as [|[name f] rest IH]; intros w; [done|].
  rewrite validate_fields_cons. cbv zeta.
  destruct (validate_field name f d w).1; simpl; [|done].
  intros Hok. by rewrite IH.
Qed.

(** Errors are reported at declared fields only. *)
Lemma validate_fields_locs fields d w e :
  e ∈ (validate_fields fields d w).1.1 → loc e ∈ fields.*1.
Proof.
  revert w. induction fields as [|[name f] rest IH]; intros w.
  - simpl. by intros ?%elem_of_nil.
  - rewrite validate_fields_cons. cbv zeta. cbn [fmap list_fmap fst].
    destruct (validate_field name f d w).1 as [v|e'] eqn:Hr; cbn [collect fst].
    + intros He%IH. by right.
    + intros [->|He%IH]%elem_of_cons; [|by right].
      assert (loc e' = name) as ->; [|by left].
      unfold validate_field, ret, bind in Hr.
      destruct (d !! name); cbn [fst] in Hr.
      * destruct (validate _ _); by simplify_eq/=.
      * destruct (field_default f); by simplify_eq/=.
Qed.

End engine.

Section renaming.
Context {host : Host} {uni : Unicode} {lax : Coercions}.
Context (ρ : string → string) `{!Inj (=) (=) ρ}.

Lemma validate_field_rename name f d w :
  validate_field (ρ name) f (rename_input ρ d) w =
  (match (validate_field name f d w).1 with
   | Ok v => Ok v
   | Err e => Err (rename_error ρ e)
   end, (validate_field name f d w).2).
Proof.
  unfold validate_field, rename_input. rewrite lookup_kmap by done.
  destruct (d !! name) as [v|].
  - simpl. by destruct (validate _ v).
  - by destruct (field_default f).
Qed.

(** Renaming the declared names and the keys of the input alike renames the
    attributes and the error locations, and nothing else. *)
Lemma validate_fields_rename fields d w :
  validate_fields (rename_fields ρ fields) (rename_input ρ d) w =
  let r := validate_fields fields d w in
  ((map (rename_error ρ) r.1.1, map (prod_map ρ id) r.1.2), r.2).
Proof.
  revert w. induction fields as [|[name f] rest IH]; intros w; [done|].
  change (rename_fields ρ ((name, f) :: rest))
    with ((ρ name, f) :: rename_fields ρ rest).
  rewrite !validate_fields_cons, validate_field_rename. cbv zeta.
  cbn [fst snd]. rewrite IH. cbv zeta.
  by destruct (validate_field name f d w).1.
Qed.

End renaming.

Lemma renaming_involutive k : renaming (renaming k) = k.
Proof. unfold renaming. repeat case_decide; simplify_eq; done. Qed.

Lemma renaming_inj : Inj (=) (=) renaming.
Proof.
  intros k1 k2 Hk. by rewrite <-(renaming_involutive k1), Hk, renaming_involutive.
Qed.

Lemma rename_input_involutive d :
  rename_input renaming (rename_input renaming d) = d.
Proof.
  pose proof renaming_inj. apply map_eq. intros k. unfold rename_input.
  rewrite <-(renaming_involutive k) at 1. by rewrite !lookup_kmap.
Qed.

(** ** Writing an instance as JSON and validating it again *)

Section roundtrip.
Context {host : Host} {uni : Unicode} {lax : Coercions}.

(** What a string validator accepts is a string. *)
Lemma validate_str_Ok v v' :
  validate str_t v = Ok v' → ∃ s, v' = VStr s ∧ validate_str v = Ok s.
Proof.
  simpl. destruct (validate_str v) as [s|]; [|done]. intros [= <-]. eauto.
Qed.

Lemma check_constraints_Ok c s s' :
  check_constraints c s = Ok s' →
  s' = s ∧ match pattern c with
           | Some r => well_formed s = true ∧ is_match r s = true
           | None => True
           end.
Proof.
  unfold check_constraints. destruct (pattern c); [|by intros [= <-]].
  destruct (well_formed s); [|done].
  destruct (is_match _ s); [|done]. by intros [= <-].
Qed.

(** A validated value written as JSON validates to itself, when JSON carries
    it without loss. *)
Lemma validate_stable a v v' :
  validate a v = Ok v' → json_exact v' = true →
  validate a (to_jsonable v') = Ok v'.
Proof.
  revert v v'. induction a as [ | | | | a IH | a IH c ]; intros v v' Hv Hex.
  - by apply validate_str_Ok in Hv as (s & -> & _).
  - simpl in Hv. destruct (validate_date v) as [d|] eqn:Hd; simplify_eq/=.
    by rewrite date_roundtrip.
  - simpl in Hv. destruct (validate_datetime v) as [t|] eqn:Ht; simplify_eq/=.
    by rewrite datetime_roundtrip.
  - simpl in Hv. destruct (validate_uuid v) as [u|] eqn:Hu; simplify_eq/=.
    by rewrite UUID_roundtrip.
  - assert (v = VNone ∧ v' = VNone ∨ validate a v = Ok v') as [[-> ->] | Ha].
    { destruct v; simpl in Hv; simplify_eq; auto. }
    + done.
    + apply IH in Ha; [|done].
      change (validate (Optional a) ?x) with
        (match x with VNone => Ok VNone | _ => validate a x end).
      destruct v'; simpl in *; try done.
      by destruct (utf8_decode b).
  - simpl in Hv. destruct (validate a v) as [v0|] eqn:Ha; [|done].
    assert ((∃ s, v0 = VStr s ∧ result_map VStr (check_constraints c s) = Ok v') ∨
            v0 = v') as [(s & -> & Hc) | ->].
    { destruct v0; simplify_eq; eauto. }
    + assert (v' = VStr s) as ->.
      { destruct (check_constraints c s) as [s'|] eqn:Hs; [|done].
        apply check_constraints_Ok in Hs as [-> _]. by injection Hc as <-. }
      apply IH in Ha; [|done]. simpl in *. by rewrite Ha.
    + apply IH in Ha; [|done]. simpl. rewrite Ha. by destruct (to_jsonable v').
Qed.

Lemma validate_field_stable name f d w v :
  default_stable f →
  (validate_field name f d w).1 = Ok v →
  json_exact v = true →
  validate (field_annotation f) (to_jsonable v) = Ok v.
Proof.
  unfold default_stable, validate_field. intros Hf.
  destruct (d !! name) as [vin|]; simpl.
  - destruct (validate _ vin) eqn:Hv; [|done]. intros [= <-].
    by eapply validate_stable.
  - destruct (field_default f); simpl; [done|intros [= <-]; auto..].
Qed.

Lemma roundtrip_fields fields d w doc w2 :
  Forall (λ nf, default_stable nf.2) fields →
  (validate_fields fields d w).1.1 = [] →
  (∀ k v, (k, v) ∈ (validate_fields fields d w).1.2 →
          json_exact v = true ∧ doc !! k = Some (to_jsonable v)) →
  validate_fields fields doc w2 = (([], (validate_fields fields d w).1.2), w2).
Proof.
  revert w. induction fields as [|[name f] rest IH]; intros w Hst; [done|].
  inversion Hst as [|? ? Hf Hrest]; subst.
  rewrite !validate_fields_cons. cbv zeta.
  destruct (validate_field name f d w).1 as [v|e] eqn:Hv; simpl; [|done].
  intros Hok Hdoc.
  destruct (Hdoc name v) as [Hex Hlook]; [by left|].
  rewrite (validate_field_present name f doc (to_jsonable v)) by done.
  rewrite (validate_field_stable name f d w v) by done. simpl.
  rewrite (IH (validate_field name f d w).2); [done..|].
  intros k v' Hin. apply Hdoc. by right.
Qed.

Lemma model_dump_json_Some o doc :
  model_dump_json o = Some doc →
  doc = map (λ kv, (kv.1, to_jsonable kv.2)) (obj_dict o) ∧
  Forall (λ kv, serializable kv.2 = true) (obj_dict o).
Proof.
  unfold model_dump_json.
  destruct (forallb _ _) eqn:Hall; [|done]. intros [= <-]. split; [done|].
  apply Forall_forall. intros kv Hin%list_elem_of_In.
  rewrite forallb_forall in Hall. by apply Hall.
Qed.

(** The round trip, for any class whose field names are distinct and whose
    defaults are stable, on an instance that has a JSON form which carries
    its values without loss. *)
Lemma model_roundtrip cls d w o doc w2 :
  NoDup (field_names cls) →
  Forall (λ nf, default_stable nf.2) (cls_fields cls) →
  (model_validate cls d w).1 = Ok o →
  Forall (λ kv, json_exact kv.2 = true) (obj_dict o) →
  model_dump_json o = Some doc →
  model_validate_json cls doc w2 = (Ok o, w2).
Proof.
  intros Hnodup Hst Ho Hex [-> _]%model_dump_json_Some. revert Ho Hex.
  unfold model_validate_json.
  rewrite !model_validate_unfold. cbv zeta. cbn [fst].
  destruct (validate_fields (cls_fields cls) d w).1.1 eqn:Herrs; [|done].
  intros [= <-]. cbn [obj_dict]. intros Hex.
  rewrite (roundtrip_fields _ d w); [by rewrite ?Herrs|done..|].
  intros k v Hin. split.
  { rewrite Forall_forall in Hex. by apply (Hex (k, v)). }
  apply elem_of_list_to_map_1.
  - rewrite fmap_reverse, reverse_Permutation.
    rewrite <-list_fmap_compose.
    erewrite (list_fmap_ext _ fst); [|done].
    by rewrite validate_fields_names.
  - apply elem_of_reverse.
    apply (list_elem_of_fmap_2 (λ kv, (kv.1, to_jsonable kv.2)) _ (k, v)), Hin.
Qed.

End roundtrip.

(** ** The pattern of [UNIType] *)

Section pattern.
Context {uni : Unicode}.

Lemma digit_class c : class_accepts [PerlDigit] c ↔ is_decimal_digit c = true.
Proof. unfold class_accepts. simpl. by rewrite orb_false_r. Qed.

Lemma ascii_digit_class c :
  class_accepts [ClassRange (ord "0") (ord "9")] c ↔ is_ascii_digit c = true.
Proof. unfold class_accepts. simpl. by rewrite orb_false_r. Qed.

Lemma lower_class c :
  class_accepts [ClassRange (ord "a") (ord "z")] c ↔ is_ascii_lower c = true.
Proof. unfold class_accepts. simpl. by rewrite orb_false_r. Qed.

Lemma ascii_digit_is_decimal c : is_ascii_digit c = true → is_decimal_digit c = true.
Proof.
  intros Hc. unfold is_decimal_digit, decimal_digit_ranges.
  apply orb_true_iff. left. cbn [existsb]. apply orb_true_iff. by left.
Qed.

Lemma UNI_compiled :
  compile departments.UNI_pattern = Some departments.UNI_regex ∧
  compile lectures.UNI_pattern = Some lectures.UNI_regex ∧
  lectures.UNI_regex = departments.UNI_regex ∧
  compile spec_UNI_pattern = Some spec_UNI_regex.
Proof. done. Qed.

Lemma uni_shape_classes A B digit s :
  (∀ c, class_accepts A c ↔ is_ascii_lower c = true) →
  (∀ c, class_accepts B c ↔ digit c = true) →
  (∃ p q, s = p ++ q ∧ (2 ≤ length p ≤ 3)%nat ∧ Forall (class_accepts A) p ∧
          (1 ≤ length q ≤ 4)%nat ∧ Forall (class_accepts B) q) ↔
  uni_shape digit s.
Proof.
  intros HA HB. unfold uni_shape.
  split; intros (p & q & -> & Hp & HAp & Hq & HBq); exists p, q;
    (repeat split; [lia..| |lia|lia|]);
    (eapply Forall_impl; [eassumption|]); intros c; simpl;
    first [apply HA | apply HB].
Qed.

(** The strings that the pattern of the source matches: [\d] stands for
    every decimal digit of Unicode. *)
Lemma UNI_regex_shape s :
  is_match departments.UNI_regex s = true ↔ uni_shape is_decimal_digit s.
Proof.
  unfold departments.UNI_regex. rewrite two_runs_match by lia.
  apply uni_shape_classes; [apply lower_class|apply digit_class].
Qed.

Lemma spec_UNI_regex_shape s :
  is_match spec_UNI_regex s = true ↔ uni_shape is_ascii_digit s.
Proof.
  unfold spec_UNI_regex. rewrite two_runs_match by lia.
  apply uni_shape_classes; [apply lower_class|apply ascii_digit_class].
Qed.

Lemma spec_shape_accepted s :
  uni_shape is_ascii_digit s → uni_shape is_decimal_digit s.
Proof.
  intros (l & d & -> & Hl & Hlower & Hd & Hdigits).
  exists l, d. repeat split; try done; try lia.
  eapply Forall_impl; [done|]. apply ascii_digit_is_decimal.
Qed.

(** Neither a letter nor a digit is a surrogate: the strings of the pattern
    are well formed. *)
Lemma decimal_digit_scalar c : is_decimal_digit c = true → is_surrogate c = false.
Proof.
  unfold is_decimal_digit. intros [Htable|Hlater]%orb_true_iff.
  - apply existsb_exists in Htable as (r & Hin & Hr).
    unfold in_range, is_surrogate in *.
    apply andb_true_iff in Hr as [H1%N.leb_le H2%N.leb_le].
    apply andb_false_iff. rewrite !N.leb_gt.
    unfold decimal_digit_ranges in Hin.
    repeat (destruct Hin as [<-|Hin]; [cbn [fst snd] in *; lia|]).
    destruct Hin.
  - by apply later_digit_scalar.
Qed.

Lemma uni_shape_well_formed s : uni_shape is_decimal_digit s → well_formed s = true.
Proof.
  intros (l & ds & -> & _ & Hl & _ & Hd). unfold well_formed.
  apply forallb_forall. intros c [Hc|Hc]%in_app_iff; apply negb_true_iff.
  - rewrite Forall_forall in Hl. apply list_elem_of_In, Hl in Hc.
    unfold is_ascii_lower, in_range, is_surrogate in *. cbn [fst snd] in Hc.
    apply andb_true_iff in Hc as [H1%N.leb_le H2%N.leb_le].
    apply andb_false_iff. rewrite !N.leb_gt.
    change (ord "z") with 122 in H2. lia.
  - rewrite Forall_forall in Hd. by apply decimal_digit_scalar, Hd, list_elem_of_In.
Qed.

End pattern.

(** ** Creation and update payloads *)

Lemma schema_signatures :
  (∀ cls owner date_key, (cls, owner, date_key) ∈ create_schemas →
     signature (cls_fields cls) = base_signature owner date_key) ∧
  (∀ cls owner date_key, (cls, owner, date_key) ∈ update_schemas →
     signature (cls_fields cls) = update_signature owner date_key).
Proof. split; intros cls owner date_key Hcls; schema_cases Hcls; by vm_compute. Qed.

Section payloads.
Context {host : Host} {uni : Unicode} {lax : Coercions}.

Lemma validate_fields_plain fields sig d w :
  signature fields = sig →
  validate_fields fields d w = validate_fields (plain_fields sig) d w.
Proof.
  intros <-. apply validate_fields_signature.
  induction fields as [|[name f] rest IH]; [done|]. simpl. by rewrite <-IH.
Qed.

(** A [code] given as a string: the pattern decides; a string that cannot be
    handed to the engine is reported as such. *)
Lemma validate_UNIType s :
  validate departments.UNIType (VStr s) =
  if is_match departments.UNI_regex s then Ok (VStr s)
  else Err (if well_formed s then string_pattern_mismatch else string_unicode).
Proof.
  unfold departments.UNIType. cbn [validate validate_str result_map].
  unfold check_constraints. cbn [pattern].
  destruct (is_match _ _) eqn:Hm; destruct (well_formed s) eqn:Hw; try done.
  apply UNI_regex_shape, uni_shape_well_formed in Hm. congruence.
Qed.

(** An optional field whose value, if any, is in order. *)
Lemma validate_optional_field a d w key desc ex :
  (∀ v, d !! key = Some v → is_ok (validate (Optional a) v) = true) →
  ∃ v, validate_field key (Field (Optional a) (Default VNone) desc ex) d w
       = (Ok v, w).
Proof.
  intros Hv. destruct (d !! key) as [v|] eqn:Hkey.
  - rewrite (validate_field_present _ _ _ v) by done. cbn [field_annotation].
    specialize (Hv v eq_refl). destruct (validate _ v); [eauto|done].
  - rewrite validate_field_absent by done. cbn [field_default]. eauto.
Qed.

(** The outcome of a creation payload whose owner and date are in order is
    decided by the pattern alone. *)
Lemma create_outcome cls owner date_key d s w :
  (cls, owner, date_key) ∈ create_schemas →
  d !! "code" = Some (VStr s) →
  (∃ name, d !! owner = Some (VStr name)) →
  (∀ v, d !! date_key = Some v → is_ok (validate (Optional date_t) v) = true) →
  (is_match departments.UNI_regex s = true ∧
   ∃ o, model_validate cls d w = (Ok o, w) ∧ getattr o "code" = Some (VStr s)) ∨
  (is_match departments.UNI_regex s = false ∧
   model_validate cls d w =
     (Err [ {| loc := "code";
               type := if well_formed s then string_pattern_mismatch
                       else string_unicode |} ], w)).
Proof.
  intros Hsig%schema_signatures Hcode [name Howner] Hdate.
  destruct (validate_optional_field date_t d w date_key None None Hdate) as [v Hv].
  erewrite model_validate_step; last first.
  { rewrite (validate_fields_plain _ _ d w Hsig).
    eapply validate_fields_step; [by apply validate_field_present|].
    eapply validate_fields_step; [by apply validate_field_present|].
    eapply validate_fields_step; [exact Hv|done]. }
  cbn [field_annotation fst snd]. rewrite validate_UNIType.
  destruct (is_match _ s); [left|right]; split; try done.
  eexists. split; [done|]. unfold getattr. cbn. by case_decide.
Qed.

(** The outcome of an update whose [code] is a string, and whose other
    fields are absent or in order, is decided by the pattern alone. *)
Lemma update_outcome cls owner date_key d s w :
  (cls, owner, date_key) ∈ update_schemas →
  d !! "code" = Some (VStr s) →
  (∀ v, d !! owner = Some v → is_ok (validate (Optional str_t) v) = true) →
  (∀ v, d !! date_key = Some v → is_ok (validate (Optional date_t) v) = true) →
  is_ok (model_validate cls d w).1 = is_match departments.UNI_regex s.
Proof.
  intros Hsig%schema_signatures Hcode Howner Hdate.
  destruct (validate_optional_field str_t d w owner None None Howner) as [vo Hvo].
  destruct (validate_optional_field date_t d w date_key None None Hdate) as [vd Hvd].
  erewrite model_validate_step; last first.
  { rewrite (validate_fields_plain _ _ d w Hsig).
    eapply validate_fields_step; [by apply validate_field_present|].
    eapply validate_fields_step; [exact Hvo|].
    eapply validate_fields_step; [exact Hvd|done]. }
  cbn [field_annotation fst snd].
  change (validate (Optional ?a) (VStr s)) with (validate a (VStr s)).
  rewrite validate_UNIType. by destruct (is_match _ s).
Qed.

(** The outcome of an update without any field. *)
Lemma empty_update_outcome cls owner date_key w :
  (cls, owner, date_key) ∈ update_schemas →
  model_validate cls ∅ w =
  (Ok (Object (cls_name cls) [("code", VNone); (owner, VNone); (date_key, VNone)]), w).
Proof.
  intros Hsig%schema_signatures.
  erewrite model_validate_step; last first.
  { rewrite (validate_fields_plain _ _ ∅ w Hsig).
    eapply validate_fields_step; [by apply validate_field_default; [apply lookup_empty|]|].
    eapply validate_fields_step; [by apply validate_field_default; [apply lookup_empty|]|].
    eapply validate_fields_step; [by apply validate_field_default; [apply lookup_empty|]|].
    done. }
  done.
Qed.

End payloads.

Section factory_free_fields.
Context {host : Host} {uni : Unicode} {lax : Coercions}.

Lemma validate_field_pure name f d w :
  factory_free [(name, f)] = true →
  validate_field name f d w = ((validate_field name f d w).1, w).
Proof.
  unfold factory_free, validate_field. simpl.
  destruct (d !! name); [done|]. by destruct (field_default f).
Qed.

(** The three fields of a base class, evaluated one by one. *)
Lemma three_fields n1 f1 n2 f2 n3 f3 d w :
  factory_free [(n1, f1); (n2, f2); (n3, f3)] = true →
  validate_fields [(n1, f1); (n2, f2); (n3, f3)] d w =
  (collect n1 (validate_field n1 f1 d w).1
     (collect n2 (validate_field n2 f2 d w).1
        (collect n3 (validate_field n3 f3 d w).1 ([], []))), w).
Proof.
  intros Hfree. simpl in Hfree. rewrite !andb_true_iff in Hfree.
  destruct Hfree as (H1 & H2 & H3 & _).
  eapply validate_fields_step; [apply validate_field_pure; simpl; by rewrite H1|].
  eapply validate_fields_step; [apply validate_field_pure; simpl; by rewrite H2|].
  eapply validate_fields_step; [apply validate_field_pure; simpl; by rewrite H3|].
  done.
Qed.

End factory_free_fields.

Section read_fields.
Context {host : Host} {uni : Unicode} {lax : Coercions}.

(** The six fields of a read class: the base fields leave the state of the
    host alone, the three others thread it. *)
Lemma six_fields n1 f1 n2 f2 n3 f3 n4 f4 n5 f5 n6 f6 d w :
  factory_free [(n1, f1); (n2, f2); (n3, f3)] = true →
  validate_fields [(n1, f1); (n2, f2); (n3, f3); (n4, f4); (n5, f5); (n6, f6)] d w =
  let r4 := validate_field n4 f4 d w in
  let r5 := validate_field n5 f5 d r4.2 in
  let r6 := validate_field n6 f6 d r5.2 in
  (collect n1 (validate_field n1 f1 d w).1
     (collect n2 (validate_field n2 f2 d w).1
        (collect n3 (validate_field n3 f3 d w).1
           (collect n4 r4.1 (collect n5 r5.1 (collect n6 r6.1 ([], [])))))),
   r6.2).
Proof.
  intros Hfree. simpl in Hfree. rewrite !andb_true_iff in Hfree.
  destruct Hfree as (H1 & H2 & H3 & _). cbv zeta.
  eapply validate_fields_step; [apply validate_field_pure; simpl; by rewrite H1|].
  eapply validate_fields_step; [apply validate_field_pure; simpl; by rewrite H2|].
  eapply validate_fields_step; [apply validate_field_pure; simpl; by rewrite H3|].
  eapply validate_fields_step; [apply surjective_pairing|].
  eapply validate_fields_step; [apply surjective_pairing|].
  eapply validate_fields_step; [apply surjective_pairing|].
  done.
Qed.

Lemma uuid_field_inv name desc ex d w v :
  (validate_field name (Field UUID_t (DefaultFactory uuid4) desc ex) d w).1 = Ok v →
  ∃ u, v = VUUID u ∧
       match d !! name with
       | Some vin => validate_uuid vin = Ok u
       | None => u = (random_uuid w).1
       end ∧
       (validate_field name (Field UUID_t (DefaultFactory uuid4) desc ex) d w).2 =
       match d !! name with Some _ => w | None => (random_uuid w).2 end.
Proof.
  unfold validate_field. destruct (d !! name) as [vin|]; cbn.
  - destruct (validate_uuid vin) as [u|]; cbn; intros; simplify_eq. eauto.
  - intros [= <-]. eauto.
Qed.

Lemma datetime_field_inv name desc ex d w v :
  (validate_field name (Field datetime_t (DefaultFactory datetime_utcnow) desc ex) d w).1
    = Ok v →
  ∃ t, v = VDatetime t ∧
       match d !! name with
       | Some vin => validate_datetime vin = Ok t
       | None => t = (clock_utcnow w).1
       end ∧
       (validate_field name (Field datetime_t (DefaultFactory datetime_utcnow) desc ex) d w).2 =
       match d !! name with Some _ => w | None => (clock_utcnow w).2 end.
Proof.
  unfold validate_field. destruct (d !! name) as [vin|]; cbn.
  - destruct (validate_datetime vin) as [t|]; cbn; intros; simplify_eq. eauto.
  - intros [= <-]. eauto.
Qed.

End read_fields.

(** Evaluates the fields of a read class in the goal. *)
Ltac eval_read_fields :=
  erewrite model_validate_step; last first;
  [ match goal with
    | |- validate_fields (cls_fields ?cls) _ _ = _ =>
        let fs := eval vm_compute in (cls_fields cls) in
        change (cls_fields cls) with fs
    end; by apply six_fields
  | cbv zeta; cbn [fst snd] ].

(** Follows a successful validation by a read class field by field. *)
Ltac read_metadata owner date_key d w :=
  eval_read_fields;
  destruct (validate_field "code" _ d w).1 as [?|]; [|done];
  destruct (validate_field owner _ d w).1 as [?|]; [|done];
  destruct (validate_field date_key _ d w).1 as [?|]; [|done];
  let Hid := fresh "Hid" in
  let Hcreated := fresh "Hcreated" in
  let Hupdated := fresh "Hupdated" in
  destruct (validate_field "id" _ d w).1 as [?|] eqn:Hid; [|done];
  apply uuid_field_inv in Hid as (u & -> & ? & ->);
  destruct (validate_field "created_at" _ d _).1 as [?|] eqn:Hcreated; [|done];
  apply datetime_field_inv in Hcreated as (t1 & -> & ? & ->);
  destruct (validate_field "updated_at" _ d _).1 as [?|] eqn:Hupdated; [|done];
  apply datetime_field_inv in Hupdated as (t2 & -> & ? & _);
  cbn [collect fst snd]; intros [= <-]; by exists u, t1, t2.

Section read_metadata.
Context {host : Host} {uni : Unicode} {lax : Coercions}.

(** Every read object carries [id], [created_at] and [updated_at], a UUID
    and two datetimes.  Each is the validated value of the input when the
    input has the key, and is drawn from its default factory otherwise. *)
Lemma read_metadata_values cls owner date_key d w o :
  (cls, owner, date_key) ∈ read_schemas →
  (model_validate cls d w).1 = Ok o →
  let w1 := match d !! "id" with Some _ => w | None => (random_uuid w).2 end in
  let w2 := match d !! "created_at" with Some _ => w1 | None => (clock_utcnow w1).2 end in
  ∃ u t1 t2,
    getattr o "id" = Some (VUUID u) ∧
    getattr o "created_at" = Some (VDatetime t1) ∧
    getattr o "updated_at" = Some (VDatetime t2) ∧
    match d !! "id" with
    | Some v => validate_uuid v = Ok u
    | None => u = (random_uuid w).1
    end ∧
    match d !! "created_at" with
    | Some v => validate_datetime v = Ok t1
    | None => t1 = (clock_utcnow w1).1
    end ∧
    match d !! "updated_at" with
    | Some v => validate_datetime v = Ok t2
    | None => t2 = (clock_utcnow w2).1
    end.
Proof.
  intros Hcls.
  schema_cases Hcls;
    [read_metadata "staff"%string "founding_date"%string d w
    |read_metadata "professor"%string "start_date"%string d w].
Qed.

End read_metadata.

(** A read object made from a stored record keeps the identifier and the
    timestamps of the record. *)
Example read_of_a_record :
  ∃ o, (demo_validate departments.DepartmentRead
          [ ("code", VStr (lit "abc1234")); ("staff", VStr (lit "Ada"));
            ("id", VUUID sample_UUID);
            ("created_at", VStr (lit "1999-12-31T23:59:59Z"));
            ("updated_at", VStr (lit "1999-12-31T23:59:59Z")) ] 0) = (Ok o, 0) ∧
       getattr o "id" = Some (VUUID sample_UUID) ∧
       (datetime_isoformat <$> (getattr o "created_at" ≫= λ v,
                                  match v with VDatetime t => Some t | _ => None end))
         = Some (lit "1999-12-31T23:59:59Z") ∧
       getattr o "updated_at" = getattr o "created_at".
Proof. eexists. split; [vm_compute; reflexivity|]. by vm_compute. Qed.

Lemma assoc_None name (l : list (string * value)) : name ∉ l.*1 → assoc name l = None.
Proof.
  induction l as [|[k v] l IH]; [done|]. simpl. intros Hn.
  apply not_elem_of_cons in Hn as [Hne Hn]. case_decide; [done|]. by apply IH.
Qed.

Lemma to_jsonable_is_json v : serializable v = true → is_json (to_jsonable v) = true.
Proof. destruct v; try done. simpl. by destruct (utf8_decode b). Qed.

Lemma field_names_NoDup cls : cls ∈ all_schemas → NoDup (field_names cls).
Proof.
  intros Hcls. schema_cases Hcls; apply (bool_decide_unpack _); by vm_compute.
Qed.

Lemma read_in_all_schemas cls owner date_key :
  (cls, owner, date_key) ∈ read_schemas → cls ∈ all_schemas.
Proof.
  intros Hcls. unfold all_schemas. schema_cases Hcls; rewrite !elem_of_cons; tauto.
Qed.

Section read_roundtrip.
Context {host : Host} {uni : Unicode} {lax : Coercions}.

Lemma factory_fields_stable :
  (∀ desc ex, default_stable (Field UUID_t (DefaultFactory uuid4) desc ex)) ∧
  (∀ desc ex, default_stable (Field datetime_t (DefaultFactory datetime_utcnow) desc ex)).
Proof.
  split; intros desc ex w Hexact; unfold default_stable;
    cbn [field_default field_annotation call fst to_jsonable validate] in *;
    unfold validate_uuid, validate_datetime.
  - by rewrite UUID_roundtrip.
  - by rewrite datetime_roundtrip.
Qed.

Lemma read_defaults_stable cls owner date_key :
  (cls, owner, date_key) ∈ read_schemas →
  Forall (λ nf, default_stable nf.2) (cls_fields cls).
Proof.
  intros Hcls. destruct factory_fields_stable as [Hid Hts].
  schema_cases Hcls;
    (match goal with
     | |- Forall _ (cls_fields ?cls) =>
         let fs := eval vm_compute in (cls_fields cls) in
         change (cls_fields cls) with fs
     end;
     repeat (apply Forall_cons_2; [first [apply Hid | apply Hts | done]|]);
     apply Forall_nil_2).
Qed.

End read_roundtrip.

(** Without default factories the outcome is the same on every host and in
    every state, and the state is left as it was. *)
Lemma validate_fields_host_independent (host1 host2 : Host) {uni : Unicode} {lax : Coercions}
    fields d (w1 : @World host1) (w2 : @World host2) :
  factory_free fields = true →
  (validate_fields (host := host1) fields d w1).1 =
    (validate_fields (host := host2) fields d w2).1 ∧
  (validate_fields (host := host1) fields d w1).2 = w1.
Proof.
  revert w1 w2. induction fields as [|[name f] rest IH]; intros w1 w2 Hfree; [done|].
  simpl in Hfree. apply andb_true_iff in Hfree as [Hf Hrest].
  rewrite !validate_fields_cons. cbv zeta.
  assert (validate_field (host := host1) name f d w1 =
            ((validate_field (host := host2) name f d w2).1, w1)) as ->.
  { unfold validate_field. destruct (d !! name); [done|].
    by destruct (field_default f). }
  cbn [fst snd].
  assert (validate_field (host := host2) name f d w2 =
            ((validate_field (host := host2) name f d w2).1, w2)) as Hw2.
  { unfold validate_field. destruct (d !! name); [done|].
    by destruct (field_default f). }
  rewrite Hw2. cbn [fst snd].
  destruct (IH w1 w2 Hrest) as [-> ->]. done.
Qed.

Lemma payload_schemas_factory_free cls :
  cls ∈ payload_schemas → factory_free (cls_fields cls) = true.
Proof. intros Hcls. schema_cases Hcls; by vm_compute. Qed.

(** ** Examples *)

Example create_example :
  demo_validate departments.DepartmentCreate
    [ ("code", VStr (lit "abc1234")); ("staff", VStr (lit "Ada"));
      ("founding_date", VStr (lit "1815-12-10")) ] 0
  = (Ok (Object "DepartmentCreate"
           [ ("code", VStr (lit "abc1234")); ("staff", VStr (lit "Ada"));
             ("founding_date", VDate (Date 1815 12 10 I)) ]), 0).
Proof. by vm_compute. Qed.

Example uppercase_code_rejected :
  demo_validate departments.DepartmentCreate
    [ ("code", VStr (lit "ABC1234")); ("staff", VStr (lit "Ada")) ] 0
  = (Err [ {| loc := "code"; type := string_pattern_mismatch |} ], 0).
Proof. by vm_compute. Qed.

Example all_errors_are_reported :
  demo_validate lectures.LectureCreate
    [ ("code", VStr (lit "1ab23")); ("start_date", VStr (lit "Lovelace")) ] 0
  = (Err [ {| loc := "code"; type := string_pattern_mismatch |};
           {| loc := "professor"; type := missing |};
           {| loc := "start_date"; type := date_from_datetime_parsing |} ], 0).
Proof. by vm_compute. Qed.

Example pattern_examples :
  map (is_match (uni := unicode_15) departments.UNI_regex)
    [ lit "ab1"; lit "abc1234"; lit "AB123"; lit "ab12345678"; lit "1ab23";
      lit "a1"; lit "abcd1"; lit "abc"; lit "ab1" ++ [10]; arabic_code;
      lit "ab" ++ [0x11F50] ]
  = [ true; true; false; false; false; false; false; false; false; true; true ].
Proof. by vm_compute. Qed.

(** A byte string is read as the text it encodes; a lone surrogate passes a
    plain [str] field and is refused by a constrained one. *)
Example bytes_and_surrogates :
  demo_validate departments.DepartmentCreate
    [ ("code", VBytes (blit "ab1")); ("staff", VBytes (blit "Ada")) ] 0
  = (Ok (Object "DepartmentCreate"
           [ ("code", VStr (lit "ab1")); ("staff", VStr (lit "Ada"));
             ("founding_date", VNone) ]), 0) ∧
  demo_validate departments.DepartmentCreate
    [ ("code", VStr (lit "ab1")); ("staff", VBytes [xff]) ] 0
  = (Err [ {| loc := "staff"; type := string_unicode |} ], 0) ∧
  demo_validate departments.DepartmentCreate
    [ ("code", VStr (lit "ab1")); ("staff", VStr [0xD800]) ] 0
  = (Ok (Object "DepartmentCreate"
           [ ("code", VStr (lit "ab1")); ("staff", VStr [0xD800]);
             ("founding_date", VNone) ]), 0) ∧
  demo_validate departments.DepartmentCreate
    [ ("code", VStr (lit "ab" ++ [0xD800])); ("staff", VStr (lit "Ada")) ] 0
  = (Err [ {| loc := "code"; type := string_unicode |} ], 0).
Proof. by vm_compute. Qed.

(** A read object draws what the input leaves out from the host. *)
Example read_defaults :
  ∃ o, demo_validate departments.DepartmentRead
         [ ("code", VStr (lit "abc1234")); ("staff", VStr (lit "Ada")) ] 5 = (Ok o, 8) ∧
       (UUID_str <$> (getattr o "id" ≫= λ v, match v with VUUID u => Some u | _ => None end))
         = Some (lit "00000000-0000-0000-0000-000000000005") ∧
       model_dump_json o = Some
         [ ("code", VStr (lit "abc1234")); ("staff", VStr (lit "Ada"));
           ("founding_date", VNone);
           ("id", VStr (lit "00000000-0000-0000-0000-000000000005"));
           ("created_at", VStr (lit "2025-01-01T10:20:30.000006"));
           ("updated_at", VStr (lit "2025-01-01T10:20:30.000007")) ].
Proof. eexists. split; [vm_compute; reflexivity|]. by vm_compute. Qed.

(** ** Further properties of the engine *)

(** ** Fields one by one *)

Section fields.
Context {host : Host} {uni : Unicode} {lax : Coercions}.

(** A field that yields a value took it from the input, validated, or from
    its default. *)
Lemma validate_field_Ok name f d w v :
  (validate_field name f d w).1 = Ok v →
  (∃ vin, d !! name = Some vin ∧ validate (field_annotation f) vin = Ok v) ∨
  (d !! name = None ∧
   (field_default f = Default v ∨
    ∃ g, field_default f = DefaultFactory g ∧ v = (call g w).1)).
Proof.
  unfold validate_field. destruct (d !! name) as [vin|]; cbn.
  - destruct (validate _ vin) eqn:Hv; [|done]. intros [= <-]. left. eauto.
  - destruct (field_default f) eqn:Hf; cbn; [done|..]; intros [= <-]; right; eauto.
Qed.

(** A field that yields an error is at fault itself: its value is rejected
    by its validator, or it is required and absent. *)
Lemma validate_field_Err name f d w e :
  (validate_field name f d w).1 = Err e →
  loc e = name ∧
  ((∃ vin, d !! name = Some vin ∧ validate (field_annotation f) vin = Err (type e)) ∨
   (d !! name = None ∧ field_default f = Required ∧ type e = missing)).
Proof.
  unfold validate_field. destruct (d !! name) as [vin|]; cbn.
  - destruct (validate _ vin) eqn:Hv; [done|]. intros [= <-]. split; [done|].
    left. eauto.
  - destruct (field_default f) eqn:Hf; cbn; [|done..]. intros [= <-]. auto.
Qed.

(** The attributes of an accepted input, field by field. *)
Lemma validate_fields_attrs fields d w :
  (validate_fields fields d w).1.1 = [] →
  Forall2 (λ nf kv, kv.1 = nf.1 ∧ ∃ w0, (validate_field nf.1 nf.2 d w0).1 = Ok kv.2)
    fields (validate_fields fields d w).1.2.
Proof.
  revert w. induction fields as [|[name f] rest IH]; intros w.
  - intros _. constructor.
  - rewrite validate_fields_cons. cbv zeta.
    destruct (validate_field name f d w).1 as [v|e] eqn:Hr; cbn [collect fst snd]; [|done].
    intros Hok. constructor; [|by apply IH]. split; [done|]. by exists w.
Qed.

(** The errors of a rejected input, field by field. *)
Lemma validate_fields_errors fields d w e :
  e ∈ (validate_fields fields d w).1.1 →
  ∃ f w0, (loc e, f) ∈ fields ∧ (validate_field (loc e) f d w0).1 = Err e.
Proof.
  revert w. induction fields as [|[name f] rest IH]; intros w.
  - simpl. by intros ?%elem_of_nil.
  - rewrite validate_fields_cons. cbv zeta.
    destruct (validate_field name f d w).1 as [v|e'] eqn:Hr; cbn [collect fst].
    + intros (f' & w0 & Hin & He)%IH. exists f', w0. split; [by right|done].
    + intros [->|(f' & w0 & Hin & He)%IH]%elem_of_cons.
      * pose proof (validate_field_Err _ _ _ _ _ Hr) as [Hloc _].
        exists f, w. rewrite Hloc. split; [by left|done].
      * exists f', w0. split; [by right|done].
Qed.

(** An error of a field is an error of the whole. *)
Lemma validate_fields_error_in fields d w name f e :
  (name, f) ∈ fields →
  (∀ w0, (validate_field name f d w0).1 = Err e) →
  e ∈ (validate_fields fields d w).1.1.
Proof.
  intros Hin He. revert w. induction fields as [|[name' f'] rest IH]; intros w.
  - by apply elem_of_nil in Hin.
  - rewrite validate_fields_cons. cbv zeta.
    apply elem_of_cons in Hin as [[= <- <-]|Hin].
    + rewrite He. cbn. by left.
    + destruct (validate_field name' f' d w).1; cbn; [|right]; by apply IH.
Qed.

(** Errors come one per field, in the order of the declarations. *)
Lemma validate_fields_error_order fields d w :
  map loc (validate_fields fields d w).1.1 `sublist_of` fields.*1.
Proof.
  revert w. induction fields as [|[name f] rest IH]; intros w; [done|].
  rewrite validate_fields_cons. cbv zeta. cbn [fmap list_fmap fst].
  destruct (validate_field name f d w).1 as [v|e] eqn:Hr; cbn [collect fst map].
  - apply sublist_cons, IH.
  - apply validate_field_Err in Hr as [-> _]. apply sublist_skip, IH.
Qed.

(** Validation of a list of declarations followed by another. *)
Lemma validate_fields_app fields1 fields2 d w :
  validate_fields (fields1 ++ fields2) d w =
  let r1 := validate_fields fields1 d w in
  let r2 := validate_fields fields2 d r1.2 in
  ((r1.1.1 ++ r2.1.1, r1.1.2 ++ r2.1.2), r2.2).
Proof.
  revert w. induction fields1 as [|[name f] rest IH]; intros w.
  - cbn. by destruct (validate_fields fields2 d w) as [[] ?].
  - rewrite <-app_comm_cons, !validate_fields_cons. cbv zeta.
    rewrite IH. cbv zeta. cbn [fst snd].
    by destruct (validate_field name f d w).1.
Qed.

(** Attribute access on the attributes of an accepted input. *)
Lemma assoc_attrs (P : string → FieldInfo → value → Prop) fields vals name f :
  NoDup fields.*1 →
  Forall2 (λ nf kv, kv.1 = nf.1 ∧ P nf.1 nf.2 kv.2) fields vals →
  (name, f) ∈ fields →
  ∃ v, assoc name vals = Some v ∧ P name f v.
Proof.
  intros Hnd Hall. revert Hnd.
  induction Hall as [|[n g] [k v] fields vals [Hk HP] Hall IH]; intros Hnd Hin.
  - by apply elem_of_nil in Hin.
  - simpl in *. subst k. apply NoDup_cons in Hnd as [Hn Hnd].
    apply elem_of_cons in Hin as [[= <- <-]|Hin].
    + exists v. by rewrite decide_True.
    + rewrite decide_False; [by apply IH|].
      intros ->. apply Hn. by apply (list_elem_of_fmap_2 fst _ (name, f)).
Qed.

(** Of two declarations with the same name in a class there is one. *)
Lemma field_unique (fields : list (string * FieldInfo)) k f1 f2 :
  NoDup fields.*1 → (k, f1) ∈ fields → (k, f2) ∈ fields → f1 = f2.
Proof.
  induction fields as [|[n g] rest IH]; intros Hnd H1 H2.
  - by apply elem_of_nil in H1.
  - cbn in Hnd. apply NoDup_cons in Hnd as [Hn Hnd].
    apply elem_of_cons in H1 as [H1|H1]; apply elem_of_cons in H2 as [H2|H2].
    + congruence.
    + injection H1 as <- <-. destruct Hn.
      by apply (list_elem_of_fmap_2 fst _ (k, f2)).
    + injection H2 as <- <-. destruct Hn.
      by apply (list_elem_of_fmap_2 fst _ (k, f1)).
    + by apply IH.
Qed.

Lemma model_validate_Ok cls d w o :
  (model_validate cls d w).1 = Ok o →
  (validate_fields (cls_fields cls) d w).1.1 = [] ∧
  o = Object (cls_name cls) (validate_fields (cls_fields cls) d w).1.2.
Proof.
  rewrite model_validate_unfold. cbv zeta. cbn [fst].
  destruct (validate_fields (cls_fields cls) d w).1.1; [|done]. by intros [= <-].
Qed.

Lemma model_validate_errors cls d w :
  errors (model_validate cls d w).1 = (validate_fields (cls_fields cls) d w).1.1.
Proof.
  rewrite model_validate_unfold. cbv zeta. cbn [fst].
  by destruct (validate_fields (cls_fields cls) d w).1.1.
Qed.

Lemma model_validate_Err cls d w errs :
  (model_validate cls d w).1 = Err errs →
  errs = (validate_fields (cls_fields cls) d w).1.1 ∧ errs ≠ [].
Proof.
  rewrite model_validate_unfold. cbv zeta. cbn [fst].
  destruct (validate_fields (cls_fields cls) d w).1.1; [done|]. by intros [= <-].
Qed.

(** Each declared field is an attribute of an accepted instance, with the
    value its own validation gave. *)
Lemma getattr_field cls d w o name f :
  NoDup (field_names cls) →
  (model_validate cls d w).1 = Ok o →
  (name, f) ∈ cls_fields cls →
  ∃ v w0, getattr o name = Some v ∧ (validate_field name f d w0).1 = Ok v.
Proof.
  intros Hnd [Herrs ->]%model_validate_Ok Hin.
  pose proof (validate_fields_attrs _ d w Herrs) as Hall.
  destruct (assoc_attrs (λ n f v, ∃ w0, (validate_field n f d w0).1 = Ok v)
              _ _ name f Hnd Hall Hin) as (v & Hv & w0 & Hw0).
  by exists v, w0.
Qed.

End fields.

(** ** Values and annotations *)

Section annotations.
Context {host : Host} {uni : Unicode} {lax : Coercions}.

(** A [code] is validated as the string it is read as. *)
Lemma validate_UNIType_read v :
  validate departments.UNIType v =
  match validate_str v with
  | Ok s => validate departments.UNIType (VStr s)
  | Err e => Err e
  end.
Proof.
  unfold departments.UNIType. cbn [validate validate_str].
  by destruct (validate_str v).
Qed.

Lemma validate_UNIType_inv v v' :
  validate departments.UNIType v = Ok v' →
  ∃ s, validate_str v = Ok s ∧ v' = VStr s ∧ uni_shape is_decimal_digit s.
Proof.
  rewrite validate_UNIType_read.
  destruct (validate_str v) as [s|]; [|done]. rewrite validate_UNIType.
  destruct (is_match _ s) eqn:Hs; [|done]. intros [= <-].
  apply UNI_regex_shape in Hs. eauto.
Qed.

Lemma validate_UNIType_ok v :
  is_ok (validate departments.UNIType v) = true ↔
  ∃ s, validate_str v = Ok s ∧ uni_shape is_decimal_digit s.
Proof.
  split.
  - destruct (validate _ v) as [v'|] eqn:Hv; [|done]. intros _.
    apply validate_UNIType_inv in Hv as (s & ? & _ & ?). eauto.
  - intros (s & Hs & Hshape%UNI_regex_shape).
    by rewrite validate_UNIType_read, Hs, validate_UNIType, Hshape.
Qed.

Lemma validate_str_ok v :
  is_ok (validate str_t v) = true ↔ ∃ s, validate_str v = Ok s.
Proof.
  cbn [validate]. destruct (validate_str v) as [s|]; cbn.
  - split; eauto.
  - split; [done|by intros [? ?]].
Qed.

Lemma validate_str_None : validate_str VNone = Err string_type.
Proof. done. Qed.

(** What a validator returns has the type of its annotation. *)
Lemma validate_conforms a v v' : validate a v = Ok v' → conforms a v' = true.
Proof.
  revert v v'. induction a as [ | | | | a IH | a IH c ]; intros v v' Hv.
  - by apply validate_str_Ok in Hv as (s & -> & _).
  - simpl in Hv. destruct (validate_date v); by simplify_eq/=.
  - simpl in Hv. destruct (validate_datetime v); by simplify_eq/=.
  - simpl in Hv. destruct (validate_uuid v); by simplify_eq/=.
  - assert (v' = VNone ∨ validate a v = Ok v') as [->|Ha].
    { destruct v; simpl in Hv; simplify_eq; auto. }
    + done.
    + apply IH in Ha. simpl. by destruct v'.
  - simpl in Hv. destruct (validate a v) as [v0|] eqn:Ha; [|done].
    apply IH in Ha.
    assert ((∃ s, v0 = VStr s ∧ result_map VStr (check_constraints c s) = Ok v') ∨
            v0 = v' ∧ ∀ s, v' ≠ VStr s) as [(s & -> & Hc) | [-> Hns]].
    { destruct v0; simplify_eq; eauto. }
    + destruct (check_constraints c s) as [s'|] eqn:Hs; [|done].
      injection Hc as <-. pose proof Hs as [-> _]%check_constraints_Ok.
      simpl. by rewrite Ha, Hs.
    + simpl. rewrite Ha. destruct v'; try done. by destruct (Hns s).
Qed.

(** A string field stores the string its input is read as: a [str] as it
    is, a byte string as its text; [None] stays [None]. *)
Lemma validate_string a v v' :
  string_annotation a = true → validate a v = Ok v' →
  (v = VNone ∧ v' = VNone) ∨ ∃ s, validate_str v = Ok s ∧ v' = VStr s.
Proof.
  revert v v'. induction a as [ | | | | a IH | a IH c ]; intros v v' Hs Hv; try done.
  - apply validate_str_Ok in Hv as (s & -> & ?). eauto.
  - assert (v = VNone ∧ v' = VNone ∨ validate a v = Ok v') as [?|Ha]; [|by left|].
    { destruct v; simpl in Hv; simplify_eq; auto. }
    by eapply IH.
  - simpl in Hv. destruct (validate a v) as [v0|] eqn:Ha; [|done].
    apply IH in Ha; [|done]. destruct Ha as [[-> ->]|(s & Hs' & ->)].
    + injection Hv as <-. by left.
    + destruct (check_constraints c s) as [s'|] eqn:Hc; [|done].
      apply check_constraints_Ok in Hc as [-> _]. injection Hv as <-. eauto.
Qed.

End annotations.

(** ** Acceptance of payloads *)

Section acceptance.
Context {host : Host} {uni : Unicode} {lax : Coercions}.

(** The three fields of a payload class, by its signature. *)
Lemma payload_fields cls sig d w n1 a1 d1 n2 a2 d2 n3 a3 d3 :
  signature (cls_fields cls) = sig →
  sig = [(n1, a1, d1); (n2, a2, d2); (n3, a3, d3)] →
  factory_free (plain_fields sig) = true →
  model_validate cls d w =
  (match (collect n1 (validate_field n1 (Field a1 d1 None None) d w).1
            (collect n2 (validate_field n2 (Field a2 d2 None None) d w).1
               (collect n3 (validate_field n3 (Field a3 d3 None None) d w).1 ([], [])))) with
   | ([], vals) => Ok (Object (cls_name cls) vals)
   | (errs, _) => Err errs
   end, w).
Proof.
  intros Hsig -> Hfree.
  erewrite model_validate_step; last first.
  { rewrite (validate_fields_plain _ _ d w Hsig). by apply three_fields. }
  by destruct (collect _ _ _) as [[] ?].
Qed.

Lemma three_ok n1 r1 n2 r2 n3 r3 cname :
  is_ok (match collect n1 r1 (collect n2 r2 (collect n3 r3 ([], []))) with
         | ([], vals) => Ok (Object cname vals)
         | (errs, _) => Err errs
         end) = is_ok r1 && is_ok r2 && is_ok r3.
Proof. by destruct r1, r2, r3. Qed.

(** An optional field is in order when its value, if any, is. *)
Lemma optional_field_ok a d w key :
  is_ok (validate_field key (Field (Optional a) (Default VNone) None None) d w).1 = true ↔
  ∀ v, d !! key = Some v → is_ok (validate (Optional a) v) = true.
Proof.
  unfold validate_field. cbn [field_annotation field_default].
  destruct (d !! key) as [vin|]; cbn [ret fst].
  - split.
    + intros Hok v [= <-]. by destruct (validate _ vin).
    + intros Hv. specialize (Hv vin eq_refl). by destruct (validate _ vin).
  - split; [by intros _ v ?|done].
Qed.

(** A required field is in order when its key is there with a value that
    is. *)
Lemma required_field_ok a d w key :
  is_ok (validate_field key (Field a Required None None) d w).1 = true ↔
  ∃ v, d !! key = Some v ∧ is_ok (validate a v) = true.
Proof.
  unfold validate_field. cbn [field_annotation field_default].
  destruct (d !! key) as [vin|]; cbn [ret fst].
  - split.
    + intros Hok. exists vin. split; [done|]. by destruct (validate _ vin).
    + intros (v & [= <-] & Hv). by destruct (validate _ vin).
  - split; [done|by intros (? & ? & _)].
Qed.

(** [Optional]: [None], or what the annotated type accepts. *)
Lemma optional_ok a v :
  is_ok (validate (Optional a) v) = true ↔ v = VNone ∨ is_ok (validate a v) = true.
Proof.
  destruct v; cbn [validate]; split; auto; intros [?|?]; done.
Qed.

Lemma optional_UNIType_ok v :
  is_ok (validate (Optional departments.UNIType) v) = true ↔
  v = VNone ∨ ∃ s, validate_str v = Ok s ∧ uni_shape is_decimal_digit s.
Proof. by rewrite optional_ok, validate_UNIType_ok. Qed.

Lemma optional_str_ok v :
  is_ok (validate (Optional str_t) v) = true ↔ v = VNone ∨ ∃ s, validate_str v = Ok s.
Proof. by rewrite optional_ok, validate_str_ok. Qed.

End acceptance.

(** ** What every instance satisfies *)

Ltac compute_fields :=
  match goal with
  | |- context [cls_fields ?cls] =>
      let fs := eval vm_compute in (cls_fields cls) in
      change (cls_fields cls) with fs
  end.

Lemma all_defaults_conform {uni : Unicode} cls :
  cls ∈ all_schemas →
  forallb (λ nf, default_conforms nf.2) (cls_fields cls) = true.
Proof. intros Hcls. schema_cases Hcls; by vm_compute. Qed.

(** Each schema has a [code] field: the UNI itself, required, or in an
    update schema the optional UNI. *)
Lemma code_field cls :
  cls ∈ all_schemas →
  ∃ f, ("code", f) ∈ cls_fields cls ∧
       ((field_annotation f = departments.UNIType ∧ field_default f = Required) ∨
        (field_annotation f = Optional departments.UNIType ∧
         field_default f = Default VNone ∧
         ∃ owner date_key, (cls, owner, date_key) ∈ update_schemas)).
Proof.
  intros Hcls. unfold update_schemas.
  schema_cases Hcls; compute_fields; eexists; (split; [apply list_elem_of_here|]);
    cbn [field_annotation field_default];
    first [by left | right; split_and!; [done..|]].
  - exists "staff", "founding_date". apply list_elem_of_here.
  - exists "professor", "start_date". apply list_elem_of_further, list_elem_of_here.
Qed.

Lemma uni_shape_length digit s : uni_shape digit s → (3 ≤ length s ≤ 7)%nat.
Proof. intros (l & ds & -> & ? & _ & ? & _). rewrite length_app. lia. Qed.

Section invariants.
Context {host : Host} {uni : Unicode} {lax : Coercions}.

Lemma default_conforms_field name f d w v :
  default_conforms f = true →
  (validate_field name f d w).1 = Ok v →
  conforms (field_annotation f) v = true.
Proof.
  unfold default_conforms.
  intros Hf [(vin & _ & Hv)|(_ & [Hd|(g & Hd & ->)])]%validate_field_Ok.
  - by eapply validate_conforms.
  - by rewrite Hd in Hf.
  - rewrite Hd in Hf. by destruct g, (field_annotation f).
Qed.

Lemma validate_optional_UNIType_inv v v' :
  validate (Optional departments.UNIType) v = Ok v' →
  (v = VNone ∧ v' = VNone) ∨
  ∃ s, validate_str v = Ok s ∧ v' = VStr s ∧ uni_shape is_decimal_digit s.
Proof.
  intros Hv.
  assert (v = VNone ∧ v' = VNone ∨ validate departments.UNIType v = Ok v') as [?|Hu].
  { destruct v; try (by right); left. by injection Hv as <-. }
  - by left.
  - right. by apply validate_UNIType_inv.
Qed.

End invariants.

(** ** Errors *)

Lemma required_are_strings cls :
  cls ∈ all_schemas →
  forallb (λ nf, match field_default nf.2 with
                 | Required => string_annotation (field_annotation nf.2)
                 | _ => true
                 end) (cls_fields cls) = true.
Proof. intros Hcls. schema_cases Hcls; by vm_compute. Qed.

Lemma update_fields_nullable cls owner date_key :
  (cls, owner, date_key) ∈ update_schemas →
  forallb (λ nf, nullable nf.2) (cls_fields cls) = true ∧
  field_names cls = ["code"; owner; date_key].
Proof. intros Hcls. schema_cases Hcls; by vm_compute. Qed.

Section errors.
Context {host : Host} {uni : Unicode} {lax : Coercions}.

(** What a string field can object to. *)
Lemma validate_string_error a v e :
  string_annotation a = true → validate a v = Err e →
  e = string_type ∨ e = string_unicode ∨ e = string_pattern_mismatch.
Proof.
  revert v. induction a as [ | | | | a IH | a IH c ]; intros v Hs Hv; try done.
  - cbn [validate] in Hv. unfold validate_str in Hv.
    destruct v; simplify_eq/=; auto. destruct (utf8_decode b); simplify_eq/=; auto.
  - destruct v; simpl in Hv; simplify_eq; by eapply IH.
  - simpl in Hv. destruct (validate a v) as [v0|e0] eqn:Ha.
    + destruct v0; simplify_eq/=.
      unfold check_constraints in Hv.
      destruct (pattern c); [destruct (well_formed s); [destruct (is_match _ _)|]|];
        simplify_eq/=; auto.
    + simplify_eq. by eapply IH.
Qed.

Lemma nullable_inv f :
  nullable f = true →
  (∃ a, field_annotation f = Optional a) ∧ field_default f = Default VNone.
Proof.
  unfold nullable. destruct (field_annotation f); try done.
  destruct (field_default f) as [|[]|]; try done. eauto.
Qed.

(** For a field that may be [None], [None] is what leaving it out gives. *)
Lemma validate_field_none_absent name f d w k :
  (name = k → nullable f = true) →
  validate_field name f (<[k := VNone]> d) w = validate_field name f (delete k d) w.
Proof.
  intros Hk. unfold validate_field. destruct (decide (name = k)) as [->|Hne].
  - rewrite lookup_insert_eq, lookup_delete_eq.
    destruct (nullable_inv f (Hk eq_refl)) as [[a ->] ->]. done.
  - by rewrite lookup_insert_ne, lookup_delete_ne.
Qed.

Lemma validate_fields_none_absent fields d w k :
  (∀ f, (k, f) ∈ fields → nullable f = true) →
  validate_fields fields (<[k := VNone]> d) w = validate_fields fields (delete k d) w.
Proof.
  revert w. induction fields as [|[name f] rest IH]; intros w Hk; [done|].
  rewrite !validate_fields_cons. cbv zeta.
  rewrite validate_field_none_absent by (intros ->; apply Hk; left).
  rewrite IH; [done|]. intros f' Hin. apply Hk. by right.
Qed.

End errors.

(** ** Read schemas *)

(** A read schema declares the fields of its base, then the metadata. *)
Lemma read_fields base read :
  (base, read) ∈ base_read →
  ∃ meta, cls_fields read = cls_fields base ++ meta ∧ meta.*1 = metadata_keys.
Proof.
  intros Hcls. schema_cases Hcls.
  - exists (drop 3 (cls_fields departments.DepartmentRead)). by vm_compute.
  - exists (drop 3 (cls_fields lectures.LectureRead)). by vm_compute.
Qed.

(** The default factories of a read schema are those of the metadata. *)
Lemma read_factories cls owner date_key :
  (cls, owner, date_key) ∈ read_schemas →
  Forall (λ nf, match field_default nf.2 with
                | DefaultFactory _ => nf.1 ∈ metadata_keys
                | _ => True
                end) (cls_fields cls).
Proof.
  intros Hcls. unfold metadata_keys.
  schema_cases Hcls; compute_fields;
    repeat (apply Forall_cons_2; [cbn; rewrite ?elem_of_cons; tauto|]);
    apply Forall_nil_2.
Qed.

Section read.
Context {uni : Unicode} {lax : Coercions}.

(** When the key of every field with a default factory is in the input, the
    outcome is the same on every host, and the host is left as it was. *)
Lemma validate_fields_supplied (host1 host2 : Host) fields d
    (w1 : @World host1) (w2 : @World host2) :
  Forall (λ nf, match field_default nf.2 with
                | DefaultFactory _ => is_Some (d !! nf.1)
                | _ => True
                end) fields →
  (validate_fields (host := host1) fields d w1).1 =
    (validate_fields (host := host2) fields d w2).1 ∧
  (validate_fields (host := host1) fields d w1).2 = w1.
Proof.
  revert w1 w2. induction fields as [|[name f] rest IH]; intros w1 w2 Hall; [done|].
  apply Forall_cons in Hall as [Hf Hrest]. cbn [fst snd] in Hf.
  rewrite !validate_fields_cons. cbv zeta.
  assert (∀ (h : Host) (w : @World h),
            validate_field (host := h) name f d w =
            ((validate_field (host := host2) name f d w2).1, w)) as Hpure.
  { intros h w. unfold validate_field. destruct (d !! name); [done|].
    destruct (field_default f); [done..|]. by destruct Hf. }
  rewrite (Hpure host1 w1), (Hpure host2 w2). cbn [fst snd].
  destruct (IH w1 w2 Hrest) as [-> ->]. done.
Qed.

End read.

Section read_state.
Context {host : Host} {uni : Unicode} {lax : Coercions}.

Lemma read_validation_state cls owner date_key d w :
  (cls, owner, date_key) ∈ read_schemas →
  (model_validate cls d w).2 = after_defaults d w.
Proof.
  intros Hcls. unfold after_defaults.
  schema_cases Hcls; eval_read_fields; unfold validate_field;
    destruct (d !! "id"), (d !! "created_at"), (d !! "updated_at"); done.
Qed.

End read_state.

(** ** Validating again *)

Lemma create_in_all_schemas create read :
  (create, read) ∈ create_read → create ∈ all_schemas ∧ read ∈ all_schemas.
Proof.
  intros Hcls. unfold all_schemas. schema_cases Hcls; rewrite !elem_of_cons; tauto.
Qed.

(** A read schema declares the fields of the creation schema, then the
    metadata with their factories. *)
Lemma create_read_fields create read :
  (create, read) ∈ create_read →
  ∃ f1 f2 f3,
    cls_fields read =
      cls_fields create ++ [("id", f1); ("created_at", f2); ("updated_at", f3)] ∧
    field_default f1 = DefaultFactory uuid4 ∧
    field_default f2 = DefaultFactory datetime_utcnow ∧
    field_default f3 = DefaultFactory datetime_utcnow ∧
    Forall (λ k, k ∉ field_names create) metadata_keys.
Proof.
  intros Hcls. unfold metadata_keys.
  schema_cases Hcls.
  - exists (Field UUID_t (DefaultFactory uuid4) (Some "Server-generated Lecture ID.")
              (Some "99999999-9999-4999-8999-999999999999")),
           (Field datetime_t (DefaultFactory datetime_utcnow)
              (Some "Creation timestamp (UTC).") (Some "2025-01-15T10:20:30Z")),
           (Field datetime_t (DefaultFactory datetime_utcnow)
              (Some "Last update timestamp (UTC).") (Some "2025-01-16T12:00:00Z")).
    split_and!; [by vm_compute|done..|].
    repeat (apply Forall_cons_2; [apply (bool_decide_unpack _); by vm_compute|]).
    apply Forall_nil_2.
  - exists (Field UUID_t (DefaultFactory uuid4) (Some "Server-generated Lecture ID.")
              (Some "99999999-9999-4999-8999-999999999999")),
           (Field datetime_t (DefaultFactory datetime_utcnow)
              (Some "Creation timestamp (UTC).") (Some "2025-01-15T10:20:30Z")),
           (Field datetime_t (DefaultFactory datetime_utcnow)
              (Some "Last update timestamp (UTC).") (Some "2025-01-16T12:00:00Z")).
    split_and!; [by vm_compute|done..|].
    repeat (apply Forall_cons_2; [apply (bool_decide_unpack _); by vm_compute|]).
    apply Forall_nil_2.
Qed.

Section again.
Context {host : Host} {uni : Unicode} {lax : Coercions}.

(** The values of the type of an annotation are those that its validator
    returns as they are. *)
Lemma conforms_validate a v : conforms a v = true → validate a v = Ok v.
Proof.
  revert v. induction a as [ | | | | a IH | a IH c ]; intros v Hc.
  - by destruct v.
  - by destruct v.
  - by destruct v.
  - by destruct v.
  - destruct v; try done; by apply IH.
  - simpl in Hc. apply andb_true_iff in Hc as [Ha Hc].
    simpl. rewrite (IH _ Ha). destruct v; try done.
    by destruct (check_constraints c s) as [s'|] eqn:Hs;
      [apply check_constraints_Ok in Hs as [-> _]|].
Qed.

Lemma all_defaults_stable cls :
  cls ∈ all_schemas → Forall (λ nf, default_stable nf.2) (cls_fields cls).
Proof.
  intros Hcls. destruct factory_fields_stable as [Hid Hts].
  schema_cases Hcls; compute_fields;
    repeat (apply Forall_cons_2; [first [apply Hid | apply Hts | done]|]);
    apply Forall_nil_2.
Qed.

(** Validation of the attributes of an accepted instance, by the fields
    that gave them. *)
Lemma revalidate_fields fields d w (din : input) w2 :
  forallb (λ nf, default_conforms nf.2) fields = true →
  (validate_fields fields d w).1.1 = [] →
  (∀ k v, (k, v) ∈ (validate_fields fields d w).1.2 → din !! k = Some v) →
  validate_fields fields din w2 = (([], (validate_fields fields d w).1.2), w2).
Proof.
  revert w. induction fields as [|[name f] rest IH]; intros w Hst; [done|].
  cbn [forallb snd] in Hst. apply andb_true_iff in Hst as [Hf Hrest].
  rewrite !validate_fields_cons. cbv zeta.
  destruct (validate_field name f d w).1 as [v|e] eqn:Hv; cbn [collect fst snd]; [|done].
  intros Hok Hdin.
  rewrite (validate_field_present name f din v) by (apply Hdin; left).
  rewrite (conforms_validate (field_annotation f) v)
    by (by eapply default_conforms_field).
  cbn [fst snd collect].
  rewrite (IH (validate_field name f d w).2); [done..|].
  intros k v' Hin. apply Hdin. by right.
Qed.

(** The attributes of an instance, as keyword arguments. *)
Lemma model_dump_lookup cls d w k v :
  NoDup (field_names cls) →
  (validate_fields (cls_fields cls) d w).1.1 = [] →
  (k, v) ∈ (validate_fields (cls_fields cls) d w).1.2 →
  (list_to_map (validate_fields (cls_fields cls) d w).1.2 : input) !! k = Some v.
Proof.
  intros Hnd Herrs Hin. apply elem_of_list_to_map_1; [|done].
  by rewrite validate_fields_names.
Qed.

Lemma model_dump_absent cls d w k :
  (validate_fields (cls_fields cls) d w).1.1 = [] →
  k ∉ field_names cls →
  (list_to_map (validate_fields (cls_fields cls) d w).1.2 : input) !! k = None.
Proof.
  intros Herrs Hk. apply not_elem_of_list_to_map_1.
  by rewrite validate_fields_names.
Qed.

(** The metadata of a read object whose input has none. *)
Lemma metadata_defaults f1 f2 f3 (d : input) w :
  field_default f1 = DefaultFactory uuid4 →
  field_default f2 = DefaultFactory datetime_utcnow →
  field_default f3 = DefaultFactory datetime_utcnow →
  (∀ k, k ∈ metadata_keys → d !! k = None) →
  let u := random_uuid w in
  let t1 := clock_utcnow u.2 in
  let t2 := clock_utcnow t1.2 in
  validate_fields [("id", f1); ("created_at", f2); ("updated_at", f3)] d w =
  (([], [("id", VUUID u.1); ("created_at", VDatetime t1.1);
         ("updated_at", VDatetime t2.1)]), t2.2).
Proof.
  intros H1 H2 H3 Hk. cbv zeta. unfold metadata_keys in Hk.
  rewrite validate_fields_cons. cbv zeta.
  rewrite (validate_field_absent "id"), H1 by (apply Hk; rewrite !elem_of_cons; auto).
  cbn [call fst snd].
  rewrite validate_fields_cons. cbv zeta.
  rewrite (validate_field_absent "created_at"), H2
    by (apply Hk; rewrite !elem_of_cons; auto).
  cbn [call fst snd].
  rewrite validate_fields_cons. cbv zeta.
  rewrite (validate_field_absent "updated_at"), H3
    by (apply Hk; rewrite !elem_of_cons; auto).
  done.
Qed.

Lemma assoc_app name (l1 l2 : list (string * value)) :
  name ∉ l1.*1 → assoc name (l1 ++ l2) = assoc name l2.
Proof.
  induction l1 as [|[k v] l1 IH]; [done|]. cbn. intros Hn.
  apply not_elem_of_cons in Hn as [Hne Hn]. case_decide; [done|]. by apply IH.
Qed.

Lemma assoc_app_l name (l1 l2 : list (string * value)) v :
  assoc name l1 = Some v → assoc name (l1 ++ l2) = Some v.
Proof.
  induction l1 as [|[k v'] l1 IH]; [done|]. cbn. by case_decide.
Qed.

(** The read object made from the attributes of a creation object: the
    attributes, then an identifier and two timestamps from the host. *)
Lemma read_of_create create read d w oc w2 :
  (create, read) ∈ create_read →
  (model_validate create d w).1 = Ok oc →
  let u := random_uuid w2 in
  let t1 := clock_utcnow u.2 in
  let t2 := clock_utcnow t1.2 in
  model_validate read (model_dump oc) w2 =
  (Ok (Object (cls_name read)
         (obj_dict oc ++ [("id", VUUID u.1); ("created_at", VDatetime t1.1);
                          ("updated_at", VDatetime t2.1)])), t2.2).
Proof.
  intros Hcr [Herrs ->]%model_validate_Ok. cbv zeta.
  destruct (create_read_fields _ _ Hcr)
    as (f1 & f2 & f3 & Hfields & H1 & H2 & H3 & Hkeys).
  destruct (create_in_all_schemas _ _ Hcr) as [Hc _].
  unfold model_dump. cbn [obj_dict].
  rewrite model_validate_unfold, Hfields, validate_fields_app. cbv zeta.
  rewrite (revalidate_fields _ d w); [|by apply all_defaults_conform|done|]; last first.
  { intros k v Hin. apply model_dump_lookup; [|done..]. by apply field_names_NoDup. }
  cbn [fst snd].
  pose proof (metadata_defaults f1 f2 f3
                (list_to_map (validate_fields (cls_fields create) d w).1.2) w2
                H1 H2 H3) as Hmeta.
  cbv zeta in Hmeta. rewrite Hmeta; [done|].
  intros k Hk. apply model_dump_absent; [done|].
  rewrite Forall_forall in Hkeys. by apply Hkeys.
Qed.

(** The values of fields without a datetime are carried by JSON as they
    are. *)
Lemma conforms_exact a v :
  datetime_free a = true → conforms a v = true → json_exact v = true.
Proof.
  revert v. induction a as [ | | | | a IH | a IH c ]; intros v Hfree Hc; try done.
  - by destruct v.
  - by destruct v.
  - by destruct v.
  - destruct v; try done; by apply IH.
  - simpl in Hc. apply andb_true_iff in Hc as [Ha _]. by apply IH.
Qed.

Lemma attrs_exact fields d w :
  forallb (λ nf, default_conforms nf.2 && datetime_free (field_annotation nf.2)) fields
    = true →
  (validate_fields fields d w).1.1 = [] →
  Forall (λ kv, json_exact kv.2 = true) (validate_fields fields d w).1.2.
Proof.
  intros Hall Herrs. pose proof (validate_fields_attrs _ d w Herrs) as Hattrs.
  rewrite forallb_forall in Hall.
  set (vals := (validate_fields fields d w).1.2) in *. clearbody vals. clear Herrs.
  induction Hattrs as [|[n f] [k v] fs vals [_ [w0 Hv]] Hattrs IH]; [done|].
  cbn [fst snd] in *.
  destruct (proj1 (andb_true_iff _ _) (Hall (n, f) ltac:(by left))) as [Hdc Hfree].
  constructor.
  - eapply conforms_exact; [done|]. by eapply default_conforms_field.
  - apply IH. intros x Hx. apply Hall. by right.
Qed.

(** ** Instances, however they were made *)

Lemma fields_conform_names fields vals :
  fields_conform fields vals = true → vals.*1 = fields.*1.
Proof.
  revert vals. induction fields as [|[name f] fields IH]; intros [|[k v] vals]; try done.
  cbn [fields_conform]. rewrite !andb_true_iff.
  intros [[Hk%bool_decide_eq_true_1 _] Hrest]. cbn. by rewrite Hk, (IH vals).
Qed.

(** Attributes of the declared types validate to themselves. *)
Lemma validate_fields_conforming fields vals (din : input) w :
  fields_conform fields vals = true →
  (∀ k v, (k, v) ∈ vals → din !! k = Some v) →
  validate_fields fields din w = (([], vals), w).
Proof.
  revert vals. induction fields as [|[name f] fields IH]; intros [|[k v] vals]; try done.
  cbn [fields_conform]. rewrite !andb_true_iff.
  intros [[->%bool_decide_eq_true_1 Hv] Hrest] Hdin.
  rewrite validate_fields_cons. cbv zeta.
  rewrite (validate_field_present name f din v) by (apply Hdin; left).
  rewrite (conforms_validate _ _ Hv). cbn [fst snd].
  rewrite (IH vals); [done..|]. intros k' v' Hin. apply Hdin. by right.
Qed.

(** What validation accepts is an instance of the class. *)
Lemma accepted_instance cls d w o :
  cls ∈ all_schemas → (model_validate cls d w).1 = Ok o → instance_of cls o = true.
Proof.
  intros Hcls [Herrs ->]%model_validate_Ok. unfold instance_of. cbn [obj_class obj_dict].
  rewrite bool_decide_eq_true_2 by done. cbn [andb].
  pose proof (validate_fields_attrs _ d w Herrs) as Hattrs.
  pose proof (all_defaults_conform cls Hcls) as Hall. rewrite forallb_forall in Hall.
  set (vals := (validate_fields (cls_fields cls) d w).1.2) in *. clearbody vals.
  clear Herrs.
  induction Hattrs as [|[n f] [k v] fs vals [Hk [w0 Hv]] Hattrs IH]; [done|].
  cbn [fst snd] in *. subst k. cbn [fields_conform].
  rewrite bool_decide_eq_true_2 by done. cbn [andb].
  rewrite (default_conforms_field n f d w0 v) by (try apply (Hall (n, f)); by try left).
  cbn [andb]. apply IH. intros x Hx. apply Hall. by right.
Qed.

(** An instance is what validation gives on its own attributes. *)
Lemma instance_revalidates cls o w :
  cls ∈ all_schemas → instance_of cls o = true →
  model_validate cls (model_dump o) w = (Ok o, w).
Proof.
  intros Hcls [Hname%bool_decide_eq_true_1 Hvals]%andb_true_iff.
  rewrite model_validate_unfold.
  rewrite (validate_fields_conforming _ (obj_dict o)); [|done|].
  - cbv zeta. cbn [fst snd]. rewrite <-Hname. by destruct o.
  - intros k v Hin. unfold model_dump. apply elem_of_list_to_map_1; [|done].
    rewrite (fields_conform_names _ _ Hvals). by apply field_names_NoDup.
Qed.

Lemma create_fields_exact create read :
  (create, read) ∈ create_read →
  forallb (λ nf, default_conforms nf.2 && datetime_free (field_annotation nf.2))
    (cls_fields create) = true.
Proof. intros Hcls. schema_cases Hcls; by vm_compute. Qed.

End again.

(** ** The documented examples *)

(** What is accepted whatever the lax conversions are. *)
Lemma validate_canonical {uni : Unicode} {lax : Coercions} a v v' :
  validate (lax := canonical_only) a v = Ok v' → validate a v = Ok v'.
Proof.
  revert v v'. induction a as [ | | | | a IH | a IH c ]; intros v v' Hv.
  - done.
  - simpl in *. unfold validate_date in *.
    destruct v; try done. by destruct (date_fromisoformat s).
  - simpl in *. unfold validate_datetime in *.
    destruct v; try done. by destruct (datetime_fromisoformat s).
  - simpl in *. unfold validate_uuid in *.
    destruct v; try done. by destruct (UUID_parse s).
  - destruct v; simpl in *; try done; by apply IH.
  - simpl in *. destruct (validate (lax := canonical_only) a v) as [v0|] eqn:Ha; [|done].
    by rewrite (IH _ _ Ha).
Qed.

Lemma field_accepts_canonical {uni : Unicode} {lax : Coercions} d name f :
  field_accepts (lax := canonical_only) d name f = true → field_accepts d name f = true.
Proof.
  unfold field_accepts. destruct (d !! name) as [v|]; [|done].
  destruct (validate (lax := canonical_only) _ v) as [v'|] eqn:Hv; [|done].
  by rewrite (validate_canonical _ _ _ Hv).
Qed.

(** Each example of a field reads as a value whose JSON form is the example
    itself. *)
Lemma field_examples_canonical {uni : Unicode} cls :
  cls ∈ all_schemas →
  forallb (λ nf, match example nf.2 with
                 | Some ex =>
                     match validate (lax := canonical_only) (field_annotation nf.2)
                             (VStr (lit ex)) with
                     | Ok v => match to_jsonable v with
                               | VStr s => bool_decide (s = lit ex)
                               | _ => false
                               end
                     | Err _ => false
                     end
                 | None => true
                 end) (cls_fields cls) = true.
Proof. intros Hcls. schema_cases Hcls; by vm_compute. Qed.

Section examples.
Context {uni : Unicode} {lax : Coercions}.

(** A field yields a value exactly when it is in order on the input. *)
Lemma validate_field_accepts {host : Host} name f d w :
  is_ok (validate_field name f d w).1 = field_accepts d name f.
Proof.
  unfold validate_field, field_accepts. destruct (d !! name); cbn.
  - by destruct (validate _ _).
  - by destruct (field_default f).
Qed.

Lemma validate_fields_accepts {host : Host} fields d w :
  (validate_fields fields d w).1.1 = [] ↔
  forallb (λ nf, field_accepts d nf.1 nf.2) fields = true.
Proof.
  revert w. induction fields as [|[name f] rest IH]; intros w; [done|].
  rewrite validate_fields_cons. cbv zeta. cbn [forallb fst snd].
  rewrite <-(validate_field_accepts name f d w).
  destruct (validate_field name f d w).1; cbn [collect fst is_ok andb]; [apply IH|done].
Qed.

(** Validation goes through all the fields: the errors are at the fields at
    fault, every one of them, in declaration order. *)
Lemma validate_fields_error_locs {host : Host} fields d w :
  map loc (validate_fields fields d w).1.1 = failing_fields d fields.
Proof.
  unfold failing_fields.
  revert w. induction fields as [|[name f] rest IH]; intros w; [done|].
  rewrite validate_fields_cons. cbv zeta. cbn [List.filter fst snd].
  rewrite <-(validate_field_accepts name f d w).
  destruct (validate_field name f d w).1 as [v|e] eqn:Hr;
    cbn [collect fst is_ok negb map fmap list_fmap].
  - apply IH.
  - apply validate_field_Err in Hr as [-> _]. f_equal. apply IH.
Qed.

(** An input is accepted when each field is in order on it. *)
Lemma model_validate_accepts {host : Host} cls d w :
  is_ok (model_validate cls d w).1 = true ↔
  forallb (λ nf, field_accepts d nf.1 nf.2) (cls_fields cls) = true.
Proof.
  rewrite <-(validate_fields_accepts _ d w), model_validate_unfold. cbv zeta. cbn [fst].
  by destruct (validate_fields (cls_fields cls) d w).1.1.
Qed.

(** A date field given the word of the class examples. *)
Lemma lovelace_field (d : input) key desc ex :
  d !! key = Some (VStr (lit "Lovelace")) →
  field_accepts d key (Field (Optional date_t) (Default VNone) desc ex) =
  is_ok (lax_date (VStr (lit "Lovelace"))).
Proof.
  intros Hd. unfold field_accepts. rewrite Hd. cbn [field_annotation].
  change (validate (Optional date_t) (VStr ?s))
    with (result_map VDate (validate_date (VStr s))).
  unfold validate_date.
  replace (date_fromisoformat (lit "Lovelace")) with (@None date)
    by (vm_compute; reflexivity).
  by destruct (lax_date _).
Qed.

End examples.

Lemma errors_not_accepted {host : Host} {uni : Unicode} {lax : Coercions} fields d w e :
  e ∈ (validate_fields fields d w).1.1 →
  ∃ f, (loc e, f) ∈ fields ∧ field_accepts d (loc e) f = false.
Proof.
  intros (f & w0 & Hin & He)%validate_fields_errors. exists f. split; [done|].
  unfold validate_field in He. unfold field_accepts.
  destruct (d !! loc e); cbn in He.
  - by destruct (validate _ _).
  - by destruct (field_default f).
Qed.

Ltac class_example H :=
  match type of H with
  | _ ∈ cls_examples ?c =>
      let exs := eval vm_compute in (cls_examples c) in
      change (cls_examples c) with exs in H
  end;
  first [ by apply elem_of_nil in H
        | apply elem_of_cons in H as [->|H]; [|by apply elem_of_nil in H] ].

(** Replacing the occurrences of a term as they are written. *)
Ltac replace_written t u tac :=
  let H := fresh in
  assert (t = u) as H by tac;
  pattern t;
  lazymatch goal with
  | |- ?P _ => refine (@eq_ind_r _ u P _ t H)
  end;
  cbv beta; clear H.

Ltac example_fields :=
  lazymatch goal with
  | |- context [field_accepts ?d ?k ?F] =>
      let b := eval vm_compute in (field_accepts (lax := canonical_only) d k F) in
      lazymatch b with
      | true =>
          replace_written (field_accepts d k F) true
            ltac:(apply field_accepts_canonical; vm_compute; reflexivity)
      | false =>
          replace_written (field_accepts d k F)
            (is_ok (lax_date (VStr (lit "Lovelace"))))
            ltac:(apply lovelace_field; vm_compute; reflexivity)
      end;
      example_fields
  | _ => idtac
  end.

Lemma errors_only_at {host : Host} {uni : Unicode} {lax : Coercions} (P : string → Prop) fields d w :
  Forall (λ nf, field_accepts d nf.1 nf.2 = true ∨ P nf.1) fields →
  ∀ e, e ∈ (validate_fields fields d w).1.1 → P (loc e).
Proof.
  intros Hall e (f & Hin & Hacc)%errors_not_accepted.
  rewrite Forall_forall in Hall.
  destruct (Hall _ Hin) as [Hok|HP]; [|done].
  cbn [fst snd] in Hok. congruence.
Qed.

Ltac example_errors :=
  lazymatch goal with
  | |- ∀ e, _ → (?c, loc e) ∈ dated_schemas =>
      apply (errors_only_at (λ k, (c, k) ∈ dated_schemas))
  end;
  compute_fields;
  repeat (apply Forall_cons_2;
          [first [ left; apply field_accepts_canonical; vm_compute; reflexivity
                 | right; unfold dated_schemas; cbn [fst]; rewrite !elem_of_cons; tauto ]|]);
  apply Forall_nil_2.

(** * The claims *)

(** C1: the claim is what the comment of the source asks of a code
    ([2-3 lowercase letters + 1-4 digits], as in [abc1234]), and the code
    departs from it: the pattern is written with [\d], which the engine reads
    as any decimal digit of Unicode.  The code ["ab" + U+0663] (ARABIC-INDIC
    DIGIT THREE) does not match [^[a-z]{2,3}[0-9]{1,4}$], yet both creation
    schemas accept it and store it as it is, on every host, for every version
    of the digit table, whatever the lax conversions are. *)
Theorem C1_non_ascii_digit_accepted {host : Host} {uni : Unicode} {lax : Coercions} w :
  is_match spec_UNI_regex arabic_code = false ∧
  model_validate departments.DepartmentCreate
    (list_to_map [("code", VStr arabic_code); ("staff", VStr (lit "Ada"))]) w
  = (Ok (Object "DepartmentCreate"
           [("code", VStr arabic_code); ("staff", VStr (lit "Ada"));
            ("founding_date", VNone)]), w) ∧
  model_validate lectures.LectureCreate
    (list_to_map [("code", VStr arabic_code); ("professor", VStr (lit "Ada"))]) w
  = (Ok (Object "LectureCreate"
           [("code", VStr arabic_code); ("professor", VStr (lit "Ada"));
            ("start_date", VNone)]), w).
Proof. split_and!; vm_compute; reflexivity. Qed.

(** C2, as stated, fails: the empty string is accepted as [staff]; the
    field is a plain [str] with no minimum length. *)
Lemma C2_counterexample :
  demo_validate departments.DepartmentCreate
    [("code", VStr (lit "ab1")); ("staff", VStr [])] 0
  = (Ok (Object "DepartmentCreate"
           [("code", VStr (lit "ab1")); ("staff", VStr []); ("founding_date", VNone)]),
     0).
Proof. by vm_compute. Qed.

(** C2 (amended): [staff] must be supplied, and may be the empty string.
    An input without [staff] fails with [missing] at [staff]; every accepted
    object has a string as [staff]; and the empty string does not by itself
    cause a failure. *)
Theorem C2_staff_is_a_string {host : Host} {uni : Unicode} {lax : Coercions}
    (d : input) w :
  let r := (model_validate departments.DepartmentCreate d w).1 in
  (d !! "staff" = None →
   ∃ errs, r = Err errs ∧ {| loc := "staff"; type := missing |} ∈ errs) ∧
  (∀ o, r = Ok o → ∃ s, getattr o "staff" = Some (VStr s)) ∧
  (∀ c, d !! "code" = Some (VStr c) → uni_shape is_decimal_digit c →
        d !! "staff" = Some (VStr []) →
        (∀ v, d !! "founding_date" = Some v →
              is_ok (validate (Optional date_t) v) = true) →
        is_ok r = true).
Proof.
  intros r. subst r.
  erewrite model_validate_step; last first.
  { change (cls_fields departments.DepartmentCreate)
      with (cls_fields departments.DepartmentBase).
    unfold departments.DepartmentBase, BaseModel. cbn [cls_fields].
    by apply three_fields. }
  cbn [fst].
  set (rc := (validate_field "code" _ d w).1).
  set (rd := (validate_field "founding_date" _ d w).1).
  repeat split.
  - intros Hd. rewrite (validate_field_absent "staff") by done. cbn [field_default fst].
    destruct rc, rd; simpl; eexists; (split; [done|]);
      rewrite !elem_of_cons; auto.
  - intros o. destruct (d !! "staff") as [v|] eqn:Hd.
    + rewrite (validate_field_present "staff" _ d v) by done.
      cbn [field_annotation fst].
      destruct (validate str_t v) as [v'|] eqn:Hv.
      * apply validate_str_Ok in Hv as (s & -> & _).
        destruct rc, rd; simpl; intros; simplify_eq. by exists s.
      * destruct rc, rd; simpl; intros; simplify_eq.
    + rewrite (validate_field_absent "staff") by done. cbn [field_default fst].
      destruct rc, rd; simpl; intros; simplify_eq.
  - intros c Hcode Hshape%UNI_regex_shape Hstaff Hdate. unfold rc, rd.
    rewrite (validate_field_present "code" _ d (VStr c)) by done.
    rewrite (validate_field_present "staff" _ d (VStr [])) by done.
    destruct (validate_optional_field date_t d w "founding_date"
                (Some "start date (YYYY-MM-DD).") (Some "1815-12-10") Hdate)
      as [v ->].
    cbn [field_annotation fst]. by rewrite validate_UNIType, Hshape.
Qed.

Lemma C2_staff_is_a_string_witness :
  let d : input := list_to_map [("code", VStr (lit "ab1")); ("staff", VStr [])] in
  let r := (model_validate (host := counter_host) (uni := unicode_15)
              (lax := canonical_only) departments.DepartmentCreate d 0).1 in
  (d !! "code" = Some (VStr (lit "ab1")) ∧
   uni_shape (is_decimal_digit (uni := unicode_15)) (lit "ab1") ∧
   d !! "staff" = Some (VStr []) ∧
   (∀ v, d !! "founding_date" = Some v →
         is_ok (validate (uni := unicode_15) (lax := canonical_only)
                  (Optional date_t) v) = true)) ∧
  is_ok r = true.
Proof.
  intros d r.
  assert (d !! "code" = Some (VStr (lit "ab1"))) as H1 by (by vm_compute).
  assert (uni_shape (is_decimal_digit (uni := unicode_15)) (lit "ab1")) as H2
    by (apply UNI_regex_shape; by vm_compute).
  assert (d !! "staff" = Some (VStr [])) as H3 by (by vm_compute).
  assert (∀ v, d !! "founding_date" = Some v →
               is_ok (validate (uni := unicode_15) (lax := canonical_only)
                        (Optional date_t) v) = true) as H4
    by (intros v Hv; vm_compute in Hv; discriminate).
  split; [done|].
  apply (proj2 (proj2
           (C2_staff_is_a_string (host := counter_host) (uni := unicode_15)
              (lax := canonical_only) d 0))
           (lit "ab1") H1 H2 H3 H4).
Defined.

(** C3: every read instance carries [id], [created_at] and [updated_at],
    a UUID and two datetimes, and what a client supplies for them decides
    nothing.  Two payloads that differ only at these three keys are the same
    to the creation schema; and the record made from an accepted creation
    object has the identifier and the timestamps that the host draws
    ([uuid4], then the clock twice) when the record is made. *)
Theorem C3_server_populates_metadata {host : Host} {uni : Unicode} {lax : Coercions}
    create read (d d' : input) w w2 :
  (create, read) ∈ create_read →
  (∀ k, k ∉ metadata_keys → d' !! k = d !! k) →
  (∀ dr wr o, (model_validate read dr wr).1 = Ok o →
     ∃ u t1 t2, getattr o "id" = Some (VUUID u) ∧
                getattr o "created_at" = Some (VDatetime t1) ∧
                getattr o "updated_at" = Some (VDatetime t2)) ∧
  model_validate create d' w = model_validate create d w ∧
  (∀ oc, (model_validate create d' w).1 = Ok oc →
     let u := random_uuid w2 in
     let t1 := clock_utcnow u.2 in
     let t2 := clock_utcnow t1.2 in
     ∃ o, model_validate read (model_dump oc) w2 = (Ok o, t2.2) ∧
          getattr o "id" = Some (VUUID u.1) ∧
          getattr o "created_at" = Some (VDatetime t1.1) ∧
          getattr o "updated_at" = Some (VDatetime t2.1)).
Proof.
  intros Hcr Hd.
  destruct (create_read_fields _ _ Hcr)
    as (f1 & f2 & f3 & Hfields & _ & _ & _ & Hkeys).
  assert (model_validate create d' w = model_validate create d w) as Hsame.
  { rewrite !model_validate_unfold.
    rewrite (validate_fields_agree _ d' d); [done|].
    intros k Hk. apply Hd. intros Hm.
    rewrite Forall_forall in Hkeys. by apply (Hkeys k Hm). }
  split_and!; [|done|].
  - intros dr wr o Ho.
    assert (∃ owner date_key, (read, owner, date_key) ∈ read_schemas)
      as (owner & date_key & Hread).
    { unfold read_schemas. schema_cases Hcr; do 2 eexists; rewrite !elem_of_cons; eauto. }
    destruct (read_metadata_values _ _ _ dr wr o Hread Ho)
      as (u & t1 & t2 & Hid & Hc & Hu & _).
    by exists u, t1, t2.
  - intros oc Hoc. cbv zeta.
    rewrite (read_of_create create read d' w oc w2 Hcr Hoc).
    eexists. split; [done|].
    apply model_validate_Ok in Hoc as [Herrs ->].
    unfold getattr. cbn [obj_dict].
    rewrite Forall_forall in Hkeys.
    rewrite !assoc_app;
      try (rewrite validate_fields_names by done; apply Hkeys;
           unfold metadata_keys; rewrite !elem_of_cons; auto).
    split_and!; by vm_compute.
Qed.

Lemma C3_server_populates_metadata_witness :
  let d : input :=
    list_to_map [("code", VStr (lit "abc1234")); ("staff", VStr (lit "Ada"))] in
  let d' : input :=
    list_to_map [ ("code", VStr (lit "abc1234")); ("staff", VStr (lit "Ada"));
                  ("id", VUUID sample_UUID);
                  ("created_at", VStr (lit "1999-12-31T23:59:59Z")) ] in
  ((departments.DepartmentCreate, departments.DepartmentRead) ∈ create_read ∧
   (∀ k, k ∉ metadata_keys → d' !! k = d !! k)) ∧
  model_validate (host := counter_host) (uni := unicode_15) (lax := canonical_only)
    departments.DepartmentCreate d' 0
  = model_validate (host := counter_host) (uni := unicode_15) (lax := canonical_only)
      departments.DepartmentCreate d 0.
Proof.
  intros d d'.
  assert ((departments.DepartmentCreate, departments.DepartmentRead) ∈ create_read) as H0
    by (vm_compute; left).
  assert (∀ k, k ∉ metadata_keys → d' !! k = d !! k) as H1.
  { intros k Hk. unfold metadata_keys in Hk. rewrite !not_elem_of_cons in Hk.
    destruct Hk as (? & ? & ? & _). unfold d', d.
    rewrite !list_to_map_cons, !list_to_map_nil.
    destruct (decide (k = "code")) as [->|?]; [by rewrite !lookup_insert_eq|].
    destruct (decide (k = "staff")) as [->|?];
      [by rewrite !(lookup_insert_ne _ "code"), !lookup_insert_eq|].
    by rewrite !lookup_insert_ne. }
  split; [done|].
  apply (proj1 (proj2
           (C3_server_populates_metadata (host := counter_host) (uni := unicode_15)
              (lax := canonical_only) _ _ d d' 0 7 H0 H1))).
Defined.

(** C4: each lecture variant behaves as the department variant on the
    renamed input: same state of the host afterwards, and the same outcome
    up to the renaming: the attributes with their values, or the errors
    with their types. *)
Theorem C4_lecture_mirrors_department {host : Host} {uni : Unicode} {lax : Coercions} D L (d : input) w :
  (D, L) ∈ variants →
  outcome (model_validate L d w).1 =
    rename_outcome renaming (outcome (model_validate D (rename_input renaming d) w).1) ∧
  (is_ok (model_validate L d w).1 =
     is_ok (model_validate D (rename_input renaming d) w).1) ∧
  (model_validate L d w).2 = (model_validate D (rename_input renaming d) w).2.
Proof.
  intros Hv.
  assert (signature (cls_fields L) = signature (rename_fields renaming (cls_fields D)))
    as Hsig.
  { schema_cases Hv; by vm_compute. }
  pose proof renaming_inj.
  assert (validate_fields (cls_fields L) d w =
          let r := validate_fields (cls_fields D) (rename_input renaming d) w in
          ((map (rename_error renaming) r.1.1, map (prod_map renaming id) r.1.2), r.2))
    as HL.
  { rewrite (validate_fields_signature _ _ d w Hsig).
    rewrite <-(rename_input_involutive d) at 1. by apply validate_fields_rename. }
  rewrite !model_validate_unfold, HL. cbv zeta. cbn [fst snd].
  by destruct (validate_fields (cls_fields D) _ w).1.1.
Qed.

Lemma C4_lecture_mirrors_department_witness :
  let d : input :=
    list_to_map [("code", VStr (lit "abc1234")); ("professor", VStr (lit "Ada"));
                 ("start_date", VStr (lit "1815-12-10"))] in
  (departments.DepartmentCreate, lectures.LectureCreate) ∈ variants ∧
  outcome (model_validate (host := counter_host) (uni := unicode_15) (lax := canonical_only)
             lectures.LectureCreate d 0).1 =
    rename_outcome renaming
      (outcome (model_validate (host := counter_host) (uni := unicode_15) (lax := canonical_only)
                  departments.DepartmentCreate (rename_input renaming d) 0).1).
Proof.
  intros d.
  assert ((departments.DepartmentCreate, lectures.LectureCreate) ∈ variants) as Hv
    by (vm_compute; right; left).
  split; [done|].
  apply (C4_lecture_mirrors_department (host := counter_host) (uni := unicode_15) (lax := canonical_only)
           _ _ d 0 Hv).
Defined.

(** C5: an update with no field supplied is accepted, all of its fields are
    [None], and the state of the host is untouched. *)
Theorem C5_empty_update {host : Host} {uni : Unicode} {lax : Coercions} w :
  model_validate departments.DepartmentUpdate ∅ w =
    (Ok (Object "DepartmentUpdate"
           [("code", VNone); ("staff", VNone); ("founding_date", VNone)]), w) ∧
  model_validate lectures.LectureUpdate ∅ w =
    (Ok (Object "LectureUpdate"
           [("code", VNone); ("professor", VNone); ("start_date", VNone)]), w).
Proof.
  split.
  - apply (empty_update_outcome departments.DepartmentUpdate "staff" "founding_date").
    unfold update_schemas. rewrite !elem_of_cons. tauto.
  - apply (empty_update_outcome lectures.LectureUpdate "professor" "start_date").
    unfold update_schemas. rewrite !elem_of_cons. tauto.
Qed.

(** C6: an update checks every supplied (non-[None]) value with the
    validator that creation uses for the same field, and for a [code] given
    as a string, with the other fields of either payload in order, the
    update is accepted exactly when the creation payload is. *)
Theorem C6_update_checks_as_create {host : Host} {uni : Unicode} {lax : Coercions}
    U C owner date_key (du dc : input) s w :
  (U, C, owner, date_key) ∈ update_create →
  du !! "code" = Some (VStr s) →
  (∀ v, du !! owner = Some v → is_ok (validate (Optional str_t) v) = true) →
  (∀ v, du !! date_key = Some v → is_ok (validate (Optional date_t) v) = true) →
  dc !! "code" = Some (VStr s) →
  (∃ name, dc !! owner = Some (VStr name)) →
  (∀ v, dc !! date_key = Some v → is_ok (validate (Optional date_t) v) = true) →
  is_ok (model_validate U du w).1 = is_ok (model_validate C dc w).1 ∧
  (∀ name fu fc v,
     (name, fu) ∈ cls_fields U → (name, fc) ∈ cls_fields C → v ≠ VNone →
     validate (field_annotation fu) v = validate (field_annotation fc) v).
Proof.
  intros Hcls Hu1 Hu2 Hu3 Hc1 Hc2 Hc3. split.
  - assert ((U, owner, date_key) ∈ update_schemas ∧
            (C, owner, date_key) ∈ create_schemas) as [HU HC].
    { unfold update_schemas, create_schemas.
      schema_cases Hcls; rewrite !elem_of_cons; tauto. }
    rewrite (update_outcome U owner date_key du s w) by done.
    by destruct (create_outcome C owner date_key dc s w)
      as [[-> (o & -> & _)]|[-> ->]].
  - intros name fu fc v Hfu Hfc Hv.
    schema_cases Hcls; schema_cases Hfu; schema_cases Hfc; by destruct v.
Qed.

Lemma C6_update_checks_as_create_witness :
  let du : input := list_to_map [("code", VStr (lit "ABC1234"))] in
  let dc : input := list_to_map [("code", VStr (lit "ABC1234")); ("staff", VStr (lit "Ada"))] in
  ((departments.DepartmentUpdate, departments.DepartmentCreate, "staff", "founding_date")
     ∈ update_create ∧
   du !! "code" = Some (VStr (lit "ABC1234")) ∧
   (∀ v, du !! "staff" = Some v →
         is_ok (validate (uni := unicode_15) (lax := canonical_only) (Optional str_t) v) = true) ∧
   (∀ v, du !! "founding_date" = Some v →
         is_ok (validate (uni := unicode_15) (lax := canonical_only) (Optional date_t) v) = true) ∧
   dc !! "code" = Some (VStr (lit "ABC1234")) ∧
   (∃ name, dc !! "staff" = Some (VStr name)) ∧
   (∀ v, dc !! "founding_date" = Some v →
         is_ok (validate (uni := unicode_15) (lax := canonical_only) (Optional date_t) v) = true)) ∧
  is_ok (model_validate (host := counter_host) (uni := unicode_15) (lax := canonical_only)
           departments.DepartmentUpdate du 0).1 =
  is_ok (model_validate (host := counter_host) (uni := unicode_15) (lax := canonical_only)
           departments.DepartmentCreate dc 0).1.
Proof.
  intros du dc.
  assert ((departments.DepartmentUpdate, departments.DepartmentCreate, "staff", "founding_date")
            ∈ update_create) as H0 by (vm_compute; left).
  assert (du !! "code" = Some (VStr (lit "ABC1234"))) as H1 by (by vm_compute).
  assert (∀ v, du !! "staff" = Some v →
               is_ok (validate (uni := unicode_15) (lax := canonical_only) (Optional str_t) v) = true) as H2
    by (intros v Hv; vm_compute in Hv; discriminate).
  assert (∀ v, du !! "founding_date" = Some v →
               is_ok (validate (uni := unicode_15) (lax := canonical_only) (Optional date_t) v) = true) as H3
    by (intros v Hv; vm_compute in Hv; discriminate).
  assert (dc !! "code" = Some (VStr (lit "ABC1234"))) as H4 by (by vm_compute).
  assert (∃ name, dc !! "staff" = Some (VStr name)) as H5 by (eexists; by vm_compute).
  assert (∀ v, dc !! "founding_date" = Some v →
               is_ok (validate (uni := unicode_15) (lax := canonical_only) (Optional date_t) v) = true) as H6
    by (intros v Hv; vm_compute in Hv; discriminate).
  split; [done|].
  apply (C6_update_checks_as_create (host := counter_host) (uni := unicode_15) (lax := canonical_only)
           _ _ _ _ du dc (lit "ABC1234") 0 H0 H1 H2 H3 H4 H5 H6).
Defined.

(** C7: a creation class declares nothing of its own: it has the fields of
    its base class, with the same annotations, defaults and descriptions,
    and validation of any input has the same outcome and leaves the host in
    the same state.  (The instances differ in their class only.) *)
Theorem C7_create_is_base {host : Host} {uni : Unicode} {lax : Coercions} (d : input) w :
  (cls_fields departments.DepartmentCreate = cls_fields departments.DepartmentBase ∧
   outcome (model_validate departments.DepartmentCreate d w).1 =
     outcome (model_validate departments.DepartmentBase d w).1 ∧
   (model_validate departments.DepartmentCreate d w).2 =
     (model_validate departments.DepartmentBase d w).2) ∧
  (cls_fields lectures.LectureCreate = cls_fields lectures.LectureBase ∧
   outcome (model_validate lectures.LectureCreate d w).1 =
     outcome (model_validate lectures.LectureBase d w).1 ∧
   (model_validate lectures.LectureCreate d w).2 =
     (model_validate lectures.LectureBase d w).2).
Proof.
  split; (split; [done|]); rewrite !model_validate_unfold; cbv zeta; cbn [fst snd].
  - change (cls_fields departments.DepartmentCreate)
      with (cls_fields departments.DepartmentBase).
    by destruct (validate_fields _ d w).1.1.
  - change (cls_fields lectures.LectureCreate)
      with (cls_fields lectures.LectureBase).
    by destruct (validate_fields _ d w).1.1.
Qed.

(** C8, as stated, fails in two ways.  A read object whose [created_at] has
    a UTC offset of thirty seconds is written with the offset [+00:00] and
    is read back with another [created_at]; and a read object whose [staff]
    holds a lone surrogate is accepted but has no JSON form. *)
Lemma C8_counterexample :
  (∃ t o doc o',
     make_datetime new_year_2025 10 20 30 0 (Some 30000000%Z) = Some t ∧
     demo_validate departments.DepartmentRead
       [ ("code", VStr (lit "abc1234")); ("staff", VStr (lit "Ada"));
         ("created_at", VDatetime t) ] 0 = (Ok o, 2) ∧
     instance_of (uni := unicode_15) departments.DepartmentRead o = true ∧
     model_dump_json o = Some doc ∧
     assoc "created_at" doc = Some (VStr (lit "2025-01-01T10:20:30+00:00")) ∧
     model_validate_json (host := counter_host) (uni := unicode_15)
       (lax := canonical_only) departments.DepartmentRead doc 2 = (Ok o', 2) ∧
     getattr o "created_at" = Some (VDatetime t) ∧
     getattr o' "created_at" ≠ Some (VDatetime t)) ∧
  (∃ o, demo_validate departments.DepartmentRead
          [ ("code", VStr (lit "abc1234")); ("staff", VStr [0xD800]) ] 0 = (Ok o, 3) ∧
        instance_of (uni := unicode_15) departments.DepartmentRead o = true ∧
        getattr o "staff" = Some (VStr [0xD800]) ∧
        model_dump_json o = None).
Proof.
  split.
  - do 4 eexists. split; [vm_compute; reflexivity|].
    split; [vm_compute; reflexivity|].
    split; [vm_compute; reflexivity|].
    split; [vm_compute; reflexivity|].
    split; [vm_compute; reflexivity|].
    split; [vm_compute; reflexivity|].
    split; [vm_compute; reflexivity|].
    vm_compute. intros [=].
  - eexists. split; [vm_compute; reflexivity|]. by vm_compute.
Qed.

(** C8 (amended): a read object (an instance of a read class, with
    attributes of the declared types, whether validation made it or not)
    that has a JSON form and whose datetimes have a UTC offset of whole
    minutes (or none) is read back from its JSON form by its class as the
    object itself, attribute for attribute, and reading draws nothing from
    the host.  The JSON form has one member per field, in field order, and
    its values are strings and [null]. *)
Theorem C8_read_roundtrip {host : Host} {uni : Unicode} {lax : Coercions}
    cls owner date_key o doc w2 :
  (cls, owner, date_key) ∈ read_schemas →
  instance_of cls o = true →
  model_dump_json o = Some doc →
  Forall (λ kv, json_exact kv.2 = true) (obj_dict o) →
  model_validate_json cls doc w2 = (Ok o, w2) ∧
  doc.*1 = field_names cls ∧
  forallb (λ kv, is_json kv.2) doc = true.
Proof.
  intros Hcls Ho Hdoc Hex.
  pose proof (read_in_all_schemas _ _ _ Hcls) as Hall.
  split; [|split].
  - eapply (model_roundtrip cls (model_dump o) w2);
      [by apply field_names_NoDup|by eapply read_defaults_stable| |done..].
    by rewrite instance_revalidates.
  - apply model_dump_json_Some in Hdoc as [-> _].
    apply andb_true_iff in Ho as [_ Hvals%fields_conform_names].
    rewrite <-list_fmap_compose.
    erewrite (list_fmap_ext _ fst); [|done]. done.
  - apply model_dump_json_Some in Hdoc as [-> Hser].
    apply forallb_forall. intros [k v] Hin.
    apply in_map_iff in Hin as ([k' v'] & [= <- <-] & Hin).
    apply to_jsonable_is_json.
    rewrite Forall_forall in Hser. by apply (Hser (k', v')), list_elem_of_In.
Qed.

Lemma C8_read_roundtrip_witness :
  let d : input :=
    list_to_map [("code", VStr (lit "abc1234")); ("staff", VStr (lit "Ada"));
                 ("founding_date", VStr (lit "1815-12-10"));
                 ("created_at", VStr (lit "1999-12-31T23:59:59+05:30"))] in
  ∃ o doc,
    (model_validate (host := counter_host) (uni := unicode_15) (lax := canonical_only)
       departments.DepartmentRead d 5).1 = Ok o ∧
    ((departments.DepartmentRead, "staff", "founding_date") ∈ read_schemas ∧
     instance_of (uni := unicode_15) departments.DepartmentRead o = true ∧
     model_dump_json o = Some doc ∧
     Forall (λ kv, json_exact kv.2 = true) (obj_dict o)) ∧
    assoc "created_at" doc = Some (VStr (lit "1999-12-31T23:59:59+05:30")) ∧
    model_validate_json (host := counter_host) (uni := unicode_15) (lax := canonical_only)
      departments.DepartmentRead doc 77 = (Ok o, 77).
Proof.
  intros d. do 2 eexists.
  assert ((departments.DepartmentRead, "staff", "founding_date") ∈ read_schemas) as H0
    by (vm_compute; left).
  split; [vm_compute; reflexivity|].
  split; [split_and!; [exact H0|vm_compute; reflexivity|vm_compute; reflexivity|]|].
  - repeat (apply Forall_cons_2; [by vm_compute|]). apply Forall_nil_2.
  - split; [by vm_compute|].
    apply (C8_read_roundtrip (host := counter_host) (uni := unicode_15)
             (lax := canonical_only) _ _ _ _ _ 77 H0).
    + by vm_compute.
    + by vm_compute.
    + repeat (apply Forall_cons_2; [by vm_compute|]). apply Forall_nil_2.
Defined.

(** C9: validation of a creation or update payload is a function of the
    input alone.  On any two hosts, in any two states (whatever was
    validated before), the outcome is the same instance or the same list of
    errors; validation leaves the state of the host as it found it, so
    running anything beforehand changes nothing. *)
Theorem C9_payload_validation_is_pure (host1 host2 : Host) {uni : Unicode} {lax : Coercions}
    cls (d : input) (w1 : @World host1) (w2 : @World host2) :
  cls ∈ payload_schemas →
  (model_validate (host := host1) cls d w1).1 =
    (model_validate (host := host2) cls d w2).1 ∧
  (model_validate (host := host1) cls d w1).2 = w1 ∧
  (∀ A (prior : M (host := host1) A),
     (bind prior (λ _, model_validate (host := host1) cls d) w1).1 =
     (model_validate (host := host1) cls d w1).1).
Proof.
  intros Hfree%payload_schemas_factory_free.
  assert (∀ h1 h2 (u1 : @World h1) (u2 : @World h2),
            (model_validate (host := h1) cls d u1).1 =
              (model_validate (host := h2) cls d u2).1 ∧
            (model_validate (host := h1) cls d u1).2 = u1) as Hpure.
  { intros h1 h2 u1 u2. rewrite !model_validate_unfold. cbv zeta. cbn [fst snd].
    destruct (validate_fields_host_independent h1 h2 (cls_fields cls) d u1 u2 Hfree)
      as [-> ->]. done. }
  destruct (Hpure host1 host2 w1 w2) as [H1 H2].
  repeat split; [done..|].
  intros A prior. unfold bind. apply Hpure.
Qed.

Lemma C9_payload_validation_is_pure_witness :
  let d : input := list_to_map [("code", VStr (lit "ABC1234"))] in
  departments.DepartmentCreate ∈ payload_schemas ∧
  (model_validate (host := counter_host) (uni := unicode_15) (lax := canonical_only)
     departments.DepartmentCreate d 0).1 =
  (model_validate (host := counter_host) (uni := unicode_15) (lax := canonical_only)
     departments.DepartmentCreate d 2025).1.
Proof.
  intros d.
  assert (departments.DepartmentCreate ∈ payload_schemas) as H0 by (vm_compute; left).
  split; [done|].
  apply (C9_payload_validation_is_pure counter_host counter_host (uni := unicode_15) (lax := canonical_only)
           _ d 0 2025 H0).
Defined.

(** C10: a key that names no field of the schema changes nothing: the
    outcome and the state of the host are those of the input without it, an
    accepted instance has the declared attributes only, and no error is
    reported at that key. *)
Theorem C10_unknown_keys_ignored {host : Host} {uni : Unicode} {lax : Coercions} cls k v (d : input) w :
  cls ∈ all_schemas →
  k ∉ field_names cls →
  model_validate cls (<[k := v]> d) w = model_validate cls d w ∧
  (∀ o, (model_validate cls (<[k := v]> d) w).1 = Ok o →
        (obj_dict o).*1 = field_names cls ∧ getattr o k = None) ∧
  (∀ errs, (model_validate cls (<[k := v]> d) w).1 = Err errs →
           ∀ e, e ∈ errs → loc e ≠ k).
Proof.
  intros _ Hk.
  assert (validate_fields (cls_fields cls) (<[k := v]> d) w =
          validate_fields (cls_fields cls) d w) as Heq.
  { apply validate_fields_agree. intros k' Hk'.
    apply lookup_insert_ne. by intros ->. }
  rewrite !model_validate_unfold, Heq. cbv zeta. cbn [fst].
  split; [done|]. split.
  - intros o. destruct (validate_fields (cls_fields cls) d w).1.1 eqn:Herrs; [|done].
    intros [= <-]. cbn [obj_dict]. unfold getattr. cbn [obj_dict].
    unfold field_names in Hk.
    rewrite <-(validate_fields_names _ d w Herrs) in Hk.
    split; [by apply validate_fields_names|by apply assoc_None].
  - intros errs Herrs e He <-.
    destruct (validate_fields (cls_fields cls) d w).1.1 eqn:Hacc; [done|].
    injection Herrs as <-. rewrite <-Hacc in He.
    by apply validate_fields_locs in He.
Qed.

Lemma C10_unknown_keys_ignored_witness :
  let d : input := list_to_map [("code", VStr (lit "ab12"))] in
  (lectures.LectureUpdate ∈ all_schemas ∧ "profesor" ∉ field_names lectures.LectureUpdate) ∧
  model_validate (host := counter_host) (uni := unicode_15) (lax := canonical_only)
    lectures.LectureUpdate (<["profesor" := VStr (lit "Ada")]> d) 0 =
  model_validate (host := counter_host) (uni := unicode_15) (lax := canonical_only)
    lectures.LectureUpdate d 0.
Proof.
  intros d.
  assert (lectures.LectureUpdate ∈ all_schemas) as H0
    by (unfold all_schemas; rewrite !elem_of_cons; tauto).
  assert ("profesor" ∉ field_names lectures.LectureUpdate) as H1
    by (apply (bool_decide_unpack _); by vm_compute).
  split; [done|].
  apply (C10_unknown_keys_ignored (host := counter_host) (uni := unicode_15) (lax := canonical_only)
           _ "profesor" (VStr (lit "Ada")) d 0 H0 H1).
Defined.

(** * Further properties *)

(** X1: a creation payload is accepted exactly when [code] is text (a
    string, or bytes that decode to one) of 2-3 lowercase letters followed
    by 1-4 decimal digits, the owner is text, and the date is absent or
    valid. *)
Theorem X1_create_accepted_iff {host : Host} {uni : Unicode} {lax : Coercions}
    cls owner date_key (d : input) w :
  (cls, owner, date_key) ∈ create_schemas →
  is_ok (model_validate cls d w).1 = true ↔
  (∃ v s, d !! "code" = Some v ∧ validate_str v = Ok s ∧
          uni_shape is_decimal_digit s) ∧
  (∃ v name, d !! owner = Some v ∧ validate_str v = Ok name) ∧
  (∀ v, d !! date_key = Some v → is_ok (validate (Optional date_t) v) = true).
Proof.
  intros Hcls.
  pose proof (proj1 schema_signatures _ _ _ Hcls) as Hsig.
  erewrite payload_fields; [|exact Hsig|reflexivity|done]. cbn [fst].
  rewrite three_ok, !andb_true_iff, !required_field_ok, optional_field_ok.
  split.
  - intros (((v & Hv & Hc%validate_UNIType_ok) & (vo & Hvo & Ho%validate_str_ok)) & H3).
    destruct Hc as (s & Hs & Hshape). destruct Ho as (name & Hname).
    split_and!; [by exists v, s|by exists vo, name|done].
  - intros ((v & s & Hv & Hs & Hshape) & (vo & name & Hvo & Hname) & H3).
    split_and!; [| |done].
    + exists v. split; [done|]. apply validate_UNIType_ok. eauto.
    + exists vo. split; [done|]. apply validate_str_ok. eauto.
Qed.

Lemma X1_create_accepted_iff_witness :
  let d : input :=
    list_to_map [("code", VStr (lit "abc1234")); ("staff", VBytes (blit "Ada"));
                 ("founding_date", VStr (lit "1815-12-10"))] in
  (departments.DepartmentCreate, "staff", "founding_date") ∈ create_schemas ∧
  (is_ok (model_validate (host := counter_host) (uni := unicode_15) (lax := canonical_only)
            departments.DepartmentCreate d 0).1 = true ↔
   (∃ v s, d !! "code" = Some v ∧ validate_str v = Ok s ∧
           uni_shape (is_decimal_digit (uni := unicode_15)) s) ∧
   (∃ v name, d !! "staff" = Some v ∧ validate_str v = Ok name) ∧
   (∀ v, d !! "founding_date" = Some v →
         is_ok (validate (uni := unicode_15) (lax := canonical_only) (Optional date_t) v) = true)).
Proof.
  intros d.
  assert ((departments.DepartmentCreate, "staff", "founding_date") ∈ create_schemas) as H0
    by (vm_compute; left).
  split; [done|].
  apply (X1_create_accepted_iff (host := counter_host) (uni := unicode_15) (lax := canonical_only) _ _ _ d 0 H0).
Defined.

(** X2: an update is accepted exactly when each of its three keys is
    absent, [None], or a valid value: text (a string, or bytes that decode
    to one) of the shape of a code for [code], text for the owner, a valid
    date for the date. *)
Theorem X2_update_accepted_iff {host : Host} {uni : Unicode} {lax : Coercions}
    cls owner date_key (d : input) w :
  (cls, owner, date_key) ∈ update_schemas →
  is_ok (model_validate cls d w).1 = true ↔
  (∀ v, d !! "code" = Some v →
        v = VNone ∨ ∃ s, validate_str v = Ok s ∧ uni_shape is_decimal_digit s) ∧
  (∀ v, d !! owner = Some v → v = VNone ∨ ∃ name, validate_str v = Ok name) ∧
  (∀ v, d !! date_key = Some v → is_ok (validate (Optional date_t) v) = true).
Proof.
  intros Hcls.
  pose proof (proj2 schema_signatures _ _ _ Hcls) as Hsig.
  erewrite payload_fields; [|exact Hsig|reflexivity|done]. cbn [fst].
  rewrite three_ok, !andb_true_iff, !optional_field_ok.
  split.
  - intros ((H1 & H2) & H3). split_and!; [| |done].
    + intros v Hv. by apply optional_UNIType_ok, H1.
    + intros v Hv. by apply optional_str_ok, H2.
  - intros (H1 & H2 & H3). split_and!; [| |done].
    + intros v Hv. by apply optional_UNIType_ok, H1.
    + intros v Hv. by apply optional_str_ok, H2.
Qed.

Lemma X2_update_accepted_iff_witness :
  let d : input := list_to_map [("professor", VNone); ("code", VStr (lit "ab12"))] in
  (lectures.LectureUpdate, "professor", "start_date") ∈ update_schemas ∧
  (is_ok (model_validate (host := counter_host) (uni := unicode_15) (lax := canonical_only)
            lectures.LectureUpdate d 0).1 = true ↔
   (∀ v, d !! "code" = Some v →
         v = VNone ∨ ∃ s, validate_str v = Ok s ∧
                          uni_shape (is_decimal_digit (uni := unicode_15)) s) ∧
   (∀ v, d !! "professor" = Some v → v = VNone ∨ ∃ name, validate_str v = Ok name) ∧
   (∀ v, d !! "start_date" = Some v →
         is_ok (validate (uni := unicode_15) (lax := canonical_only) (Optional date_t) v) = true)).
Proof.
  intros d.
  assert ((lectures.LectureUpdate, "professor", "start_date") ∈ update_schemas) as H0
    by (vm_compute; right; left).
  split; [done|].
  apply (X2_update_accepted_iff (host := counter_host) (uni := unicode_15) (lax := canonical_only) _ _ _ d 0 H0).
Defined.

(** X3: every attribute of an accepted instance has the type its field
    declares, whether it came from the input, from a default or from a
    default factory; a constrained string satisfies its constraint. *)
Theorem X3_attributes_conform {host : Host} {uni : Unicode} {lax : Coercions} cls d w o name f :
  cls ∈ all_schemas →
  (model_validate cls d w).1 = Ok o →
  (name, f) ∈ cls_fields cls →
  ∃ v, getattr o name = Some v ∧ conforms (field_annotation f) v = true.
Proof.
  intros Hcls Ho Hin.
  destruct (getattr_field cls d w o name f) as (v & w0 & Hget & Hv);
    [by apply field_names_NoDup|done..|].
  exists v. split; [done|].
  eapply default_conforms_field; [|done].
  pose proof (all_defaults_conform cls Hcls) as Hall.
  rewrite forallb_forall in Hall.
  apply (Hall (name, f)). by apply list_elem_of_In.
Qed.

Lemma X3_attributes_conform_witness :
  let d : input :=
    list_to_map [("code", VStr (lit "abc1234")); ("staff", VStr (lit "Ada"))] in
  let f := Field UUID_t (DefaultFactory uuid4) (Some "Server-generated Lecture ID.")
             (Some "99999999-9999-4999-8999-999999999999") in
  ∃ o,
    (departments.DepartmentRead ∈ all_schemas ∧
     (model_validate (host := counter_host) (uni := unicode_15) (lax := canonical_only)
        departments.DepartmentRead d 5).1 = Ok o ∧
     ("id", f) ∈ cls_fields departments.DepartmentRead) ∧
    ∃ v, getattr o "id" = Some v ∧ conforms (uni := unicode_15) UUID_t v = true.
Proof.
  intros d f. eexists.
  assert (departments.DepartmentRead ∈ all_schemas) as H0
    by (unfold all_schemas; rewrite !elem_of_cons; tauto).
  assert (("id", f) ∈ cls_fields departments.DepartmentRead) as H2
    by (compute_fields; do 3 apply list_elem_of_further; apply list_elem_of_here).
  split; [split_and!; [exact H0|vm_compute; reflexivity|exact H2]|].
  apply (X3_attributes_conform (host := counter_host) (uni := unicode_15) (lax := canonical_only)
           _ d 5 _ "id" f H0); [by vm_compute|exact H2].
Defined.

(** X4: in every instance of every schema, [code] is a string of 2-3
    letters [a-z] followed by 1-4 decimal digits, hence of 3 to 7
    characters; it is [None] in an update object only. *)
Theorem X4_code_invariant {host : Host} {uni : Unicode} {lax : Coercions} cls d w o :
  cls ∈ all_schemas →
  (model_validate cls d w).1 = Ok o →
  ∃ v, getattr o "code" = Some v ∧
       ((∃ s, v = VStr s ∧ uni_shape is_decimal_digit s ∧ (3 ≤ length s ≤ 7)%nat) ∨
        (v = VNone ∧ ∃ owner date_key, (cls, owner, date_key) ∈ update_schemas)).
Proof.
  intros Hcls Ho.
  destruct (code_field cls Hcls) as (f & Hin & Hf).
  destruct (getattr_field cls d w o "code" f) as (v & w0 & Hget & Hv);
    [by apply field_names_NoDup|done..|].
  exists v. split; [done|].
  apply validate_field_Ok in Hv as [(vin & _ & Hv)|(_ & Hd)].
  - destruct Hf as [[Ha _]|(Ha & _ & Hup)]; rewrite Ha in Hv.
    + apply validate_UNIType_inv in Hv as (s & _ & -> & Hs).
      left. exists s. split; [done|split; [done|]]. by eapply uni_shape_length.
    + apply validate_optional_UNIType_inv in Hv as [[_ ->]|(s & _ & -> & Hs)].
      * by right.
      * left. exists s. split; [done|split; [done|]]. by eapply uni_shape_length.
  - destruct Hf as [[_ Hr]|(_ & Hdef & Hup)]; rewrite ?Hr, ?Hdef in Hd.
    + by destruct Hd as [?|(g & ? & _)].
    + destruct Hd as [[= <-]|(g & ? & _)]; [by right|done].
Qed.

Lemma X4_code_invariant_witness :
  let d : input :=
    list_to_map [("code", VStr (lit "abc1234")); ("professor", VStr (lit "Ada"))] in
  ∃ o,
    (lectures.LectureRead ∈ all_schemas ∧
     (model_validate (host := counter_host) (uni := unicode_15) (lax := canonical_only)
        lectures.LectureRead d 5).1 = Ok o) ∧
    ∃ v, getattr o "code" = Some v ∧
         ((∃ s, v = VStr s ∧ uni_shape (is_decimal_digit (uni := unicode_15)) s ∧
                (3 ≤ length s ≤ 7)%nat) ∨
          (v = VNone ∧
           ∃ owner date_key, (lectures.LectureRead, owner, date_key) ∈ update_schemas)).
Proof.
  intros d. eexists.
  assert (lectures.LectureRead ∈ all_schemas) as H0
    by (unfold all_schemas; rewrite !elem_of_cons; tauto).
  split; [split; [exact H0|vm_compute; reflexivity]|].
  apply (X4_code_invariant (host := counter_host) (uni := unicode_15) (lax := canonical_only)
           _ d 5 _ H0). by vm_compute.
Defined.

(** X5: text is stored as it is given.  Where the input has a string at
    [code] or at the owner, the accepted instance has this very string
    there, neither trimmed nor changed in case; where it has bytes, the
    instance has the string that they encode in UTF-8. *)
Theorem X5_strings_stored_unchanged {host : Host} {uni : Unicode} {lax : Coercions}
    cls d w o name f v :
  cls ∈ all_schemas →
  (name, f) ∈ cls_fields cls →
  string_annotation (field_annotation f) = true →
  d !! name = Some v →
  (model_validate cls d w).1 = Ok o →
  (∀ s, v = VStr s → getattr o name = Some (VStr s)) ∧
  (∀ b, v = VBytes b →
        ∃ s, utf8_decode b = Some s ∧ getattr o name = Some (VStr s)).
Proof.
  intros Hcls Hin Hstr Hd Ho.
  destruct (getattr_field cls d w o name f) as (v' & w0 & Hget & Hv);
    [by apply field_names_NoDup|done..|].
  rewrite validate_field_present with (v := v) in Hv by done. cbn [fst] in Hv.
  destruct (validate (field_annotation f) v) as [v0|] eqn:Hval; [|done].
  injection Hv as ->.
  apply validate_string in Hval as [[-> ->]|(s & Hs & ->)]; [done| |done].
  split.
  - intros s' ->. by injection Hs as ->.
  - intros b ->. exists s. split; [|done].
    simpl in Hs. by destruct (utf8_decode b); simplify_eq.
Qed.

Lemma X5_strings_stored_unchanged_witness :
  let d : input :=
    list_to_map [("code", VStr (lit "ab1")); ("professor", VStr (lit " Ada "))] in
  let f := Field (Optional str_t) (Default VNone) None (Some "Augusta") in
  ∃ o,
    (lectures.LectureUpdate ∈ all_schemas ∧
     ("professor", f) ∈ cls_fields lectures.LectureUpdate ∧
     string_annotation (field_annotation f) = true ∧
     d !! "professor" = Some (VStr (lit " Ada ")) ∧
     (model_validate (host := counter_host) (uni := unicode_15) (lax := canonical_only)
        lectures.LectureUpdate d 0).1 = Ok o) ∧
    getattr o "professor" = Some (VStr (lit " Ada ")).
Proof.
  intros d f. eexists.
  assert (lectures.LectureUpdate ∈ all_schemas) as H0
    by (unfold all_schemas; rewrite !elem_of_cons; tauto).
  assert (("professor", f) ∈ cls_fields lectures.LectureUpdate) as H1
    by (compute_fields; apply list_elem_of_further, list_elem_of_here).
  assert (d !! "professor" = Some (VStr (lit " Ada "))) as H3 by by vm_compute.
  split; [split_and!; [exact H0|exact H1|reflexivity|exact H3|vm_compute; reflexivity]|].
  refine (proj1 (X5_strings_stored_unchanged (host := counter_host) (uni := unicode_15)
                   (lax := canonical_only) _ d 0 _ "professor" f _ H0 H1 eq_refl H3 _)
            _ eq_refl).
  by vm_compute.
Defined.

(** X6: a required field is reported as [missing] exactly when its key is
    absent from the input: a key that is present, whatever its value, gives
    another error or none. *)
Theorem X6_missing_iff_absent {host : Host} {uni : Unicode} {lax : Coercions} cls d w name f :
  cls ∈ all_schemas →
  (name, f) ∈ cls_fields cls →
  field_default f = Required →
  {| loc := name; type := missing |} ∈ errors (model_validate cls d w).1 ↔
  d !! name = None.
Proof.
  intros Hcls Hin Hreq. rewrite model_validate_errors. split.
  - intros (f' & w0 & Hin' & He)%validate_fields_errors. cbn [loc] in *.
    assert (f' = f) as ->.
    { eapply field_unique; [|done..]. by apply field_names_NoDup. }
    apply validate_field_Err in He as [_ [(vin & _ & Hv)|(Hd & _)]]; [|done].
    cbn [type] in Hv. exfalso.
    pose proof (required_are_strings cls Hcls) as Hall.
    rewrite forallb_forall in Hall.
    specialize (Hall (name, f)). cbn [snd] in Hall. rewrite Hreq in Hall.
    apply validate_string_error in Hv as [?|[?|?]]; [done..|].
    apply Hall. by apply list_elem_of_In.
  - intros Hd. eapply validate_fields_error_in; [done|].
    intros w0. by rewrite validate_field_absent, Hreq.
Qed.

Lemma X6_missing_iff_absent_witness :
  let d : input := list_to_map [("code", VStr (lit "abc1234"))] in
  let f := Field str_t Required (Some "Given name.") (Some "Ada") in
  (departments.DepartmentCreate ∈ all_schemas ∧
   ("staff", f) ∈ cls_fields departments.DepartmentCreate ∧
   field_default f = Required) ∧
  ({| loc := "staff"; type := missing |} ∈
     errors (model_validate (host := counter_host) (uni := unicode_15) (lax := canonical_only)
               departments.DepartmentCreate d 0).1 ↔
   d !! "staff" = None).
Proof.
  intros d f.
  assert (departments.DepartmentCreate ∈ all_schemas) as H0
    by (unfold all_schemas; rewrite !elem_of_cons; tauto).
  assert (("staff", f) ∈ cls_fields departments.DepartmentCreate) as H1
    by (compute_fields; apply list_elem_of_further, list_elem_of_here).
  split; [done|].
  apply (X6_missing_iff_absent (host := counter_host) (uni := unicode_15) (lax := canonical_only)
           _ d 0 "staff" f H0 H1 eq_refl).
Defined.

(** X7: validation does not stop at the first field at fault.  A rejected
    input is reported with one error for each field at fault and none for
    the others, in the order of the field declarations: the keys of the
    errors are the names of the failing fields.  A field is at fault when it
    is required and absent, or present with a value that its validator
    refuses, and its error says which. *)
Theorem X7_errors_by_field {host : Host} {uni : Unicode} {lax : Coercions} cls d w errs :
  cls ∈ all_schemas →
  (model_validate cls d w).1 = Err errs →
  errs ≠ [] ∧
  map loc errs = failing_fields d (cls_fields cls) ∧
  map loc errs `sublist_of` field_names cls ∧
  NoDup (map loc errs) ∧
  (∀ name f, (name, f) ∈ cls_fields cls →
     (d !! name = None ∧ field_default f = Required) ∨
     (∃ v, d !! name = Some v ∧ is_ok (validate (field_annotation f) v) = false) →
     ∃ e, e ∈ errs ∧ loc e = name) ∧
  (∀ e, e ∈ errs →
    ∃ f, (loc e, f) ∈ cls_fields cls ∧
         ((d !! loc e = None ∧ field_default f = Required ∧ type e = missing) ∨
          (∃ v, d !! loc e = Some v ∧ validate (field_annotation f) v = Err (type e)))).
Proof.
  intros Hcls [-> Hne]%model_validate_Err.
  pose proof (validate_fields_error_order (cls_fields cls) d w) as Hsub.
  pose proof (validate_fields_error_locs (cls_fields cls) d w) as Hlocs.
  split_and!; [done|done|done| | |].
  - eapply sublist_NoDup; [|done]. by apply field_names_NoDup.
  - intros name f Hin Hbad.
    assert (In name (map loc (validate_fields (cls_fields cls) d w).1.1)) as Hname.
    { rewrite Hlocs. unfold failing_fields.
      apply (in_map fst _ (name, f)), filter_In.
      split; [by apply list_elem_of_In|]. unfold field_accepts. cbn [fst snd].
      destruct Hbad as [[-> ->]|(v & -> & Hv)]; [done|]. by rewrite Hv. }
    apply in_map_iff in Hname as (e & He & Hin').
    exists e. split; [by apply list_elem_of_In|done].
  - intros e (f & w0 & Hin & He)%validate_fields_errors.
    exists f. split; [done|].
    apply validate_field_Err in He as [_ [(vin & ? & ?)|(? & ? & ?)]]; eauto.
Qed.

Lemma X7_errors_by_field_witness :
  let d : input := list_to_map [("code", VStr (lit "ABC1"))] in
  ∃ errs,
    (departments.DepartmentCreate ∈ all_schemas ∧
     (model_validate (host := counter_host) (uni := unicode_15) (lax := canonical_only)
        departments.DepartmentCreate d 0).1 = Err errs) ∧
    errs = [ {| loc := "code"; type := string_pattern_mismatch |};
             {| loc := "staff"; type := missing |} ] ∧
    map loc errs = failing_fields (uni := unicode_15) (lax := canonical_only) d
                     (cls_fields departments.DepartmentCreate).
Proof.
  intros d. eexists.
  assert (departments.DepartmentCreate ∈ all_schemas) as H0
    by (unfold all_schemas; rewrite !elem_of_cons; tauto).
  split; [split; [exact H0|vm_compute; reflexivity]|].
  split; [done|].
  apply (X7_errors_by_field (host := counter_host) (uni := unicode_15) (lax := canonical_only)
           _ d 0 _ H0). by vm_compute.
Defined.

(** X8: an update never objects to what it is not given: each of its
    errors is at one of its three keys, present in the input with a value
    other than [None]; no error is [missing] for want of a key. *)
Theorem X8_update_errors_at_supplied_keys {host : Host} {uni : Unicode} {lax : Coercions}
    cls owner date_key d w e :
  (cls, owner, date_key) ∈ update_schemas →
  e ∈ errors (model_validate cls d w).1 →
  loc e ∈ ["code"; owner; date_key] ∧
  ∃ v, d !! loc e = Some v ∧ v ≠ VNone.
Proof.
  intros Hcls. rewrite model_validate_errors. intros He.
  destruct (update_fields_nullable _ _ _ Hcls) as [Hnull Hnames].
  split.
  - rewrite <-Hnames. by eapply validate_fields_locs.
  - apply validate_fields_errors in He as (f & w0 & Hin & He).
    rewrite forallb_forall in Hnull.
    specialize (Hnull (loc e, f)). cbn [snd] in Hnull.
    destruct (nullable_inv f) as [[a Ha] Hd]; [by apply Hnull, list_elem_of_In|].
    apply validate_field_Err in He as [_ [(vin & Hvin & Hv)|(_ & Hreq & _)]].
    + exists vin. split; [done|]. intros ->. by rewrite Ha in Hv.
    + by rewrite Hd in Hreq.
Qed.

Lemma X8_update_errors_at_supplied_keys_witness :
  let d : input := list_to_map [("code", VStr (lit "ABC1"))] in
  let e := {| loc := "code"; type := string_pattern_mismatch |} in
  ((departments.DepartmentUpdate, "staff", "founding_date") ∈ update_schemas ∧
   e ∈ errors (model_validate (host := counter_host) (uni := unicode_15) (lax := canonical_only)
                 departments.DepartmentUpdate d 0).1) ∧
  loc e ∈ ["code"; "staff"; "founding_date"] ∧
  ∃ v, d !! loc e = Some v ∧ v ≠ VNone.
Proof.
  intros d e.
  assert ((departments.DepartmentUpdate, "staff", "founding_date") ∈ update_schemas) as H0
    by (vm_compute; left).
  assert (e ∈ errors (model_validate (host := counter_host) (uni := unicode_15) (lax := canonical_only)
                        departments.DepartmentUpdate d 0).1) as H1
    by (vm_compute; left).
  split; [done|].
  apply (X8_update_errors_at_supplied_keys (host := counter_host) (uni := unicode_15) (lax := canonical_only)
           _ _ _ d 0 e H0 H1).
Defined.

(** X9: for a field that may be [None] (every field of an update schema,
    the date of every schema), giving [None] is the same as leaving the key
    out: the outcome and the state of the host are equal. *)
Theorem X9_none_is_absent {host : Host} {uni : Unicode} {lax : Coercions} cls d w k f :
  cls ∈ all_schemas →
  (k, f) ∈ cls_fields cls →
  nullable f = true →
  model_validate cls (<[k := VNone]> d) w = model_validate cls (delete k d) w.
Proof.
  intros Hcls Hin Hnull.
  rewrite !model_validate_unfold.
  rewrite validate_fields_none_absent; [done|].
  intros f' Hin'. rewrite (field_unique (cls_fields cls) k f' f); [done| |done..].
  by apply field_names_NoDup.
Qed.

Lemma X9_none_is_absent_witness :
  let d : input :=
    list_to_map [("code", VStr (lit "abc1234")); ("professor", VStr (lit "Ada"))] in
  let f := Field (Optional date_t) (Default VNone) (Some "start date (YYYY-MM-DD).")
             (Some "1815-12-10") in
  (lectures.LectureRead ∈ all_schemas ∧
   ("start_date", f) ∈ cls_fields lectures.LectureRead ∧
   nullable f = true) ∧
  model_validate (host := counter_host) (uni := unicode_15) (lax := canonical_only)
    lectures.LectureRead (<["start_date" := VNone]> d) 3 =
  model_validate (host := counter_host) (uni := unicode_15) (lax := canonical_only)
    lectures.LectureRead (delete "start_date" d) 3.
Proof.
  intros d f.
  assert (lectures.LectureRead ∈ all_schemas) as H0
    by (unfold all_schemas; rewrite !elem_of_cons; tauto).
  assert (("start_date", f) ∈ cls_fields lectures.LectureRead) as H1
    by (compute_fields; do 2 apply list_elem_of_further; apply list_elem_of_here).
  split; [done|].
  apply (X9_none_is_absent (host := counter_host) (uni := unicode_15) (lax := canonical_only)
           _ d 3 "start_date" f H0 H1 eq_refl).
Defined.

(** X10: a read schema extends its base.  What the base rejects the read
    schema rejects, with the errors of the base first; an input that the
    read schema accepts is accepted by the base, and the read object has
    the attributes of the base object followed by [id], [created_at] and
    [updated_at]. *)
Theorem X10_read_extends_base {host : Host} {uni : Unicode} {lax : Coercions} base read d w :
  (base, read) ∈ base_read →
  (∀ errs, (model_validate base d w).1 = Err errs →
     ∃ more, (model_validate read d w).1 = Err (errs ++ more)) ∧
  (∀ o, (model_validate read d w).1 = Ok o →
     ∃ ob meta, (model_validate base d w).1 = Ok ob ∧
                obj_dict o = obj_dict ob ++ meta ∧ meta.*1 = metadata_keys).
Proof.
  intros (meta & Hfields & Hmeta)%read_fields.
  rewrite !model_validate_unfold, Hfields, validate_fields_app. cbv zeta. cbn [fst snd].
  set (r1 := validate_fields (cls_fields base) d w).
  set (r2 := validate_fields meta d r1.2).
  split.
  - intros errs Hb. destruct r1.1.1 as [|e errs1] eqn:H1; [done|].
    injection Hb as <-. by exists r2.1.1.
  - intros o Ho. destruct r1.1.1 as [|e errs1] eqn:H1; [|done].
    destruct r2.1.1 as [|e errs2] eqn:H2; [|done].
    cbn [app] in Ho. injection Ho as <-.
    eexists _, r2.1.2. split_and!; [done..|].
    rewrite <-Hmeta. by apply validate_fields_names.
Qed.

Lemma X10_read_extends_base_witness :
  let d : input := list_to_map [("code", VStr (lit "abc1234"))] in
  (departments.DepartmentBase, departments.DepartmentRead) ∈ base_read ∧
  (∀ errs, (model_validate (host := counter_host) (uni := unicode_15) (lax := canonical_only)
              departments.DepartmentBase d 0).1 = Err errs →
     ∃ more, (model_validate (host := counter_host) (uni := unicode_15) (lax := canonical_only)
                departments.DepartmentRead d 0).1 = Err (errs ++ more)) ∧
  (∀ o, (model_validate (host := counter_host) (uni := unicode_15) (lax := canonical_only)
           departments.DepartmentRead d 0).1 = Ok o →
     ∃ ob meta, (model_validate (host := counter_host) (uni := unicode_15) (lax := canonical_only)
                   departments.DepartmentBase d 0).1 = Ok ob ∧
                obj_dict o = obj_dict ob ++ meta ∧ meta.*1 = metadata_keys).
Proof.
  intros d.
  assert ((departments.DepartmentBase, departments.DepartmentRead) ∈ base_read) as H0
    by (vm_compute; left).
  split; [done|].
  apply (X10_read_extends_base (host := counter_host) (uni := unicode_15) (lax := canonical_only) _ _ d 0 H0).
Defined.

(** X11: when the input supplies [id], [created_at] and [updated_at], a
    read schema validates as a pure function of the input: the outcome is
    the same on every host and in every state, and nothing is drawn from
    the clock or the random source. *)
Theorem X11_read_supplied_metadata_pure (host1 host2 : Host) {uni : Unicode} {lax : Coercions}
    cls owner date_key (d : input) (w1 : @World host1) (w2 : @World host2) :
  (cls, owner, date_key) ∈ read_schemas →
  (∀ k, k ∈ metadata_keys → is_Some (d !! k)) →
  (model_validate (host := host1) cls d w1).1 =
    (model_validate (host := host2) cls d w2).1 ∧
  (model_validate (host := host1) cls d w1).2 = w1.
Proof.
  intros Hcls Hkeys. rewrite !model_validate_unfold. cbv zeta. cbn [fst snd].
  destruct (validate_fields_supplied host1 host2 (cls_fields cls) d w1 w2) as [-> ->];
    [|done].
  eapply Forall_impl; [by eapply read_factories|].
  intros [name f]. cbn [fst snd]. destruct (field_default f); auto.
Qed.

Lemma X11_read_supplied_metadata_pure_witness :
  let d : input :=
    list_to_map [("code", VStr (lit "abc1234")); ("professor", VStr (lit "Ada"));
                 ("id", VUUID sample_UUID);
                 ("created_at", VDatetime midnight_2025);
                 ("updated_at", VDatetime midnight_2025)] in
  ((lectures.LectureRead, "professor", "start_date") ∈ read_schemas ∧
   (∀ k, k ∈ metadata_keys → is_Some (d !! k))) ∧
  (model_validate (host := counter_host) (uni := unicode_15) (lax := canonical_only)
     lectures.LectureRead d 5).1 =
    (model_validate (host := counter_host) (uni := unicode_15) (lax := canonical_only)
       lectures.LectureRead d 77).1 ∧
  (model_validate (host := counter_host) (uni := unicode_15) (lax := canonical_only)
     lectures.LectureRead d 5).2 = 5.
Proof.
  intros d.
  assert ((lectures.LectureRead, "professor", "start_date") ∈ read_schemas) as H0
    by (vm_compute; right; left).
  assert (∀ k, k ∈ metadata_keys → is_Some (d !! k)) as H1.
  { intros k Hk. unfold metadata_keys in Hk.
    repeat (apply elem_of_cons in Hk as [->|Hk]); [eexists; vm_compute; reflexivity..|].
    by apply elem_of_nil in Hk. }
  split; [done|].
  apply (X11_read_supplied_metadata_pure counter_host counter_host
           (uni := unicode_15) (lax := canonical_only) _ _ _ d 5 77 H0 H1).
Defined.

(** X12: validation by a read schema draws from the host once for each of
    [id], [created_at], [updated_at] that the input leaves out, in that
    order ([uuid4], then the clock twice), and not at all for a key that is
    supplied. *)
Theorem X12_read_host_state {host : Host} {uni : Unicode} {lax : Coercions} cls owner date_key d w :
  (cls, owner, date_key) ∈ read_schemas →
  (model_validate cls d w).2 = after_defaults d w ∧
  ((∀ k, k ∈ metadata_keys → is_Some (d !! k)) → (model_validate cls d w).2 = w) ∧
  ((∀ k, k ∈ metadata_keys → d !! k = None) →
   (model_validate cls d w).2 =
     (clock_utcnow (clock_utcnow (random_uuid w).2).2).2).
Proof.
  intros Hcls. rewrite (read_validation_state _ _ _ _ _ Hcls).
  unfold after_defaults, metadata_keys. split_and!; [done|..]; intros Hk.
  - destruct (Hk "id") as [? ->]; [rewrite !elem_of_cons; auto|].
    destruct (Hk "created_at") as [? ->]; [rewrite !elem_of_cons; auto|].
    destruct (Hk "updated_at") as [? ->]; [rewrite !elem_of_cons; auto|]. done.
  - rewrite !Hk by (rewrite !elem_of_cons; auto). done.
Qed.

Lemma X12_read_host_state_witness :
  let d : input :=
    list_to_map [("code", VStr (lit "abc1234")); ("staff", VStr (lit "Ada"));
                 ("created_at", VDatetime midnight_2025)] in
  (departments.DepartmentRead, "staff", "founding_date") ∈ read_schemas ∧
  (model_validate (host := counter_host) (uni := unicode_15) (lax := canonical_only)
     departments.DepartmentRead d 5).2 = after_defaults (host := counter_host) d 5.
Proof.
  intros d.
  assert ((departments.DepartmentRead, "staff", "founding_date") ∈ read_schemas) as H0
    by (vm_compute; left).
  split; [done|].
  apply (X12_read_host_state (host := counter_host) (uni := unicode_15) (lax := canonical_only)
           _ _ _ d 5 H0).
Defined.

(** X13: an accepted instance validates to itself.  Passing its attributes
    to its class again, as keyword arguments, gives an equal instance,
    for every schema, and draws nothing from the host: the identifier and
    the timestamps of a read object are kept, not generated anew. *)
Theorem X13_revalidation {host : Host} {uni : Unicode} {lax : Coercions} cls d w o w2 :
  cls ∈ all_schemas →
  (model_validate cls d w).1 = Ok o →
  model_validate cls (model_dump o) w2 = (Ok o, w2).
Proof.
  intros Hcls [Herrs ->]%model_validate_Ok. unfold model_dump. cbn [obj_dict].
  rewrite model_validate_unfold.
  rewrite (revalidate_fields _ d w); [done| |done|].
  - by apply all_defaults_conform.
  - intros k v Hin. apply model_dump_lookup; [|done..]. by apply field_names_NoDup.
Qed.

Lemma X13_revalidation_witness :
  let d : input :=
    list_to_map [("code", VStr (lit "abc1234")); ("staff", VStr (lit "Ada"));
                 ("founding_date", VStr (lit "1815-12-10"))] in
  ∃ o,
    (departments.DepartmentRead ∈ all_schemas ∧
     (model_validate (host := counter_host) (uni := unicode_15) (lax := canonical_only)
        departments.DepartmentRead d 5).1 = Ok o) ∧
    model_validate (host := counter_host) (uni := unicode_15) (lax := canonical_only)
      departments.DepartmentRead (model_dump o) 77 = (Ok o, 77).
Proof.
  intros d. eexists.
  assert (departments.DepartmentRead ∈ all_schemas) as H0
    by (unfold all_schemas; rewrite !elem_of_cons; tauto).
  split; [split; [exact H0|vm_compute; reflexivity]|].
  apply (X13_revalidation (host := counter_host) (uni := unicode_15) (lax := canonical_only)
           _ d 5 _ 77 H0). by vm_compute.
Defined.

(** X14: from a creation payload to the record.  The attributes of an
    accepted creation object, passed to the read schema of its group, give
    a read object with the same [code], owner and date, followed by an
    identifier from [uuid4] and two timestamps from the clock, drawn in
    this order. *)
Theorem X14_create_then_read {host : Host} {uni : Unicode} {lax : Coercions} create read d w oc w2 :
  (create, read) ∈ create_read →
  (model_validate create d w).1 = Ok oc →
  let u := random_uuid w2 in
  let t1 := clock_utcnow u.2 in
  let t2 := clock_utcnow t1.2 in
  model_validate read (model_dump oc) w2 =
  (Ok (Object (cls_name read)
         (obj_dict oc ++ [("id", VUUID u.1); ("created_at", VDatetime t1.1);
                          ("updated_at", VDatetime t2.1)])), t2.2).
Proof. apply read_of_create. Qed.

Lemma X14_create_then_read_witness :
  let d : input :=
    list_to_map [("code", VStr (lit "abc1234")); ("staff", VStr (lit "Ada"))] in
  ∃ oc,
    ((departments.DepartmentCreate, departments.DepartmentRead) ∈ create_read ∧
     (model_validate (host := counter_host) (uni := unicode_15) (lax := canonical_only)
        departments.DepartmentCreate d 0).1 = Ok oc) ∧
    let u := random_uuid (Host := counter_host) 7 in
    let t1 := clock_utcnow (Host := counter_host) u.2 in
    let t2 := clock_utcnow (Host := counter_host) t1.2 in
    model_validate (host := counter_host) (uni := unicode_15) (lax := canonical_only)
      departments.DepartmentRead (model_dump oc) 7 =
    (Ok (Object (cls_name departments.DepartmentRead)
           (obj_dict oc ++ [("id", VUUID u.1); ("created_at", VDatetime t1.1);
                            ("updated_at", VDatetime t2.1)])), t2.2).
Proof.
  intros d. eexists.
  assert ((departments.DepartmentCreate, departments.DepartmentRead) ∈ create_read) as H0
    by (vm_compute; left).
  split; [split; [exact H0|vm_compute; reflexivity]|].
  apply (X14_create_then_read (host := counter_host) (uni := unicode_15) (lax := canonical_only)
           _ _ d 0 _ 7 H0). by vm_compute.
Defined.

(** X15: every schema, the payload schemas included, reads back what it
    writes.  An accepted instance that has a JSON form (its strings hold no
    lone surrogate) and whose datetimes have a UTC offset of whole minutes
    (or none) is, once written as JSON and validated by its class, the
    instance itself; the document has one member per field, in field order,
    with strings and [null] for values. *)
Theorem X15_json_roundtrip {host : Host} {uni : Unicode} {lax : Coercions}
    cls d w o doc w2 :
  cls ∈ all_schemas →
  (model_validate cls d w).1 = Ok o →
  model_dump_json o = Some doc →
  Forall (λ kv, json_exact kv.2 = true) (obj_dict o) →
  model_validate_json cls doc w2 = (Ok o, w2) ∧
  doc.*1 = field_names cls ∧
  forallb (λ kv, is_json kv.2) doc = true.
Proof.
  intros Hcls Ho Hdoc Hex. split_and!.
  - eapply model_roundtrip;
      [by apply field_names_NoDup|by apply all_defaults_stable|done..].
  - apply model_dump_json_Some in Hdoc as [-> _].
    apply model_validate_Ok in Ho as [Herrs ->]. cbn [obj_dict].
    rewrite <-list_fmap_compose.
    erewrite (list_fmap_ext _ fst); [|done].
    by apply validate_fields_names.
  - apply model_dump_json_Some in Hdoc as [-> Hser].
    apply forallb_forall. intros [k v] Hin.
    apply in_map_iff in Hin as ([k' v'] & [= <- <-] & Hin).
    apply to_jsonable_is_json.
    rewrite Forall_forall in Hser. by apply (Hser (k', v')), list_elem_of_In.
Qed.

Lemma X15_json_roundtrip_witness :
  let d : input :=
    list_to_map [("professor", VBytes (blit "Ada"));
                 ("start_date", VDate new_year_2025)] in
  ∃ o doc,
    (lectures.LectureUpdate ∈ all_schemas ∧
     (model_validate (host := counter_host) (uni := unicode_15) (lax := canonical_only)
        lectures.LectureUpdate d 5).1 = Ok o ∧
     model_dump_json o = Some doc ∧
     Forall (λ kv, json_exact kv.2 = true) (obj_dict o)) ∧
    model_validate_json (host := counter_host) (uni := unicode_15) (lax := canonical_only)
      lectures.LectureUpdate doc 77 = (Ok o, 77) ∧
    doc.*1 = field_names lectures.LectureUpdate ∧
    forallb (λ kv, is_json kv.2) doc = true.
Proof.
  intros d. do 2 eexists.
  assert (lectures.LectureUpdate ∈ all_schemas) as H0
    by (unfold all_schemas; rewrite !elem_of_cons; tauto).
  split; [split_and!; [exact H0|vm_compute; reflexivity|vm_compute; reflexivity|]|].
  - repeat (apply Forall_cons_2; [by vm_compute|]). apply Forall_nil_2.
  - apply (X15_json_roundtrip (host := counter_host) (uni := unicode_15)
             (lax := canonical_only) _ d 5 _ _ 77 H0).
    + by vm_compute.
    + by vm_compute.
    + repeat (apply Forall_cons_2; [by vm_compute|]). apply Forall_nil_2.
Defined.

(** X16: a read object sent back as a creation payload.  The JSON form of
    a read object, when it has one, is accepted by the creation schema of
    its group; the metadata are ignored, and the object is the one that the
    creation schema gives on the input from which the read object was
    made. *)
Theorem X16_read_json_as_create {host : Host} {uni : Unicode} {lax : Coercions}
    create read d w o doc w2 :
  (create, read) ∈ create_read →
  (model_validate read d w).1 = Ok o →
  model_dump_json o = Some doc →
  ∃ oc, (model_validate create d w).1 = Ok oc ∧
        model_validate_json create doc w2 = (Ok oc, w2) ∧
        obj_dict oc `prefix_of` obj_dict o.
Proof.
  intros Hcr Ho [-> _]%model_dump_json_Some.
  destruct (create_read_fields _ _ Hcr) as (f1 & f2 & f3 & Hfields & _).
  destruct (create_in_all_schemas _ _ Hcr) as [Hc Hr].
  apply model_validate_Ok in Ho as [Herrs ->].
  pose proof (validate_fields_names _ d w Herrs) as Hnames.
  pose proof (validate_fields_app (cls_fields create)
                [("id", f1); ("created_at", f2); ("updated_at", f3)] d w) as Happ.
  rewrite <-Hfields in Happ. cbv zeta in Happ.
  rewrite Happ in Herrs. cbn [fst] in Herrs. apply app_eq_nil in Herrs as [He1 _].
  pose proof (attrs_exact _ d w (create_fields_exact _ _ Hcr) He1) as Hexact.
  exists (Object (cls_name create) (validate_fields (cls_fields create) d w).1.2).
  split_and!.
  - rewrite model_validate_unfold. cbv zeta. cbn [fst]. by rewrite He1.
  - unfold model_validate_json. rewrite model_validate_unfold.
    rewrite (roundtrip_fields _ d w); [done|by apply all_defaults_stable|done|].
    intros k v Hin. split.
    { rewrite Forall_forall in Hexact. by apply (Hexact (k, v)). }
    cbn [obj_dict].
    apply elem_of_list_to_map_1.
    + rewrite fmap_reverse, reverse_Permutation, <-list_fmap_compose.
      erewrite (list_fmap_ext _ fst); [|done].
      rewrite Hnames. by apply field_names_NoDup.
    + apply elem_of_reverse.
      apply (list_elem_of_fmap_2 (λ kv, (kv.1, to_jsonable kv.2)) _ (k, v)).
      rewrite Happ. cbn [fst snd]. apply elem_of_app. by left.
  - cbn [obj_dict]. rewrite Happ. cbn [fst snd]. by eexists.
Qed.

Lemma X16_read_json_as_create_witness :
  let d : input :=
    list_to_map [("code", VStr (lit "abc1234")); ("professor", VStr (lit "Ada"))] in
  ∃ o doc,
    ((lectures.LectureCreate, lectures.LectureRead) ∈ create_read ∧
     (model_validate (host := counter_host) (uni := unicode_15) (lax := canonical_only)
        lectures.LectureRead d 5).1 = Ok o ∧
     model_dump_json o = Some doc) ∧
    ∃ oc, (model_validate (host := counter_host) (uni := unicode_15) (lax := canonical_only)
             lectures.LectureCreate d 5).1 = Ok oc ∧
          model_validate_json (host := counter_host) (uni := unicode_15) (lax := canonical_only)
            lectures.LectureCreate doc 77 = (Ok oc, 77) ∧
          obj_dict oc `prefix_of` obj_dict o.
Proof.
  intros d. do 2 eexists.
  assert ((lectures.LectureCreate, lectures.LectureRead) ∈ create_read) as H0
    by (vm_compute; right; left).
  split; [split_and!; [exact H0|vm_compute; reflexivity|vm_compute; reflexivity]|].
  apply (X16_read_json_as_create (host := counter_host) (uni := unicode_15)
           (lax := canonical_only) _ _ d 5 _ _ 77 H0); by vm_compute.
Defined.

(** X17: the example given with each field is a valid value of the field,
    written as the schema itself writes it: validating the example gives a
    value whose JSON form is the example again. *)
Theorem X17_field_examples_valid {uni : Unicode} {lax : Coercions} cls name f ex :
  cls ∈ all_schemas →
  (name, f) ∈ cls_fields cls →
  example f = Some ex →
  ∃ v, validate (field_annotation f) (VStr (lit ex)) = Ok v ∧
       to_jsonable v = VStr (lit ex).
Proof.
  intros Hcls Hin Hex.
  pose proof (field_examples_canonical cls Hcls) as Hall.
  rewrite forallb_forall in Hall.
  assert (In (name, f) (cls_fields cls)) as Hin' by by apply list_elem_of_In.
  specialize (Hall (name, f) Hin'). cbn [snd] in Hall. rewrite Hex in Hall.
  destruct (validate (lax := canonical_only) (field_annotation f) (VStr (lit ex)))
    as [v|] eqn:Hv; [|done].
  exists v. split; [by apply validate_canonical|].
  destruct (to_jsonable v); try done.
  f_equal. by eapply bool_decide_eq_true_1.
Qed.

Lemma X17_field_examples_valid_witness :
  let f := Field datetime_t (DefaultFactory datetime_utcnow)
             (Some "Creation timestamp (UTC).") (Some "2025-01-15T10:20:30Z") in
  (lectures.LectureRead ∈ all_schemas ∧
   ("created_at", f) ∈ cls_fields lectures.LectureRead ∧
   example f = Some "2025-01-15T10:20:30Z") ∧
  ∃ v, validate (uni := unicode_15) (lax := canonical_only) datetime_t (VStr (lit "2025-01-15T10:20:30Z")) = Ok v ∧
       to_jsonable v = VStr (lit "2025-01-15T10:20:30Z").
Proof.
  intros f.
  assert (lectures.LectureRead ∈ all_schemas) as H0
    by (unfold all_schemas; rewrite !elem_of_cons; tauto).
  assert (("created_at", f) ∈ cls_fields lectures.LectureRead) as H1
    by (compute_fields; do 4 apply list_elem_of_further; apply list_elem_of_here).
  split; [done|].
  apply (X17_field_examples_valid (uni := unicode_15) (lax := canonical_only) _ "created_at" f _ H0 H1 eq_refl).
Defined.

(** X18: the examples of [model_config].  The example of [LectureRead] is
    accepted by its class.  Every other class example gives the word
    [Lovelace] for the date: it is accepted only if that word is read as a
    date, and when it is rejected all its errors are at the date field. *)
Theorem X18_class_examples {host : Host} {uni : Unicode} {lax : Coercions} cls ex w :
  cls ∈ all_schemas →
  ex ∈ cls_examples cls →
  (is_ok (model_validate_json cls (example_doc ex) w).1 = true ↔
   cls = lectures.LectureRead ∨ is_ok (lax_date (VStr (lit "Lovelace"))) = true) ∧
  (∀ e, e ∈ errors (model_validate_json cls (example_doc ex) w).1 →
        (cls, loc e) ∈ dated_schemas).
Proof.
  intros Hcls Hex. unfold model_validate_json.
  rewrite model_validate_accepts, model_validate_errors.
  schema_cases Hcls; class_example Hex.
  all: split;
    [ compute_fields; cbn [forallb fst snd]; example_fields;
      cbn [andb]; rewrite ?andb_true_r
    | example_errors ].
  all: split; [by auto|intros [Heq|?]; [|done]].
  all: try done.
  all: by apply (f_equal cls_name) in Heq.
Qed.

Lemma X18_class_examples_witness :
  let ex := [("code", "abc1234"); ("staff", "Ada"); ("founding_date", "Lovelace")] in
  (departments.DepartmentCreate ∈ all_schemas ∧
   ex ∈ cls_examples departments.DepartmentCreate) ∧
  (is_ok (model_validate_json (host := counter_host) (uni := unicode_15) (lax := canonical_only)
            departments.DepartmentCreate (example_doc ex) 0).1 = true ↔
   departments.DepartmentCreate = lectures.LectureRead ∨
   is_ok (lax_date (Coercions := canonical_only) (VStr (lit "Lovelace"))) = true) ∧
  (∀ e, e ∈ errors (model_validate_json (host := counter_host) (uni := unicode_15) (lax := canonical_only)
                      departments.DepartmentCreate (example_doc ex) 0).1 →
        (departments.DepartmentCreate, loc e) ∈ dated_schemas).
Proof.
  intros ex.
  assert (departments.DepartmentCreate ∈ all_schemas) as H0
    by (unfold all_schemas; rewrite !elem_of_cons; tauto).
  assert (ex ∈ cls_examples departments.DepartmentCreate) as H1
    by apply list_elem_of_here.
  split; [done|].
  apply (X18_class_examples (host := counter_host) (uni := unicode_15) (lax := canonical_only) _ ex 0 H0 H1).
Defined.
